(** * Payment orchestration and webhook reconciliation (payments.service.ts)

    A shallow embedding of [PaymentsService] and of the [ConfigService]
    getters it reads.  The service is effectful: it talks to the store
    (Prisma), to the payment gateway, to the antifraud service and to the
    notification service, and it throws NestJS exceptions.  The embedding
    uses a small state-and-exception monad: the state is the store together
    with the chronological trace of every call made on a collaborator, and a
    computation either returns a value or throws.  The injected collaborators
    are records of functions, so that every theorem holds whatever the
    gateway, the antifraud service, the mailer or a failing database answer.

    Strings are byte strings: the UTF-8 encoding of the source's strings,
    as [JsString.utf8] gives it.
    Calls on [this.logger] have no effect on any result and are left out,
    but for the evaluation of their arguments where it can throw: a [catch]
    block that logs [error.message] reads a property of the caught value,
    which throws a TypeError when that value is [null] or [undefined]. *)

From Stdlib Require Import ZArith List String Ascii Lia Bool.
From Stdlib Require SpecFloat.
Import ListNotations.
Local Open Scope string_scope.

(* ------------------------------------------------------------------ *)
(** ** JavaScript strings and their UTF-8 encoding

    A JavaScript string is a sequence of UTF-16 code units.  Where Node
    turns a string into bytes (as [hmac.update(data)] does when [data] is a
    string, the encoding being 'utf8'), a lead surrogate followed by a
    trail surrogate is one supplementary code point, and every other
    surrogate is written as U+FFFD, the replacement character. *)

Module JsString.

Local Open Scope N_scope.

(** The code units, each below [2^16]. *)
Definition t : Type := list N.

Definition is_lead (u : N) : bool := (0xD800 <=? u) && (u <=? 0xDBFF).
Definition is_trail (u : N) : bool := (0xDC00 <=? u) && (u <=? 0xDFFF).

(** The code points that are encoded. *)
Fixpoint code_points (s : t) : list N :=
  match s with
  | [] => []
  | u :: rest =>
      if is_lead u then
        match rest with
        | l :: rest' =>
            if is_trail l
            then (0x10000 + (u - 0xD800) * 0x400 + (l - 0xDC00))
                   :: code_points rest'
            else 0xFFFD :: code_points rest
        | [] => [0xFFFD]
        end
      else if is_trail u then 0xFFFD :: code_points rest
      else u :: code_points rest
  end.

(** The UTF-8 bytes of a code point. *)
Definition utf8_bytes (c : N) : list N :=
  if c <? 0x80 then [c]
  else if c <? 0x800 then [0xC0 + c / 0x40; 0x80 + c mod 0x40]
  else if c <? 0x10000 then
    [0xE0 + c / 0x1000; 0x80 + (c / 0x40) mod 0x40; 0x80 + c mod 0x40]
  else
    [0xF0 + c / 0x40000; 0x80 + (c / 0x1000) mod 0x40;
     0x80 + (c / 0x40) mod 0x40; 0x80 + c mod 0x40].

Definition utf8 (s : t) : string :=
  string_of_list_ascii
    (map ascii_of_N (flat_map utf8_bytes (code_points s))).

(** The code units of a string of ASCII characters. *)
Definition of_ascii (s : string) : t :=
  map N_of_ascii (list_ascii_of_string s).

(** Bit [i] of a string inverted: bit [i mod 16] of code unit [i / 16];
    the string is unchanged when it has no such bit. *)
Fixpoint flip_bit (i : nat) (s : t) : t :=
  match s with
  | [] => []
  | u :: rest =>
      if (i <? 16)%nat then N.lxor u (2 ^ N.of_nat i) :: rest
      else u :: flip_bit (i - 16) rest
  end.

End JsString.

(* ------------------------------------------------------------------ *)
(** ** JavaScript value conventions *)

Module JS.

(** A nullable string is [option string]; [""] and [null]/[undefined] are
    the falsy ones. *)
Definition truthy (v : option string) : bool :=
  match v with
  | Some s => negb (s =? "")
  | None => false
  end.

(** [a || b] on nullable strings. *)
Definition or_else (a b : option string) : option string :=
  if truthy a then a else b.

(** [a ?? b]. *)
Definition nullish {A : Type} (a b : option A) : option A :=
  match a with
  | Some _ => a
  | None => b
  end.

(** [a ?? d] with a non-null default. *)
Definition nullish_default {A : Type} (a : option A) (d : A) : A :=
  match a with
  | Some x => x
  | None => d
  end.

(** [a || d] with a non-null default. *)
Definition or_default (a : option string) (d : string) : string :=
  match a with
  | Some s => if s =? "" then d else s
  | None => d
  end.

Definition option_string_eqb (a b : option string) : bool :=
  match a, b with
  | Some x, Some y => x =? y
  | None, None => true
  | _, _ => false
  end.

(** [arr?.[0]]. *)
Definition first {A : Type} (arr : option (list A)) : option A :=
  match arr with
  | Some (x :: _) => Some x
  | _ => None
  end.

(** [o?.f] for a nullable object [o] and a nullable field [f]. *)
Definition opt_field {A B : Type} (o : option A) (f : A -> option B) : option B :=
  match o with
  | Some x => f x
  | None => None
  end.

(** The code points that [String.prototype.trim] strips: the white space
    characters (TAB, VT, FF, ZWNBSP and the space separators) and the line
    terminators (LF, CR, LS, PS). *)
Definition white_space : list N :=
  [0x9; 0xA; 0xB; 0xC; 0xD; 0x20; 0xA0; 0x1680;
   0x2000; 0x2001; 0x2002; 0x2003; 0x2004; 0x2005; 0x2006; 0x2007; 0x2008;
   0x2009; 0x200A; 0x2028; 0x2029; 0x202F; 0x205F; 0x3000; 0xFEFF]%N.

(** Their UTF-8 encodings. *)
Definition white_space_bytes : list (list ascii) :=
  map (fun c => list_ascii_of_string (JsString.utf8 [c])) white_space.

(** [l] without its prefix [p], when it starts with it. *)
Fixpoint strip_prefix (p l : list ascii) : option (list ascii) :=
  match p, l with
  | [], _ => Some l
  | a :: p', b :: l' => if Ascii.eqb a b then strip_prefix p' l' else None
  | _ :: _, [] => None
  end.

(** [l] without the first of [prefixes] it starts with. *)
Fixpoint strip_one (prefixes : list (list ascii)) (l : list ascii)
  : option (list ascii) :=
  match prefixes with
  | [] => None
  | p :: others =>
      match strip_prefix p l with
      | Some rest => Some rest
      | None => strip_one others l
      end
  end.

(** [l] without the white space it starts with; [fuel] bounds the number
    of characters dropped. *)
Fixpoint drop_spaces (fuel : nat) (spaces : list (list ascii))
  (l : list ascii) : list ascii :=
  match fuel with
  | O => l
  | S fuel' =>
      match strip_one spaces l with
      | Some rest => drop_spaces fuel' spaces rest
      | None => l
      end
  end.

(** [String.prototype.trim], on the UTF-8 encoding of the string: white
    space is dropped at the start, then at the end. *)
Definition trim (s : string) : string :=
  let l := list_ascii_of_string s in
  let l' := drop_spaces (List.length l) white_space_bytes l in
  string_of_list_ascii
    (rev (drop_spaces (List.length l') (map (@rev ascii) white_space_bytes)
                      (rev l'))).

End JS.

(* ------------------------------------------------------------------ *)
(** ** Bits of a byte string *)

(** Bit [k] (0 to 7) of a byte inverted. *)
Definition flip_ascii (k : nat) (c : ascii) : ascii :=
  let '(Ascii b0 b1 b2 b3 b4 b5 b6 b7) := c in
  match k with
  | 0 => Ascii (negb b0) b1 b2 b3 b4 b5 b6 b7
  | 1 => Ascii b0 (negb b1) b2 b3 b4 b5 b6 b7
  | 2 => Ascii b0 b1 (negb b2) b3 b4 b5 b6 b7
  | 3 => Ascii b0 b1 b2 (negb b3) b4 b5 b6 b7
  | 4 => Ascii b0 b1 b2 b3 (negb b4) b5 b6 b7
  | 5 => Ascii b0 b1 b2 b3 b4 (negb b5) b6 b7
  | 6 => Ascii b0 b1 b2 b3 b4 b5 (negb b6) b7
  | _ => Ascii b0 b1 b2 b3 b4 b5 b6 (negb b7)
  end.

(** Bit [i] of a string inverted: bit [i mod 8] of byte [i / 8]; the string
    is unchanged when it has no such bit. *)
Fixpoint flip_bit (i : nat) (s : string) : string :=
  match s with
  | EmptyString => EmptyString
  | String c rest =>
      if (i <? 8)%nat then String (flip_ascii i c) rest
      else String c (flip_bit (i - 8) rest)
  end.

(* ------------------------------------------------------------------ *)
(** ** Node's [crypto.createHmac('sha256', key).update(data).digest('hex')]

    HMAC (RFC 2104) over SHA-256 (FIPS 180-4) on byte lists; 32-bit words
    are integers reduced modulo [2^32]. *)

Module Crypto.

Local Open Scope Z_scope.

Definition w32 (x : Z) : Z := x mod 2 ^ 32.
Definition add32 (x y : Z) : Z := w32 (x + y).
Definition rotr (n x : Z) : Z :=
  Z.lor (Z.shiftr x n) (w32 (Z.shiftl x (32 - n))).
Definition Ch (x y z : Z) : Z :=
  Z.lxor (Z.land x y) (Z.land (Z.lxor x 0xffffffff) z).
Definition Maj (x y z : Z) : Z :=
  Z.lxor (Z.lxor (Z.land x y) (Z.land x z)) (Z.land y z).
Definition Sigma0 (x : Z) : Z :=
  Z.lxor (Z.lxor (rotr 2 x) (rotr 13 x)) (rotr 22 x).
Definition Sigma1 (x : Z) : Z :=
  Z.lxor (Z.lxor (rotr 6 x) (rotr 11 x)) (rotr 25 x).
Definition sigma0 (x : Z) : Z :=
  Z.lxor (Z.lxor (rotr 7 x) (rotr 18 x)) (Z.shiftr x 3).
Definition sigma1 (x : Z) : Z :=
  Z.lxor (Z.lxor (rotr 17 x) (rotr 19 x)) (Z.shiftr x 10).

(** The largest [r] in [[lo, hi)] with [r ^ k <= n], by bisection. *)
Fixpoint root_bisect (fuel : nat) (k n lo hi : Z) : Z :=
  match fuel with
  | O => lo
  | S fuel' =>
      let mid := (lo + hi) / 2 in
      if mid ^ k <=? n then root_bisect fuel' k n mid hi
      else root_bisect fuel' k n lo mid
  end.

Definition is_prime (n : nat) : bool :=
  forallb (fun d => negb (Nat.eqb (Nat.modulo n d) 0)) (seq 2 (n - 2)).

(** The first sixty-four primes. *)
Definition primes : list Z :=
  map Z.of_nat (filter is_prime (seq 2 310)).

(** FIPS 180-4, 4.2.2: the first 32 bits of the fractional parts of the
    cube roots of the first sixty-four primes. *)
Definition K256 : list Z :=
  Eval vm_compute in
    map (fun p => w32 (root_bisect 40 3 (p * 2 ^ 96) 0 (2 ^ 36))) primes.

(** FIPS 180-4, 5.3.3: the first 32 bits of the fractional parts of the
    square roots of the first eight primes. *)
Definition H256 : list Z :=
  Eval vm_compute in
    map (fun p => w32 (root_bisect 40 2 (p * 2 ^ 64) 0 (2 ^ 36)))
        (firstn 8 primes).

(** Big-endian 32-bit words of a block of bytes. *)
Fixpoint words_of_bytes (bs : list Z) : list Z :=
  match bs with
  | b0 :: b1 :: b2 :: b3 :: rest =>
      (((b0 * 256 + b1) * 256 + b2) * 256 + b3) :: words_of_bytes rest
  | _ => []
  end.

Definition bytes_of_word (w : Z) : list Z :=
  [Z.shiftr w 24 mod 256; Z.shiftr w 16 mod 256; Z.shiftr w 8 mod 256;
   w mod 256].

(** The message schedule is kept as a window of sixteen words
    [W t .. W (t+15)]; this is [W (t+16)]. *)
Definition schedule_next (win : list Z) : Z :=
  add32 (add32 (sigma1 (nth 14 win 0)) (nth 9 win 0))
        (add32 (sigma0 (nth 1 win 0)) (nth 0 win 0)).

Definition round (st : list Z * list Z) (k : Z) : list Z * list Z :=
  let '(v, win) := st in
  match v with
  | [a; b; c; d; e; f; g; h] =>
      let w := nth 0 win 0 in
      let t1 := add32 (add32 (add32 h (Sigma1 e)) (add32 (Ch e f g) k)) w in
      let t2 := add32 (Sigma0 a) (Maj a b c) in
      ([add32 t1 t2; a; b; c; add32 d t1; e; f; g],
       (tl win ++ [schedule_next win])%list)
  | _ => st
  end.

Definition compress (h : list Z) (block : list Z) : list Z :=
  let '(v, _) := fold_left round K256 (h, words_of_bytes block) in
  map (fun p => add32 (fst p) (snd p)) (combine h v).

Definition pad (msg : list Z) : list Z :=
  let len := Z.of_nat (List.length msg) in
  let zeros := Z.to_nat ((55 - len) mod 64) in
  (msg ++ [0x80] ++ repeat 0 zeros
       ++ bytes_of_word (Z.shiftr (len * 8) 32)
       ++ bytes_of_word (w32 (len * 8)))%list.

Fixpoint absorb (n : nat) (h : list Z) (bs : list Z) : list Z :=
  match n with
  | O => h
  | S n' => absorb n' (compress h (firstn 64 bs)) (skipn 64 bs)
  end.

Definition sha256 (msg : list Z) : list Z :=
  let p := pad msg in
  flat_map bytes_of_word (absorb (Nat.div (List.length p) 64) H256 p).

Definition hmac_sha256 (key msg : list Z) : list Z :=
  let k0 := if 64 <? Z.of_nat (List.length key) then sha256 key else key in
  let k := (k0 ++ repeat 0 (64 - List.length k0)%nat)%list in
  sha256 (map (Z.lxor 0x5c) k ++ sha256 (map (Z.lxor 0x36) k ++ msg))%list.

Definition bytes_of_string (s : string) : list Z :=
  map (fun c => Z.of_N (N_of_ascii c)) (list_ascii_of_string s).

Definition hex_digit (d : Z) : ascii :=
  ascii_of_N (Z.to_N (if d <? 10 then 48 + d else 87 + d)).

Fixpoint hex_of_bytes (bs : list Z) : string :=
  match bs with
  | [] => EmptyString
  | b :: rest =>
      String (hex_digit (b / 16))
             (String (hex_digit (b mod 16)) (hex_of_bytes rest))
  end.

(** [createHmac('sha256', secret).update(body).digest('hex')]. *)
Definition hmac_sha256_hex (secret body : string) : string :=
  hex_of_bytes (hmac_sha256 (bytes_of_string secret) (bytes_of_string body)).

End Crypto.

(* ------------------------------------------------------------------ *)
(** ** Data model (the Prisma client types the service uses) *)

Inductive OrderStatus : Type :=
  | PENDING | PAID | CANCELLED | SHIPPED | DELIVERED.

(** A Prisma enum value is its name at run time. *)
Definition OrderStatus_name (s : OrderStatus) : string :=
  match s with
  | PENDING => "PENDING"
  | PAID => "PAID"
  | CANCELLED => "CANCELLED"
  | SHIPPED => "SHIPPED"
  | DELIVERED => "DELIVERED"
  end.

Definition OrderStatus_eqb (a b : OrderStatus) : bool :=
  match a, b with
  | PENDING, PENDING | PAID, PAID | CANCELLED, CANCELLED
  | SHIPPED, SHIPPED | DELIVERED, DELIVERED => true
  | _, _ => false
  end.

Inductive TransactionType : Type := PAYMENT.

(** A JavaScript number: an IEEE 754 double. *)
Definition Number : Type := SpecFloat.spec_float.

(** The same double (two NaN are the same, [+0] and [-0] are not). *)
Definition Number_eqb (x y : Number) : bool :=
  match x, y with
  | SpecFloat.S754_zero a, SpecFloat.S754_zero b
  | SpecFloat.S754_infinity a, SpecFloat.S754_infinity b => Bool.eqb a b
  | SpecFloat.S754_nan, SpecFloat.S754_nan => true
  | SpecFloat.S754_finite a m e, SpecFloat.S754_finite b n f =>
      Bool.eqb a b && Pos.eqb m n && Z.eqb e f
  | _, _ => false
  end.

(** [Prisma.Decimal], as an amount in cents.  [toNumber] is the double
    nearest to the amount: the cents divided by a hundred, rounded once, to
    nearest, ties to even. *)
Definition Decimal : Type := Z.
Definition toNumber (d : Decimal) : Number :=
  SpecFloat.SFdiv 53 1024
    match d with
    | Z0 => SpecFloat.S754_zero false
    | Zpos cents => SpecFloat.S754_finite false cents 0
    | Zneg cents => SpecFloat.S754_finite true cents 0
    end
    (SpecFloat.S754_finite false 100 0).

Record User : Type := mkUser {
  user_email : option string;
  user_name : option string;
  user_phone : option string;
  user_cpf : option string
}.

Record Product : Type := mkProduct {
  product_id : string;
  product_name : string;
  product_price : Decimal
}.

Record OrderItem : Type := mkOrderItem {
  item_product : Product;
  item_quantity : Z;
  item_price : Decimal
}.

(** [OrderWithDetails]: an order row with its [user] and [items]. *)
Record Order : Type := mkOrder {
  order_id : string;
  order_status : OrderStatus;
  order_userId : option string;
  order_guestId : option string;
  order_guestEmail : option string;
  order_guestPhone : option string;
  order_guestCpf : option string;
  order_totalAmount : Decimal;
  order_shippingService : option string;
  order_shippingPrice : option Decimal;
  order_shippingAddressZipCode : string;
  order_shippingAddressStreet : string;
  order_shippingAddressNumber : string;
  order_shippingAddressComplement : option string;
  order_shippingAddressNeighborhood : string;
  order_shippingAddressCity : string;
  order_shippingAddressState : string;
  order_user : option User;
  order_items : list OrderItem
}.

Record Transaction : Type := mkTransaction {
  tx_id : nat;
  tx_userId : option string;
  tx_orderId : option string;
  tx_amount : Decimal;
  tx_type : TransactionType;
  tx_status : string;
  tx_description : option string;
  tx_gatewayTransactionId : option string;
  tx_transactionRef : option string;
  tx_qrCodeUrl : option string;
  tx_antifraudStatus : option string;
  tx_updatedAt : string
}.

(** The store: the two tables the service reads and writes, rows in
    insertion order. *)
Record Store : Type := mkStore {
  orders : list Order;
  transactions : list Transaction
}.

(* ------------------------------------------------------------------ *)
(** ** Exceptions *)

(** The classes of exception objects the service throws or tests;
    [Error] stands for an object with a message that is an instance of none
    of the others. *)
Inductive ExceptionClass : Type :=
  | NotFoundException
  | BadRequestException
  | UnauthorizedException
  | InternalServerErrorException
  | TypeError
  | Error.

Record Exception : Type := mkException {
  exn_class : ExceptionClass;
  exn_message : string
}.

Definition ExceptionClass_eqb (a b : ExceptionClass) : bool :=
  match a, b with
  | NotFoundException, NotFoundException
  | BadRequestException, BadRequestException
  | UnauthorizedException, UnauthorizedException
  | InternalServerErrorException, InternalServerErrorException
  | TypeError, TypeError
  | Error, Error => true
  | _, _ => false
  end.

Definition exn (c : ExceptionClass) (msg : string) : Exception :=
  mkException c msg.

(** [null] and [undefined]. *)
Inductive Nullish : Type :=
  | JsNull
  | JsUndefined.

Definition Nullish_name (v : Nullish) : string :=
  match v with
  | JsNull => "null"
  | JsUndefined => "undefined"
  end.

(** What a [throw] or a rejected promise carries.  JavaScript lets it be
    any value: an exception object, which has a class and a message;
    [null] or [undefined], of which no property can be read; or any other
    value (a string, a number, an object without message), which has no
    [message] and is an instance of no class. *)
Inductive Thrown : Type :=
  | Raised (e : Exception)
  | ThrownNullish (v : Nullish)
  | ThrownValue (v : string).

Coercion Raised : Exception >-> Thrown.

(** The TypeError of reading [property] of [null] or [undefined]. *)
Definition type_error (v : Nullish) (property : string) : Exception :=
  exn TypeError
      ("Cannot read properties of " ++ Nullish_name v
         ++ " (reading '" ++ property ++ "')").

Inductive Outcome (A : Type) : Type :=
  | Return (a : A)
  | Throw (e : Thrown).
Arguments Return {A} a.
Arguments Throw {A} e.

(** [error.message], for a caught value [error]: [None] is [undefined]. *)
Definition message_of (error : Thrown) : Outcome (option string) :=
  match error with
  | Raised e => Return (Some (exn_message e))
  | ThrownNullish v => Throw (type_error v "message")
  | ThrownValue _ => Return None
  end.

(* ------------------------------------------------------------------ *)
(** ** Payloads exchanged with the collaborators *)

Record Customer : Type := mkCustomer {
  customer_email : string;
  customer_fullName : string;
  customer_phone : option string;
  customer_cpf : option string
}.

Record ShippingAddress : Type := mkShippingAddress {
  addr_cep : string;
  addr_street : string;
  addr_number : string;
  addr_complement : option string;
  addr_neighborhood : string;
  addr_city : string;
  addr_state : string
}.

Record PayloadItem : Type := mkPayloadItem {
  pitem_name : string;
  pitem_quantity : Z;
  pitem_unit_amount : Decimal
}.

Record ChargeRequest : Type := mkChargeRequest {
  req_orderId : string;
  req_amount : Decimal;
  req_description : string;
  req_customer : Customer;
  req_shippingAddress : ShippingAddress;
  req_shippingService : option string;
  req_shippingPrice : option Decimal;
  req_items : list PayloadItem
}.

Record CardDetails : Type := mkCardDetails {
  card_token : option string;
  card_holderName : option string;
  card_cpf : option string;
  card_installments : option Z
}.

Record ProcessPaymentDto : Type := mkProcessPaymentDto {
  cardToken : option string;
  cardHolderName : option string;
  cardCpf : option string;
  cardInstallments : option Z;
  cardBrand : option string
}.

Record AntifraudItem : Type := mkAntifraudItem {
  af_productId : string;
  af_quantity : Z;
  af_price : Number
}.

Record AntifraudCard : Type := mkAntifraudCard {
  af_brand : option string;
  af_installments : option Z
}.

Record AntifraudRequest : Type := mkAntifraudRequest {
  af_orderId : string;
  af_amount : Number;
  af_customerEmail : string;
  af_customerCpf : option string;
  af_paymentMethod : string;
  af_items : list AntifraudItem;
  af_cardDetails : option AntifraudCard
}.

Record AntifraudResult : Type := mkAntifraudResult {
  af_status : string
}.

Inductive PixStatus : Type :=
  | PIX_PENDING | PIX_COMPLETED | PIX_CANCELED | PIX_EXPIRED | PIX_FAILED.

Record PixChargeResponseDto : Type := mkPixChargeResponseDto {
  pix_transactionId : string;
  pix_status : PixStatus;
  pix_brCode : string;
  pix_qrCodeImage : string;
  pix_expiresAt : string;
  pix_amount : Number;
  pix_description : string;
  pix_orderId : string
}.

(** What [processDirectCreditCardPayment] answers. *)
Record CardChargeResult : Type := mkCardChargeResult {
  cc_transactionId : string;
  cc_status : string;
  cc_transactionRef : string
}.

(** What [createPagSeguroCheckoutRedirect] answers. *)
Record CheckoutRedirect : Type := mkCheckoutRedirect {
  cr_pagSeguroCheckoutId : string;
  cr_redirectUrl : string
}.

Record Link : Type := mkLink {
  link_rel : string;
  link_href : option string
}.

Record Charge : Type := mkCharge {
  charge_id : option string;
  charge_status : option string
}.

(** What [getCheckoutDetails] answers. *)
Record CheckoutDetails : Type := mkCheckoutDetails {
  checkout_id : option string;
  checkout_status : option string;
  checkout_charges : option (list Charge);
  checkout_links : option (list Link)
}.

Record QrCode : Type := mkQrCode {
  qr_status : option string;
  qr_text : option string;
  qr_links : option (list Link);
  qr_expiration_date : option string
}.

(** What [getOrderDetails] answers. *)
Record OrderDetails : Type := mkOrderDetails {
  qr_codes : option (list QrCode)
}.

(** The response of [processCreditCardPayment] (declared [any]): the
    gateway's answer on a first payment, the rebuilt object afterwards. *)
Record ExistingCardResponse : Type := mkExistingCardResponse {
  ecr_transactionId : string;
  ecr_status : string;
  ecr_transactionRef : option string;
  ecr_amount : Number;
  ecr_description : string;
  ecr_orderId : string
}.

Inductive CardResponse : Type :=
  | CardCharged (r : CardChargeResult)
  | CardExisting (r : ExistingCardResponse).

(** The response of [initiatePagSeguroRedirectCheckout]: [{ redirectUrl }]
    on a first call, with [pagSeguroCheckoutId] when rebuilt. *)
Record RedirectResponse : Type := mkRedirectResponse {
  rr_redirectUrl : string;
  rr_pagSeguroCheckoutId : option string
}.

(** The [{ message }] object the webhook handler returns. *)
Record WebhookAck : Type := mkWebhookAck {
  ack_message : string
}.

(** The [data] of [prisma.transaction.create]. *)
Record TransactionCreate : Type := mkTransactionCreate {
  new_userId : option string;
  new_orderId : option string;
  new_amount : Decimal;
  new_type : TransactionType;
  new_status : string;
  new_description : option string;
  new_gatewayTransactionId : option string;
  new_transactionRef : option string;
  new_qrCodeUrl : option string;
  new_antifraudStatus : option string
}.

(** A write on the store, as passed to Prisma. *)
Inductive DbWrite : Type :=
  | TransactionCreateW (data : TransactionCreate)
  | TransactionUpdateStatus (id : nat) (status : string)
  | OrderUpdateStatus (id : string) (status : OrderStatus).

(* ------------------------------------------------------------------ *)
(** ** The injected collaborators *)

(** The environment [ConfigService] reads. *)
Record NestConfigService : Type := mkNestConfigService {
  BACKEND_URL : option string;
  PAGSEGURO_WEBHOOK_SECRET : option string
}.

Record PagSeguroService : Type := mkPagSeguroService {
  createPagSeguroPixCharge :
    ChargeRequest -> string -> Outcome PixChargeResponseDto;
  processDirectCreditCardPayment :
    ChargeRequest -> CardDetails -> string -> Outcome CardChargeResult;
  createPagSeguroCheckoutRedirect :
    ChargeRequest -> string -> Outcome CheckoutRedirect;
  getCheckoutDetails : string -> Outcome CheckoutDetails;
  getOrderDetails : string -> Outcome OrderDetails
}.

Record AntifraudService : Type := mkAntifraudService {
  analyzeTransaction : AntifraudRequest -> Outcome AntifraudResult
}.

Record NotificationsService : Type := mkNotificationsService {
  sendPaymentConfirmationEmail : string -> string -> Number -> Outcome unit;
  sendPaymentCancellationEmail : string -> string -> Outcome unit
}.

(** The database as a collaborator: a lookup (by its key) or a write may
    fail whatever the rows are, and rows are stamped with the current time. *)
Record PrismaService : Type := mkPrismaService {
  db_read_fault : string -> option Thrown;
  db_fault : DbWrite -> option Thrown;
  db_now : string
}.

(** [OrdersService.findOneById] reads the store; a read may fail. *)
Record OrdersService : Type := mkOrdersService {
  orders_fault : string -> option Thrown
}.

Record Services : Type := mkServices {
  prisma : PrismaService;
  ordersService : OrdersService;
  pagSeguroService : PagSeguroService;
  nestConfigService : NestConfigService;
  notificationsService : NotificationsService;
  antifraudService : AntifraudService
}.

(* ------------------------------------------------------------------ *)
(** ** Trace of calls on the collaborators *)

Inductive Event : Type :=
  | OrdersFindOneById (orderId : string)
  | TransactionFindUnique (orderId : string)
  | TransactionFindFirst (gatewayTransactionId : string)
  | PrismaWrite (w : DbWrite)
  | PrismaTransaction (ws : list DbWrite)
  | AnalyzeTransaction (r : AntifraudRequest)
  | CreatePagSeguroPixCharge (r : ChargeRequest) (backendUrl : string)
  | ProcessDirectCreditCardPayment
      (r : ChargeRequest) (card : CardDetails) (backendUrl : string)
  | CreatePagSeguroCheckoutRedirect (r : ChargeRequest) (backendUrl : string)
  | GetCheckoutDetails (id : string)
  | GetOrderDetails (id : string)
  | SendPaymentConfirmationEmail (to orderId : string) (amount : Number)
  | SendPaymentCancellationEmail (to orderId : string).

(** The three gateway-create operations. *)
Definition is_gateway_create (e : Event) : bool :=
  match e with
  | CreatePagSeguroPixCharge _ _
  | ProcessDirectCreditCardPayment _ _ _
  | CreatePagSeguroCheckoutRedirect _ _ => true
  | _ => false
  end.

(** A write request sent to the store. *)
Definition is_store_write (e : Event) : bool :=
  match e with
  | PrismaWrite _ | PrismaTransaction _ => true
  | _ => false
  end.

Definition count_events (p : Event -> bool) (t : list Event) : nat :=
  List.length (filter p t).

(* ------------------------------------------------------------------ *)
(** ** The state-and-exception monad *)

(** What a request runs against: the store and the calls made so far. *)
Record World : Type := mkWorld {
  db : Store;
  trace : list Event
}.

Definition M (A : Type) : Type := World -> Outcome A * World.

Definition ret {A : Type} (a : A) : M A := fun w => (Return a, w).

Definition throw {A : Type} (e : Thrown) : M A := fun w => (Throw e, w).

Definition bind {A B : Type} (m : M A) (k : A -> M B) : M B :=
  fun w =>
    match m w with
    | (Return a, w') => k a w'
    | (Throw e, w') => (Throw e, w')
    end.

(** [try { m } catch (error) { h error }]. *)
Definition try_catch {A : Type} (m : M A) (h : Thrown -> M A) : M A :=
  fun w =>
    match m w with
    | (Return a, w') => (Return a, w')
    | (Throw e, w') => h e w'
    end.

Definition lift {A : Type} (o : Outcome A) : M A := fun w => (o, w).

(** A call on a collaborator: recorded, then answered. *)
Definition call {A : Type} (ev : Event) (answer : Outcome A) : M A :=
  fun w => (answer, mkWorld (db w) (trace w ++ [ev])).

Definition read_db : M Store := fun w => (Return (db w), w).

Definition write_db (s : Store) : M unit :=
  fun w => (Return tt, mkWorld s (trace w)).

Declare Scope monad_scope.
Delimit Scope monad_scope with monad.
Notation "x <- m ;; k" := (bind m (fun x => k))
  (at level 61, m at next level, right associativity) : monad_scope.
Notation "m ;;; k" := (bind m (fun _ => k))
  (at level 61, right associativity) : monad_scope.
Local Open Scope monad_scope.

(* ------------------------------------------------------------------ *)
(** ** The store, as Prisma serves it *)

Module Prisma.

Definition find_order (id : string) (s : Store) : option Order :=
  find (fun o => order_id o =? id) (orders s).

(** [findUnique({ where: { orderId } })]. *)
Definition find_transaction_by_order (orderId : string) (s : Store)
  : option Transaction :=
  find (fun t => JS.option_string_eqb (tx_orderId t) (Some orderId))
       (transactions s).

(** [findFirst({ where: { gatewayTransactionId } })]. *)
Definition find_transaction_by_gateway (gid : string) (s : Store)
  : option Transaction :=
  find (fun t => JS.option_string_eqb (tx_gatewayTransactionId t) (Some gid))
       (transactions s).

Definition find_transaction (id : nat) (s : Store) : option Transaction :=
  find (fun t => Nat.eqb (tx_id t) id) (transactions s).

Definition fresh_id (ts : list Transaction) : nat :=
  S (fold_right Nat.max O (map tx_id ts)).

Definition set_transaction_status (now : string) (status : string)
  (t : Transaction) : Transaction :=
  mkTransaction (tx_id t) (tx_userId t) (tx_orderId t) (tx_amount t)
    (tx_type t) status (tx_description t) (tx_gatewayTransactionId t)
    (tx_transactionRef t) (tx_qrCodeUrl t) (tx_antifraudStatus t) now.

Definition set_order_status (status : OrderStatus) (o : Order) : Order :=
  mkOrder (order_id o) status (order_userId o) (order_guestId o)
    (order_guestEmail o) (order_guestPhone o) (order_guestCpf o)
    (order_totalAmount o) (order_shippingService o) (order_shippingPrice o)
    (order_shippingAddressZipCode o) (order_shippingAddressStreet o)
    (order_shippingAddressNumber o) (order_shippingAddressComplement o)
    (order_shippingAddressNeighborhood o) (order_shippingAddressCity o)
    (order_shippingAddressState o) (order_user o) (order_items o).

Definition new_transaction (id : nat) (now : string) (d : TransactionCreate)
  : Transaction :=
  mkTransaction id (new_userId d) (new_orderId d) (new_amount d) (new_type d)
    (new_status d) (new_description d) (new_gatewayTransactionId d)
    (new_transactionRef d) (new_qrCodeUrl d) (new_antifraudStatus d) now.

(** What a write does to the rows.  [Transaction.orderId] is unique: a
    second transaction for an order is refused; an update needs its row. *)
Definition apply_write (now : string) (w : DbWrite) (s : Store)
  : Outcome Store :=
  match w with
  | TransactionCreateW d =>
      match JS.opt_field (new_orderId d)
              (fun oid => find_transaction_by_order oid s) with
      | Some _ =>
          Throw (exn Error "Unique constraint failed on the fields: (`orderId`)")
      | None =>
          Return (mkStore (orders s)
                    (transactions s
                       ++ [new_transaction (fresh_id (transactions s)) now d]))
      end
  | TransactionUpdateStatus id status =>
      match find_transaction id s with
      | None => Throw (exn Error "Record to update not found.")
      | Some _ =>
          Return (mkStore (orders s)
                    (map (fun t => if Nat.eqb (tx_id t) id
                                   then set_transaction_status now status t
                                   else t)
                         (transactions s)))
      end
  | OrderUpdateStatus id status =>
      match find_order id s with
      | None => Throw (exn Error "Record to update not found.")
      | Some _ =>
          Return (mkStore
                    (map (fun o => if order_id o =? id
                                   then set_order_status status o
                                   else o)
                         (orders s))
                    (transactions s))
      end
  end.

Definition run_write (p : PrismaService) (w : DbWrite) (s : Store)
  : Outcome Store :=
  match db_fault p w with
  | Some e => Throw e
  | None => apply_write (db_now p) w s
  end.

Fixpoint run_writes (p : PrismaService) (ws : list DbWrite) (s : Store)
  : Outcome Store :=
  match ws with
  | [] => Return s
  | w :: rest =>
      match run_write p w s with
      | Return s' => run_writes p rest s'
      | Throw e => Throw e
      end
  end.

(** [prisma.transaction.findUnique]. *)
Definition transaction_findUnique (p : PrismaService) (orderId : string)
  : M (option Transaction) :=
  s <- read_db ;;
  call (TransactionFindUnique orderId)
       (match db_read_fault p orderId with
        | Some e => Throw e
        | None => Return (find_transaction_by_order orderId s)
        end).

(** [prisma.transaction.findFirst] with [include: { order: true }]. *)
Definition transaction_findFirst_with_order (p : PrismaService)
  (gid : string) : M (option (Transaction * option Order)) :=
  s <- read_db ;;
  call (TransactionFindFirst gid)
       (match db_read_fault p gid with
        | Some e => Throw e
        | None =>
            Return
              (match find_transaction_by_gateway gid s with
               | Some t =>
                   Some (t, JS.opt_field (tx_orderId t)
                                         (fun oid => find_order oid s))
               | None => None
               end)
        end).

(** A single awaited write ([create], [update]). *)
Definition write (p : PrismaService) (w : DbWrite) : M unit :=
  s <- read_db ;;
  s' <- call (PrismaWrite w) (run_write p w s) ;;
  write_db s'.

(** [prisma.$transaction([...])]: the writes are applied in order, and
    either all of them are committed or none is. *)
Definition transaction (p : PrismaService) (ws : list DbWrite) : M unit :=
  s <- read_db ;;
  s' <- call (PrismaTransaction ws) (run_writes p ws s) ;;
  write_db s'.

End Prisma.

(* ------------------------------------------------------------------ *)
(** ** ConfigService (config.service.ts) *)

Module ConfigService.

Definition backendUrl (c : NestConfigService) : string :=
  JS.or_default (BACKEND_URL c) "".

Definition pagSeguroWebhookSecret (c : NestConfigService) : Outcome string :=
  match PAGSEGURO_WEBHOOK_SECRET c with
  | Some secret =>
      if secret =? "" then
        Throw (exn InternalServerErrorException
                 "A variável de ambiente PAGSEGURO_WEBHOOK_SECRET é obrigatória para garantir a validade das notificações.")
      else Return secret
  | None =>
      Throw (exn InternalServerErrorException
               "A variável de ambiente PAGSEGURO_WEBHOOK_SECRET é obrigatória para garantir a validade das notificações.")
  end.

End ConfigService.

(* ------------------------------------------------------------------ *)
(** ** PaymentsService (payments.service.ts) *)

Section PaymentsService.

Variable this : Services.

(** Modelled from the spec: [OrdersService.findOneById] (orders.service.ts)
    is not among the sources; it loads the order by id, with its user and
    items, and answers nothing when there is none.  The read may fail. *)
Definition findOneById (orderId : string) : M (option Order) :=
  s <- read_db ;;
  call (OrdersFindOneById orderId)
       (match orders_fault (ordersService this) orderId with
        | Some e => Throw e
        | None => Return (Prisma.find_order orderId s)
        end).

Definition ensureOrderOwnership (order : Order) (requesterId : option string)
  : Outcome unit :=
  if JS.truthy (order_userId order) then
    if negb (JS.truthy requesterId)
       || negb (JS.option_string_eqb (order_userId order) requesterId)
    then Throw (exn BadRequestException "Acesso não autorizado a este pedido.")
    else Return tt
  else if negb (JS.truthy (order_guestId order)) then
    Throw (exn BadRequestException
             "Pedido sem identificador de convidado definido.")
  else if negb (JS.truthy requesterId)
          || negb (JS.option_string_eqb (order_guestId order) requesterId)
  then Throw (exn BadRequestException
                "Acesso não autorizado ao pedido de convidado.")
  else Return tt.

Definition getExistingPaymentTransaction (orderId : string)
  : M (option Transaction) :=
  Prisma.transaction_findUnique (prisma this) orderId.

Definition mapPixStatus (externalStatus : option string) : PixStatus :=
  match externalStatus with
  | Some s =>
      if (s =? "PAID") || (s =? "CONFIRMED") || (s =? "COMPLETED")
      then PIX_COMPLETED
      else if s =? "CANCELED" then PIX_CANCELED
      else if s =? "EXPIRED" then PIX_EXPIRED
      else if s =? "FAILED" then PIX_FAILED
      else PIX_PENDING
  | None => PIX_PENDING
  end.

Definition mapPagSeguroStatusToOrderStatus (pagSeguroStatus : string)
  : OrderStatus :=
  if (pagSeguroStatus =? "PAID") || (pagSeguroStatus =? "APPROVED") then PAID
  else if (pagSeguroStatus =? "IN_ANALYSIS") || (pagSeguroStatus =? "PENDING")
  then PENDING
  else if (pagSeguroStatus =? "CANCELED") || (pagSeguroStatus =? "ABORTED")
  then CANCELLED
  else if (pagSeguroStatus =? "REFUNDED") || (pagSeguroStatus =? "SHIPPED")
  then SHIPPED
  else if pagSeguroStatus =? "DELIVERED" then DELIVERED
  else PENDING.

Definition buildPagSeguroPayload (order : Order)
  : Customer * ShippingAddress * list PayloadItem :=
  let customerEmail :=
    JS.nullish_default
      (JS.nullish (JS.opt_field (order_user order) user_email)
                  (order_guestEmail order)) "" in
  let customerFullName :=
    JS.nullish_default (JS.opt_field (order_user order) user_name)
                       "Cliente Convidado" in
  let customerPhone :=
    let trimmed :=
      JS.trim (JS.nullish_default
                 (JS.nullish (JS.opt_field (order_user order) user_phone)
                             (order_guestPhone order)) "") in
    if trimmed =? "" then None else Some trimmed in
  let customerCpf :=
    JS.nullish (JS.opt_field (order_user order) user_cpf)
               (order_guestCpf order) in
  let customer :=
    mkCustomer customerEmail customerFullName customerPhone customerCpf in
  let shippingAddress :=
    mkShippingAddress
      (order_shippingAddressZipCode order)
      (order_shippingAddressStreet order)
      (order_shippingAddressNumber order)
      (order_shippingAddressComplement order)
      (order_shippingAddressNeighborhood order)
      (order_shippingAddressCity order)
      (order_shippingAddressState order) in
  let items :=
    map (fun item =>
           mkPayloadItem (product_name (item_product item))
                         (item_quantity item) (item_price item))
        (order_items order) in
  (customer, shippingAddress, items).

Definition find_link (rel : string) (links : option (list Link))
  : option Link :=
  JS.opt_field links (fun ls => find (fun link => link_rel link =? rel) ls).

Definition buildPixResponseFromTransaction (transaction : Transaction)
  : M PixChargeResponseDto :=
  if negb (JS.truthy (tx_gatewayTransactionId transaction)) then
    throw (exn InternalServerErrorException
             "Transação existente sem ID do PagSeguro.")
  else
    let gatewayTransactionId :=
      JS.nullish_default (tx_gatewayTransactionId transaction) "" in
    try_catch
      (checkout <-
         call (GetOrderDetails gatewayTransactionId)
              (getOrderDetails (pagSeguroService this) gatewayTransactionId) ;;
       let qrCode := JS.first (qr_codes checkout) in
       let status :=
         mapPixStatus (JS.or_else (JS.opt_field qrCode qr_status)
                                  (Some (tx_status transaction))) in
       let brCode :=
         JS.or_default (JS.or_else (JS.opt_field qrCode qr_text)
                                   (tx_transactionRef transaction)) "" in
       let qrCodeImage :=
         JS.nullish_default
           (JS.nullish
              (JS.opt_field
                 (find_link "QR_CODE_IMAGE" (JS.opt_field qrCode qr_links))
                 link_href)
              (tx_qrCodeUrl transaction)) "" in
       let expiresAt :=
         JS.nullish_default (JS.opt_field qrCode qr_expiration_date)
                            (tx_updatedAt transaction) in
       ret (mkPixChargeResponseDto
              gatewayTransactionId status brCode qrCodeImage expiresAt
              (toNumber (tx_amount transaction))
              (JS.nullish_default (tx_description transaction) "")
              (JS.nullish_default (tx_orderId transaction) "")))
      (fun error =>
         lift (message_of error) ;;;
         ret (mkPixChargeResponseDto
                gatewayTransactionId
                (mapPixStatus (Some (tx_status transaction)))
                (JS.nullish_default (tx_transactionRef transaction) "")
                (JS.nullish_default (tx_qrCodeUrl transaction) "")
                (tx_updatedAt transaction)
                (toNumber (tx_amount transaction))
                (JS.nullish_default (tx_description transaction) "")
                (JS.nullish_default (tx_orderId transaction) ""))).

Definition buildExistingDirectCardResponse (transaction : Transaction)
  : M CardResponse :=
  if negb (JS.truthy (tx_gatewayTransactionId transaction)) then
    throw (exn InternalServerErrorException
             "Transação existente sem ID do PagSeguro.")
  else
    let gatewayTransactionId :=
      JS.nullish_default (tx_gatewayTransactionId transaction) "" in
    try_catch
      (checkout <-
         call (GetCheckoutDetails gatewayTransactionId)
              (getCheckoutDetails (pagSeguroService this)
                                  gatewayTransactionId) ;;
       let charge := JS.first (checkout_charges checkout) in
       ret (CardExisting
              (mkExistingCardResponse
                 gatewayTransactionId
                 (JS.nullish_default
                    (JS.nullish (JS.opt_field charge charge_status)
                                (checkout_status checkout))
                    (tx_status transaction))
                 (JS.nullish (JS.opt_field charge charge_id)
                             (tx_transactionRef transaction))
                 (toNumber (tx_amount transaction))
                 (JS.nullish_default (tx_description transaction) "")
                 (JS.nullish_default (tx_orderId transaction) ""))))
      (fun error =>
         lift (message_of error) ;;;
         ret (CardExisting
                (mkExistingCardResponse
                   gatewayTransactionId
                   (tx_status transaction)
                   (Some (JS.nullish_default
                            (tx_transactionRef transaction) ""))
                   (toNumber (tx_amount transaction))
                   (JS.nullish_default (tx_description transaction) "")
                   (JS.nullish_default (tx_orderId transaction) "")))).

Definition buildExistingRedirectResponse (transaction : Transaction)
  : M RedirectResponse :=
  if negb (JS.truthy (tx_gatewayTransactionId transaction)) then
    throw (exn InternalServerErrorException
             "Transação existente sem ID do PagSeguro.")
  else
    let gatewayTransactionId :=
      JS.nullish_default (tx_gatewayTransactionId transaction) "" in
    try_catch
      (checkout <-
         call (GetCheckoutDetails gatewayTransactionId)
              (getCheckoutDetails (pagSeguroService this)
                                  gatewayTransactionId) ;;
       let payLink := find_link "PAY" (checkout_links checkout) in
       ret (mkRedirectResponse
              (JS.nullish_default
                 (JS.nullish (JS.opt_field payLink link_href)
                             (tx_transactionRef transaction)) "")
              (Some (JS.nullish_default (checkout_id checkout)
                                        gatewayTransactionId))))
      (fun error =>
         lift (message_of error) ;;;
         ret (mkRedirectResponse
                (JS.nullish_default (tx_transactionRef transaction) "")
                (Some gatewayTransactionId))).

(** [error instanceof InternalServerErrorException
      && error.message.startsWith('Falha no PagSeguro:')]. *)
Definition classified_by_gateway (error : Thrown) : bool :=
  match error with
  | Raised e =>
      ExceptionClass_eqb (exn_class e) InternalServerErrorException
      && prefix "Falha no PagSeguro:" (exn_message e)
  | _ => false
  end.

(** The [catch (error)] block of the three initiation operations: the
    failure is logged with its message and stack; a failure already
    classified by the gateway adapter is thrown again, any other one is
    replaced by the operation's generic failure. *)
Definition rethrow_or_generalize {A : Type} (generic : string)
  (error : Thrown) : M A :=
  lift (message_of error) ;;;
  if classified_by_gateway error
  then throw error
  else throw (exn InternalServerErrorException generic).

Definition antifraud_items (order : Order) : list AntifraudItem :=
  map (fun item =>
         mkAntifraudItem (product_id (item_product item))
                         (item_quantity item) (toNumber (item_price item)))
      (order_items order).

Definition charge_request (order : Order) (customer : Customer)
  (shippingAddress : ShippingAddress) (items : list PayloadItem)
  : ChargeRequest :=
  mkChargeRequest
    (order_id order) (order_totalAmount order)
    ("Pagamento do Pedido #" ++ order_id order ++ " na MKCloset")
    customer shippingAddress
    (order_shippingService order) (order_shippingPrice order) items.

(** [order.userId || null]. *)
Definition userId_or_null (order : Order) : option string :=
  JS.or_else (order_userId order) None.

Definition createPixCharge (orderId userId : string)
  : M PixChargeResponseDto :=
  found <- findOneById orderId ;;
  match found with
  | None =>
      throw (exn NotFoundException
               ("Pedido com ID " ++ orderId ++ " não encontrado."))
  | Some order =>
      if negb (OrderStatus_eqb (order_status order) PENDING) then
        throw (exn BadRequestException
                 "O pedido já foi pago ou está em outro status.")
      else
        lift (ensureOrderOwnership order (Some userId)) ;;;
        existingTransaction <- getExistingPaymentTransaction (order_id order) ;;
        match existingTransaction with
        | Some existing => buildPixResponseFromTransaction existing
        | None =>
            let '(customer, shippingAddress, items) :=
              buildPagSeguroPayload order in
            try_catch
              (antifraudResult <-
                 (let request :=
                    mkAntifraudRequest
                      (order_id order) (toNumber (order_totalAmount order))
                      (customer_email customer) (customer_cpf customer)
                      "PIX" (antifraud_items order) None in
                  call (AnalyzeTransaction request)
                       (analyzeTransaction (antifraudService this) request)) ;;
               if af_status antifraudResult =? "DENIED" then
                 throw (exn BadRequestException
                          "Transação negada pela análise antifraude.")
               else
                 let backendUrl :=
                   ConfigService.backendUrl (nestConfigService this) in
                 if backendUrl =? "" then
                   throw (exn InternalServerErrorException
                            "A variável de ambiente BACKEND_URL não está definida.")
                 else
                   pagSeguroResponse <-
                     (let request :=
                        charge_request order customer shippingAddress items in
                      call (CreatePagSeguroPixCharge request backendUrl)
                           (createPagSeguroPixCharge (pagSeguroService this)
                                                     request backendUrl)) ;;
                   Prisma.write (prisma this)
                     (TransactionCreateW
                        (mkTransactionCreate
                           (userId_or_null order)
                           (Some (order_id order))
                           (order_totalAmount order)
                           PAYMENT
                           "PENDING"
                           (Some ("Cobrança PIX para Pedido #"
                                    ++ order_id order))
                           (Some (pix_transactionId pagSeguroResponse))
                           (Some (pix_brCode pagSeguroResponse))
                           (Some (pix_qrCodeImage pagSeguroResponse))
                           (Some (af_status antifraudResult)))) ;;;
                   ret pagSeguroResponse)
              (rethrow_or_generalize
                 "Falha ao iniciar o processo de pagamento PIX com PagSeguro.")
        end
  end.

Definition processCreditCardPayment (orderId : string)
  (userId : option string) (processPaymentDto : ProcessPaymentDto)
  : M CardResponse :=
  if negb (JS.truthy (cardToken processPaymentDto))
     || negb (JS.truthy (cardHolderName processPaymentDto))
     || negb (JS.truthy (cardCpf processPaymentDto))
  then
    throw (exn BadRequestException
             "Dados do cartão incompletos para processamento direto.")
  else
    found <- findOneById orderId ;;
    match found with
    | None =>
        throw (exn NotFoundException
                 ("Pedido com ID " ++ orderId ++ " não encontrado."))
    | Some order =>
        if negb (OrderStatus_eqb (order_status order) PENDING) then
          throw (exn BadRequestException
                   "O pedido já foi pago ou está em outro status.")
        else
          lift (ensureOrderOwnership order userId) ;;;
          existingTransaction <-
            getExistingPaymentTransaction (order_id order) ;;
          match existingTransaction with
          | Some existing => buildExistingDirectCardResponse existing
          | None =>
              let '(customer, shippingAddress, items) :=
                buildPagSeguroPayload order in
              try_catch
                (antifraudResult <-
                   (let request :=
                      mkAntifraudRequest
                        (order_id order) (toNumber (order_totalAmount order))
                        (customer_email customer) (customer_cpf customer)
                        "CREDIT_CARD" (antifraud_items order)
                        (Some (mkAntifraudCard
                                 (cardBrand processPaymentDto)
                                 (cardInstallments processPaymentDto))) in
                    call (AnalyzeTransaction request)
                         (analyzeTransaction (antifraudService this)
                                             request)) ;;
                 if af_status antifraudResult =? "DENIED" then
                   throw (exn BadRequestException
                            "Transação negada pela análise antifraude.")
                 else
                   let backendUrl :=
                     ConfigService.backendUrl (nestConfigService this) in
                   if backendUrl =? "" then
                     throw (exn InternalServerErrorException
                              "A variável de ambiente BACKEND_URL não está definida.")
                   else
                     pagSeguroResponse <-
                       (let request :=
                          charge_request order customer shippingAddress items in
                        let card :=
                          mkCardDetails
                            (cardToken processPaymentDto)
                            (cardHolderName processPaymentDto)
                            (cardCpf processPaymentDto)
                            (cardInstallments processPaymentDto) in
                        call (ProcessDirectCreditCardPayment
                                request card backendUrl)
                             (processDirectCreditCardPayment
                                (pagSeguroService this)
                                request card backendUrl)) ;;
                     Prisma.write (prisma this)
                       (TransactionCreateW
                          (mkTransactionCreate
                             (userId_or_null order)
                             (Some (order_id order))
                             (order_totalAmount order)
                             PAYMENT
                             (cc_status pagSeguroResponse)
                             (Some ("Pagamento com Cartão de Crédito para Pedido #"
                                      ++ order_id order))
                             (Some (cc_transactionId pagSeguroResponse))
                             (Some (cc_transactionRef pagSeguroResponse))
                             None
                             (Some (af_status antifraudResult)))) ;;;
                     (if cc_status pagSeguroResponse =? OrderStatus_name PAID
                      then
                        Prisma.write (prisma this)
                          (OrderUpdateStatus (order_id order) PAID) ;;;
                        try_catch
                          (let recipientEmail :=
                             JS.nullish
                               (JS.opt_field (order_user order) user_email)
                               (order_guestEmail order) in
                           if JS.truthy recipientEmail then
                             let to := JS.nullish_default recipientEmail "" in
                             call (SendPaymentConfirmationEmail
                                     to (order_id order)
                                     (toNumber (order_totalAmount order)))
                                  (sendPaymentConfirmationEmail
                                     (notificationsService this)
                                     to (order_id order)
                                     (toNumber (order_totalAmount order)))
                           else ret tt)
                          (fun emailError =>
                             lift (message_of emailError) ;;; ret tt)
                      else ret tt) ;;;
                     ret (CardCharged pagSeguroResponse))
                (rethrow_or_generalize
                   "Falha ao processar pagamento com cartão de crédito.")
          end
    end.

Definition initiatePagSeguroRedirectCheckout (userId : option string)
  (orderId : string) : M RedirectResponse :=
  found <- findOneById orderId ;;
  match found with
  | None =>
      throw (exn NotFoundException
               ("Pedido com ID " ++ orderId ++ " não encontrado."))
  | Some order =>
      if negb (OrderStatus_eqb (order_status order) PENDING) then
        throw (exn BadRequestException
                 "O pedido já foi pago ou está em outro status.")
      else
        lift (ensureOrderOwnership order userId) ;;;
        existingTransaction <- getExistingPaymentTransaction (order_id order) ;;
        match existingTransaction with
        | Some existing => buildExistingRedirectResponse existing
        | None =>
            let '(customer, shippingAddress, items) :=
              buildPagSeguroPayload order in
            let clientEmail := customer_email customer in
            let clientCpf := customer_cpf customer in
            try_catch
              (antifraudResult <-
                 (let request :=
                    mkAntifraudRequest
                      (order_id order) (toNumber (order_totalAmount order))
                      clientEmail clientCpf
                      "REDIRECT_CHECKOUT" (antifraud_items order) None in
                  call (AnalyzeTransaction request)
                       (analyzeTransaction (antifraudService this) request)) ;;
               if af_status antifraudResult =? "DENIED" then
                 throw (exn BadRequestException
                          "Transação negada pela análise antifraude.")
               else
                 let backendUrl :=
                   ConfigService.backendUrl (nestConfigService this) in
                 if backendUrl =? "" then
                   throw (exn InternalServerErrorException
                            "A variável de ambiente BACKEND_URL não está definida.")
                 else
                   pagSeguroResponse <-
                     (let request :=
                        charge_request order customer shippingAddress items in
                      call (CreatePagSeguroCheckoutRedirect request backendUrl)
                           (createPagSeguroCheckoutRedirect
                              (pagSeguroService this) request backendUrl)) ;;
                   Prisma.write (prisma this)
                     (TransactionCreateW
                        (mkTransactionCreate
                           (userId_or_null order)
                           (Some (order_id order))
                           (order_totalAmount order)
                           PAYMENT
                           "PENDING_REDIRECT"
                           (Some ("Iniciação de pagamento via PagSeguro Checkout para Pedido #"
                                    ++ order_id order))
                           (Some (cr_pagSeguroCheckoutId pagSeguroResponse))
                           (Some (cr_redirectUrl pagSeguroResponse))
                           None
                           (Some (af_status antifraudResult)))) ;;;
                   ret (mkRedirectResponse
                          (cr_redirectUrl pagSeguroResponse) None))
              (rethrow_or_generalize
                 "Falha ao iniciar o processo de pagamento com PagSeguro.")
        end
  end.

(** The constant [pagSeguroTransactionStatus] of the webhook handler:
    [checkoutDetails.status || checkoutDetails.charges?.[0]?.status
     || 'PENDING']. *)
Definition pagSeguroTransactionStatus (checkoutDetails : CheckoutDetails)
  : string :=
  JS.or_default
    (JS.or_else (checkout_status checkoutDetails)
                (JS.opt_field (JS.first (checkout_charges checkoutDetails))
                              charge_status))
    "PENDING".

(** The webhook handler.  [rawBody] is the UTF-8 encoding of the string
    the handler is given, the bytes [update(rawBody)] hashes; the claimed
    signature is compared with the hexadecimal digest as a string. *)
Definition handlePagSeguroNotification
  (pagSeguroCheckoutId signature rawBody : string) : M WebhookAck :=
  webhookSecret <-
    lift (ConfigService.pagSeguroWebhookSecret (nestConfigService this)) ;;
  let expectedSignature := Crypto.hmac_sha256_hex webhookSecret rawBody in
  if negb (signature =? expectedSignature) then
    throw (exn UnauthorizedException "Assinatura do webhook inválida.")
  else
    checkoutDetails <-
      call (GetCheckoutDetails pagSeguroCheckoutId)
           (getCheckoutDetails (pagSeguroService this) pagSeguroCheckoutId) ;;
    let newOrderStatus :=
      mapPagSeguroStatusToOrderStatus
        (pagSeguroTransactionStatus checkoutDetails) in
    found <-
      Prisma.transaction_findFirst_with_order (prisma this)
                                              pagSeguroCheckoutId ;;
    match found with
    | Some (transaction, Some order) =>
        if (tx_status transaction =? OrderStatus_name newOrderStatus)
           && OrderStatus_eqb (order_status order) newOrderStatus
        then ret (mkWebhookAck "Status já atualizado")
        else
          Prisma.transaction (prisma this)
            [TransactionUpdateStatus (tx_id transaction)
                                     (OrderStatus_name newOrderStatus);
             OrderUpdateStatus (order_id order) newOrderStatus] ;;;
          try_catch
            (recipientEmail <-
               (if JS.truthy (order_userId order) then
                  reloaded <- findOneById (order_id order) ;;
                  match reloaded with
                  | Some o => ret (JS.opt_field (order_user o) user_email)
                  | None =>
                      throw (type_error JsNull "user")
                  end
                else ret (order_guestEmail order)) ;;
             if JS.truthy recipientEmail then
               let to := JS.nullish_default recipientEmail "" in
               if OrderStatus_eqb newOrderStatus PAID then
                 call (SendPaymentConfirmationEmail
                         to (order_id order)
                         (toNumber (order_totalAmount order)))
                      (sendPaymentConfirmationEmail
                         (notificationsService this)
                         to (order_id order)
                         (toNumber (order_totalAmount order)))
               else if OrderStatus_eqb newOrderStatus CANCELLED then
                 call (SendPaymentCancellationEmail to (order_id order))
                      (sendPaymentCancellationEmail
                         (notificationsService this) to (order_id order))
               else ret tt
             else ret tt)
            (fun emailError => lift (message_of emailError) ;;; ret tt) ;;;
          ret (mkWebhookAck "Status do pedido atualizado com sucesso")
    | _ =>
        throw (exn NotFoundException
                 "Transação não encontrada para o checkout ID fornecido.")
    end.

End PaymentsService.

(** Running a request. *)
Definition run {A : Type} (m : M A) (s : Store) : Outcome A * World :=
  m (mkWorld s []).

(* ------------------------------------------------------------------ *)
(** ** The three initiation operations as one family *)

(** Which initiation operation is requested, with the requester identity
    (and the card data) it is called with. *)
Inductive Initiation : Type :=
  | PixCharge (userId : string)
  | CreditCardPayment (userId : option string) (dto : ProcessPaymentDto)
  | RedirectCheckout (userId : option string).

Inductive InitiationResponse : Type :=
  | PixResponse (r : PixChargeResponseDto)
  | CardPaymentResponse (r : CardResponse)
  | RedirectCheckoutResponse (r : RedirectResponse).

Definition initiate (this : Services) (op : Initiation) (orderId : string)
  : M InitiationResponse :=
  match op with
  | PixCharge userId =>
      r <- createPixCharge this orderId userId ;; ret (PixResponse r)
  | CreditCardPayment userId dto =>
      r <- processCreditCardPayment this orderId userId dto ;;
      ret (CardPaymentResponse r)
  | RedirectCheckout userId =>
      r <- initiatePagSeguroRedirectCheckout this userId orderId ;;
      ret (RedirectCheckoutResponse r)
  end.

Definition requester (op : Initiation) : option string :=
  match op with
  | PixCharge userId => Some userId
  | CreditCardPayment userId _ => userId
  | RedirectCheckout userId => userId
  end.

(** The gateway transaction id a response carries, if it carries one. *)
Definition response_gateway_id (r : InitiationResponse) : option string :=
  match r with
  | PixResponse p => Some (pix_transactionId p)
  | CardPaymentResponse (CardCharged c) => Some (cc_transactionId c)
  | CardPaymentResponse (CardExisting e) => Some (ecr_transactionId e)
  | RedirectCheckoutResponse rr => rr_pagSeguroCheckoutId rr
  end.

(** The generic failure each operation's [catch] block throws. *)
Definition generic_failure (op : Initiation) : string :=
  match op with
  | PixCharge _ =>
      "Falha ao iniciar o processo de pagamento PIX com PagSeguro."
  | CreditCardPayment _ _ =>
      "Falha ao processar pagamento com cartão de crédito."
  | RedirectCheckout _ =>
      "Falha ao iniciar o processo de pagamento com PagSeguro."
  end.

(** The ownership rule in words: a registered order belongs to its user,
    an order without user belongs to its guest. *)
Definition owns (order : Order) (requesterId : option string) : Prop :=
  (JS.truthy (order_userId order) = true
   /\ requesterId = order_userId order)
  \/ (JS.truthy (order_userId order) = false
      /\ JS.truthy (order_guestId order) = true
      /\ requesterId = order_guestId order).

(* ------------------------------------------------------------------ *)
(** ** Sample data *)

Module Sample.

Definition ana : User :=
  mkUser (Some "ana@example.com") (Some "Ana Souza")
         (Some " 11999990000 ") (Some "12345678909").

Definition dress : Product := mkProduct "p1" "Conjunto Julia" 15990%Z.

(** A pending order of the registered user [u1]. *)
Definition order_o1 : Order :=
  mkOrder "o1" PENDING (Some "u1") None None None None 17990%Z
    (Some "SEDEX") (Some 2000%Z)
    "01001000" "Rua Direita" "10" None "Centro" "Sao Paulo" "SP"
    (Some ana) [mkOrderItem dress 1%Z 15990%Z].

(** A pending order of the guest [g1]. *)
Definition order_o2 : Order :=
  mkOrder "o2" PENDING None (Some "g1") (Some "guest@example.com")
    None (Some "98765432100") 15990%Z
    None None
    "20040002" "Rua da Assembleia" "5" (Some "Sala 2") "Centro"
    "Rio de Janeiro" "RJ"
    None [mkOrderItem dress 1%Z 15990%Z].

Definition store0 : Store := mkStore [order_o1; order_o2] [].

Definition now : string := "2025-03-01T12:00:00.000Z".

(** A transaction of order [o1] that was stored without a gateway id. *)
Definition tx_without_gateway_id : Transaction :=
  mkTransaction 1 (Some "u1") (Some "o1") 17990%Z PAYMENT "PENDING"
    (Some "Cobrança PIX para Pedido #o1") None (Some "00020126br.gov.bcb.pix")
    None (Some "APPROVED") now.

(** A PIX transaction of order [o1] with gateway id [tx1]. *)
Definition tx_pix_tx1 : Transaction :=
  mkTransaction 1 (Some "u1") (Some "o1") 17990%Z PAYMENT "PENDING"
    (Some "Cobrança PIX para Pedido #o1") (Some "tx1")
    (Some "00020126br.gov.bcb.pix") (Some "https://gateway.example/qr/tx1.png")
    (Some "APPROVED") now.

Definition store_without_gateway_id : Store :=
  mkStore [order_o1; order_o2] [tx_without_gateway_id].

Definition store_with_tx1 : Store :=
  mkStore [order_o1; order_o2] [tx_pix_tx1].

Definition pix_tx1 : PixChargeResponseDto :=
  mkPixChargeResponseDto "tx1" PIX_PENDING "00020126br.gov.bcb.pix"
    "https://gateway.example/qr/tx1.png" "2025-03-01T12:30:00.000Z"
    (toNumber 17990%Z) "Pagamento do Pedido #o1 na MKCloset" "o1".

(** A gateway that creates charge [tx1] / [ch1] / checkout [chk1], reports
    [status] for a card charge and for any checkout, and whose order
    details endpoint is down. *)
Definition gateway (status : string) : PagSeguroService :=
  mkPagSeguroService
    (fun _ _ => Return pix_tx1)
    (fun _ _ _ => Return (mkCardChargeResult "ch1" status "ref-ch1"))
    (fun _ _ =>
       Return (mkCheckoutRedirect "chk1" "https://gateway.example/pay/chk1"))
    (fun id =>
       Return (mkCheckoutDetails (Some id) (Some status) None None))
    (fun _ => Throw (exn Error "connect ETIMEDOUT")).

(** A gateway whose every endpoint is down. *)
Definition gateway_down : PagSeguroService :=
  mkPagSeguroService
    (fun _ _ => Throw (exn Error "connect ETIMEDOUT"))
    (fun _ _ _ => Throw (exn Error "connect ETIMEDOUT"))
    (fun _ _ => Throw (exn Error "connect ETIMEDOUT"))
    (fun _ => Throw (exn Error "connect ETIMEDOUT"))
    (fun _ => Throw (exn Error "connect ETIMEDOUT")).

Definition antifraud (verdict : string) : AntifraudService :=
  mkAntifraudService (fun _ => Return (mkAntifraudResult verdict)).

Definition mailer : NotificationsService :=
  mkNotificationsService (fun _ _ _ => Return tt) (fun _ _ => Return tt).

Definition mailer_down : NotificationsService :=
  mkNotificationsService
    (fun _ _ _ => Throw (exn Error "SMTP connection refused"))
    (fun _ _ => Throw (exn Error "SMTP connection refused")).

Definition database : PrismaService :=
  mkPrismaService (fun _ => None) (fun _ => None) now.

(** A database that refuses every update of an order. *)
Definition database_refusing_order_updates : PrismaService :=
  mkPrismaService
    (fun _ => None)
    (fun w =>
       match w with
       | OrderUpdateStatus _ _ => Some (Raised (exn Error "deadlock detected"))
       | _ => None
       end)
    now.

Definition orders_service : OrdersService := mkOrdersService (fun _ => None).

Definition environment : NestConfigService :=
  mkNestConfigService (Some "https://api.mkcloset.example") (Some "whsec_test").

Definition services (verdict status : string) : Services :=
  mkServices database orders_service (gateway status) environment mailer
             (antifraud verdict).

Definition complete_card : ProcessPaymentDto :=
  mkProcessPaymentDto (Some "tok_1") (Some "ANA SOUZA") (Some "12345678909")
                      (Some 1%Z) (Some "visa").

Definition card_without_token : ProcessPaymentDto :=
  mkProcessPaymentDto None (Some "ANA SOUZA") (Some "12345678909")
                      (Some 1%Z) (Some "visa").

Definition body : string := "{id:chk1,reference_id:o1}".



End Sample.

(* ------------------------------------------------------------------ *)
(** ** Vocabulary of the statements *)

Definition invalid_signature : Exception :=
  exn UnauthorizedException "Assinatura do webhook inválida.".

(** A computation that only adds calls at the end of the trace, all of
    them satisfying [allowed]. *)
Definition adds_only {A : Type} (allowed : Event -> bool) (m : M A) : Prop :=
  forall w r w',
    m w = (r, w') ->
    exists t, trace w' = (trace w ++ t)%list /\ forallb allowed t = true.

Definition any_call (e : Event) : bool := true.

(** A computation that leaves the store as it is. *)
Definition quiet {A : Type} (m : M A) : Prop :=
  forall w r w', m w = (r, w') -> db w' = db w.

(** The status of a transaction row / of an order row in a store. *)
Definition transaction_status (id : nat) (s : Store) : option string :=
  option_map tx_status (Prisma.find_transaction id s).

Definition order_status_of (id : string) (s : Store) : option OrderStatus :=
  option_map order_status (Prisma.find_order id s).

(** What the three reconstruction helpers answer from the stored row alone,
    for a row with gateway id [gid]. *)
Definition stored_pix_response (gid : string) (t : Transaction)
  : PixChargeResponseDto :=
  mkPixChargeResponseDto gid
    (mapPixStatus (Some (tx_status t)))
    (JS.nullish_default (tx_transactionRef t) "")
    (JS.nullish_default (tx_qrCodeUrl t) "")
    (tx_updatedAt t)
    (toNumber (tx_amount t))
    (JS.nullish_default (tx_description t) "")
    (JS.nullish_default (tx_orderId t) "").

Definition stored_card_response (gid : string) (t : Transaction)
  : CardResponse :=
  CardExisting
    (mkExistingCardResponse gid
       (tx_status t)
       (Some (JS.nullish_default (tx_transactionRef t) ""))
       (toNumber (tx_amount t))
       (JS.nullish_default (tx_description t) "")
       (JS.nullish_default (tx_orderId t) "")).

Definition stored_redirect_response (gid : string) (t : Transaction)
  : RedirectResponse :=
  mkRedirectResponse (JS.nullish_default (tx_transactionRef t) "") (Some gid).

(** The card data of a card payment is complete. *)
Definition card_data_complete (op : Initiation) : Prop :=
  match op with
  | CreditCardPayment _ dto =>
      JS.truthy (cardToken dto) = true
      /\ JS.truthy (cardHolderName dto) = true
      /\ JS.truthy (cardCpf dto) = true
  | _ => True
  end.

(** The request gets as far as the lookup of an existing transaction: the
    card data is complete, the order is found, pending and owned by the
    requester, and neither lookup fails. *)
Definition passes_checks (this : Services) (op : Initiation)
  (orderId : string) (s : Store) (order : Order) : Prop :=
  card_data_complete op
  /\ orders_fault (ordersService this) orderId = None
  /\ Prisma.find_order orderId s = Some order
  /\ order_status order = PENDING
  /\ ensureOrderOwnership order (requester op) = Return tt
  /\ db_read_fault (prisma this) (order_id order) = None.

(** The re-query of the gateway an initiation operation makes for an
    existing transaction. *)
Definition requery (op : Initiation) (gid : string) : Event :=
  match op with
  | PixCharge _ => GetOrderDetails gid
  | _ => GetCheckoutDetails gid
  end.

(** The gateway id an initiation response built from the stored row
    refers to is [gid]; the redirect operation answers the id the re-query
    reports when it reports one ([checkout.id ?? gid]). *)
Definition refers_to (this : Services) (op : Initiation)
  (r : InitiationResponse) (gid : string) : Prop :=
  response_gateway_id r
  = Some (match op with
          | RedirectCheckout _ =>
              match getCheckoutDetails (pagSeguroService this) gid with
              | Return d => JS.nullish_default (checkout_id d) gid
              | Throw _ => gid
              end
          | _ => gid
          end).

(** How the response [r] of a call that made the calls [calls] relates to
    the gateway id [gid] the order's transaction carries afterwards: a PIX
    or card response carries [gid]; a redirect response either was built
    from the stored row (then it refers to [gid]), or is the redirect URL
    of the checkout the gateway created in that call, whose checkout id is
    [gid]. *)
Definition answers_for (this : Services) (op : Initiation)
  (calls : list Event) (r : InitiationResponse) (gid : string) : Prop :=
  match r with
  | RedirectCheckoutResponse rr =>
      refers_to this op r gid
      \/ exists request url c,
           In (CreatePagSeguroCheckoutRedirect request url) calls
           /\ createPagSeguroCheckoutRedirect (pagSeguroService this)
                request url = Return c
           /\ cr_pagSeguroCheckoutId c = gid
           /\ rr = mkRedirectResponse (cr_redirectUrl c) None
  | _ => response_gateway_id r = Some gid
  end.

(** The failure, if any, of the re-query an initiation operation makes for
    an existing transaction. *)
Definition requery_failure (this : Services) (op : Initiation)
  (gid : string) : option Thrown :=
  match op with
  | PixCharge _ =>
      match getOrderDetails (pagSeguroService this) gid with
      | Throw e => Some e
      | Return _ => None
      end
  | _ =>
      match getCheckoutDetails (pagSeguroService this) gid with
      | Throw e => Some e
      | Return _ => None
      end
  end.

(** A write sent to the store on its own, outside [$transaction]. *)
Definition is_single_write (e : Event) : bool :=
  match e with
  | PrismaWrite _ => true
  | _ => false
  end.

Definition not_single_write (e : Event) : bool := negb (is_single_write e).

(* ------------------------------------------------------------------ *)
(** ** Vocabulary of the further properties *)

(** What the caller of an initiation operation sees of a failure [error]
    raised inside its [try] block: the TypeError of the log line when
    [error] is [null] or [undefined], [error] itself when the gateway
    adapter classified it, the operation's generic failure otherwise. *)
Definition surfaced (op : Initiation) (error : Thrown) : Thrown :=
  match message_of error with
  | Throw te => te
  | Return _ =>
      if classified_by_gateway error then error
      else exn InternalServerErrorException (generic_failure op)
  end.

(** The gateway-create operation of [op] fails with [e], whatever it is
    asked. *)
Definition gateway_create_fails (this : Services) (op : Initiation)
  (e : Thrown) : Prop :=
  match op with
  | PixCharge _ =>
      forall request url,
        createPagSeguroPixCharge (pagSeguroService this) request url = Throw e
  | CreditCardPayment _ _ =>
      forall request card url,
        processDirectCreditCardPayment (pagSeguroService this)
                                       request card url = Throw e
  | RedirectCheckout _ =>
      forall request url,
        createPagSeguroCheckoutRedirect (pagSeguroService this) request url
        = Throw e
  end.

(** None of the collaborators called inside the [try] block of [op]
    (the antifraud service, the gateway-create operation, the database for
    its writes) ever rejects with [null] or [undefined]. *)
Definition no_nullish_rejection (this : Services) (op : Initiation) : Prop :=
  (forall request v,
      analyzeTransaction (antifraudService this) request
      <> Throw (ThrownNullish v))
  /\ (forall write v, db_fault (prisma this) write <> Some (ThrownNullish v))
  /\ match op with
     | PixCharge _ =>
         forall request url v,
           createPagSeguroPixCharge (pagSeguroService this) request url
           <> Throw (ThrownNullish v)
     | CreditCardPayment _ _ =>
         forall request card url v,
           processDirectCreditCardPayment (pagSeguroService this)
                                          request card url
           <> Throw (ThrownNullish v)
     | RedirectCheckout _ =>
         forall request url v,
           createPagSeguroCheckoutRedirect (pagSeguroService this)
                                           request url
           <> Throw (ThrownNullish v)
     end.

(** The row [t] stored by a first initiation mirrors what the gateway
    answered to the gateway-create call found among [calls], and the
    response [r] is that answer (the redirect operation hands out the
    redirect URL of the answer only). *)
Definition stored_as (this : Services) (calls : list Event)
  (r : InitiationResponse) (t : Transaction) : Prop :=
  match r with
  | PixResponse p =>
      (exists request url,
          In (CreatePagSeguroPixCharge request url) calls
          /\ createPagSeguroPixCharge (pagSeguroService this) request url
             = Return p)
      /\ tx_status t = "PENDING"
      /\ tx_gatewayTransactionId t = Some (pix_transactionId p)
      /\ tx_transactionRef t = Some (pix_brCode p)
      /\ tx_qrCodeUrl t = Some (pix_qrCodeImage p)
  | CardPaymentResponse (CardCharged c) =>
      (exists request card url,
          In (ProcessDirectCreditCardPayment request card url) calls
          /\ processDirectCreditCardPayment (pagSeguroService this)
               request card url = Return c)
      /\ tx_status t = cc_status c
      /\ tx_gatewayTransactionId t = Some (cc_transactionId c)
      /\ tx_transactionRef t = Some (cc_transactionRef c)
      /\ tx_qrCodeUrl t = None
  | CardPaymentResponse (CardExisting _) => False
  | RedirectCheckoutResponse rr =>
      exists request url c,
        In (CreatePagSeguroCheckoutRedirect request url) calls
        /\ createPagSeguroCheckoutRedirect (pagSeguroService this)
             request url = Return c
        /\ rr = mkRedirectResponse (cr_redirectUrl c) None
        /\ tx_status t = "PENDING_REDIRECT"
        /\ tx_gatewayTransactionId t = Some (cr_pagSeguroCheckoutId c)
        /\ tx_transactionRef t = Some (cr_redirectUrl c)
        /\ tx_qrCodeUrl t = None
  end.

(** The address the webhook handler mails to, once the store is [s']: the
    address of the user of the reloaded order when the order has a user,
    the guest address otherwise; [None] when the reload fails or finds
    nothing. *)
Definition notification_recipient (this : Services) (order : Order)
  (s' : Store) : option string :=
  if JS.truthy (order_userId order) then
    match orders_fault (ordersService this) (order_id order) with
    | Some _ => None
    | None =>
        JS.opt_field (Prisma.find_order (order_id order) s')
                     (fun o => JS.opt_field (order_user o) user_email)
    end
  else order_guestEmail order.

(** A mail sent through the notifications service. *)
Definition is_notification (e : Event) : bool :=
  match e with
  | SendPaymentConfirmationEmail _ _ _
  | SendPaymentCancellationEmail _ _ => true
  | _ => false
  end.

(** The failure of the getter [pagSeguroWebhookSecret]. *)
Definition missing_webhook_secret : Exception :=
  exn InternalServerErrorException
    "A variável de ambiente PAGSEGURO_WEBHOOK_SECRET é obrigatória para garantir a validade das notificações.".

(** The failure of the handler that finds no transaction. *)
Definition transaction_not_found : Exception :=
  exn NotFoundException
    "Transação não encontrada para o checkout ID fornecido.".

(** One of the characters [0-9a-f]. *)
Definition is_lower_hex (c : ascii) : bool :=
  let n := nat_of_ascii c in
  ((48 <=? n) && (n <=? 57))%nat || ((97 <=? n) && (n <=? 102))%nat.


(** Every character of [s] satisfies [p]. *)
Fixpoint all_chars (p : ascii -> bool) (s : string) : bool :=
  match s with
  | EmptyString => true
  | String c rest => p c && all_chars p rest
  end.

(** [o'] is the order row [o], but for its status. *)
Definition same_order_but_status (o o' : Order) : Prop :=
  o' = Prisma.set_order_status (order_status o') o.

(** [t'] is the transaction row [t], but for its status and its update
    stamp. *)
Definition same_transaction_but_status (t t' : Transaction) : Prop :=
  t' = Prisma.set_transaction_status (tx_updatedAt t') (tx_status t') t.

(** Any call but a gateway-create one. *)
Definition not_gateway_create (e : Event) : bool := negb (is_gateway_create e).

(** The charge a gateway-create call asks for. *)
Definition charge_request_of (e : Event) : option ChargeRequest :=
  match e with
  | CreatePagSeguroPixCharge c _
  | ProcessDirectCreditCardPayment c _ _
  | CreatePagSeguroCheckoutRedirect c _ => Some c
  | _ => None
  end.

(** The protocol of an initiation, call by call: [e] may come right after
    [previous] ([None] at the start of the request).
    - a gateway-create call comes right after the antifraud analysis of the
      same order and amount;
    - a Transaction is created right after the gateway-create call, for the
      order and amount charged;
    - an order is updated right after the creation of its Transaction, to
      the status stored there;
    - a confirmation is mailed right after the update of its order to PAID;
    - lookups and the antifraud analysis may come anywhere; no other write
      and no other mail is ever made. *)
Definition may_follow (previous : option Event) (e : Event) : bool :=
  match e with
  | CreatePagSeguroPixCharge c _
  | ProcessDirectCreditCardPayment c _ _
  | CreatePagSeguroCheckoutRedirect c _ =>
      match previous with
      | Some (AnalyzeTransaction a) =>
          (af_orderId a =? req_orderId c)
          && Number_eqb (af_amount a) (toNumber (req_amount c))
      | _ => false
      end
  | PrismaWrite (TransactionCreateW d) =>
      match previous with
      | Some p =>
          match charge_request_of p with
          | Some c =>
              JS.option_string_eqb (new_orderId d) (Some (req_orderId c))
              && (new_amount d =? req_amount c)%Z
          | None => false
          end
      | None => false
      end
  | PrismaWrite (OrderUpdateStatus id status) =>
      match previous with
      | Some (PrismaWrite (TransactionCreateW d)) =>
          JS.option_string_eqb (new_orderId d) (Some id)
          && (new_status d =? OrderStatus_name status)
      | _ => false
      end
  | SendPaymentConfirmationEmail _ orderId _ =>
      match previous with
      | Some (PrismaWrite (OrderUpdateStatus id PAID)) => id =? orderId
      | _ => false
      end
  | OrdersFindOneById _ | TransactionFindUnique _ | TransactionFindFirst _
  | GetCheckoutDetails _ | GetOrderDetails _ | AnalyzeTransaction _ => true
  | PrismaWrite (TransactionUpdateStatus _ _) | PrismaTransaction _
  | SendPaymentCancellationEmail _ _ => false
  end.

(** Every call of the trace [t] may follow the one before it. *)
Fixpoint in_order (previous : option Event) (t : list Event) : bool :=
  match t with
  | [] => true
  | e :: rest => may_follow previous e && in_order (Some e) rest
  end.

(** A call that reads and changes nothing. *)
Definition is_query (e : Event) : bool :=
  match e with
  | OrdersFindOneById _ | TransactionFindUnique _ | TransactionFindFirst _
  | GetCheckoutDetails _ | GetOrderDetails _ | AnalyzeTransaction _ => true
  | _ => false
  end.

(** ** Further sample data *)

Module Scenario.

Definition environment_without_backend_url : NestConfigService :=
  mkNestConfigService None (Some "whsec_test").

Definition environment_without_secret : NestConfigService :=
  mkNestConfigService (Some "https://api.mkcloset.example") None.

(** A gateway whose answers to the two queries are empty objects. *)
Definition gateway_terse : PagSeguroService :=
  mkPagSeguroService
    (fun _ _ => Return Sample.pix_tx1)
    (fun _ _ _ => Return (mkCardChargeResult "ch1" "PAID" "ref-ch1"))
    (fun _ _ =>
       Return (mkCheckoutRedirect "chk1" "https://gateway.example/pay/chk1"))
    (fun _ => Return (mkCheckoutDetails None None None None))
    (fun _ => Return (mkOrderDetails None)).

Definition with_environment (env : NestConfigService) : Services :=
  mkServices Sample.database Sample.orders_service (Sample.gateway "PAID")
             env Sample.mailer (Sample.antifraud "APPROVED").

Definition with_gateway (gateway : PagSeguroService) : Services :=
  mkServices Sample.database Sample.orders_service gateway
             Sample.environment Sample.mailer (Sample.antifraud "APPROVED").

Definition with_database (database : PrismaService) : Services :=
  mkServices database Sample.orders_service (Sample.gateway "PAID")
             Sample.environment Sample.mailer (Sample.antifraud "APPROVED").

(** A gateway whose every promise rejects with [null]. *)
Definition gateway_rejecting_null : PagSeguroService :=
  mkPagSeguroService
    (fun _ _ => Throw (ThrownNullish JsNull))
    (fun _ _ _ => Throw (ThrownNullish JsNull))
    (fun _ _ => Throw (ThrownNullish JsNull))
    (fun _ => Throw (ThrownNullish JsNull))
    (fun _ => Throw (ThrownNullish JsNull)).

(** A mailer whose promises reject with [undefined]. *)
Definition mailer_rejecting_undefined : NotificationsService :=
  mkNotificationsService
    (fun _ _ _ => Throw (ThrownNullish JsUndefined))
    (fun _ _ => Throw (ThrownNullish JsUndefined)).

(** A redirect checkout [tx2] of the guest order [o2]. *)
Definition tx_redirect_tx2 : Transaction :=
  mkTransaction 1 None (Some "o2") 15990%Z PAYMENT "PENDING_REDIRECT"
    (Some "Iniciação de pagamento via PagSeguro Checkout para Pedido #o2")
    (Some "tx2") (Some "https://gateway.example/pay/tx2") None
    (Some "APPROVED") Sample.now.

Definition store_with_tx2 : Store :=
  mkStore [Sample.order_o1; Sample.order_o2] [tx_redirect_tx2].

(** Order [o1] paid through transaction [tx1]. *)
Definition store_paid : Store :=
  mkStore [Prisma.set_order_status PAID Sample.order_o1; Sample.order_o2]
          [Prisma.set_transaction_status Sample.now "PAID" Sample.tx_pix_tx1].

End Scenario.

(* ------------------------------------------------------------------ *)
(** ** Basic facts *)

Lemma truthy_Some (v : option string) :
  JS.truthy v = true -> exists s, v = Some s /\ s <> "".
Proof.
  destruct v as [s|]; simpl; [|discriminate].
  destruct (String.eqb_spec s ""); simpl; [discriminate|].
  intros _. exists s. split; [reflexivity|assumption].
Qed.

Lemma truthy_Some_intro (s : string) : s <> "" -> JS.truthy (Some s) = true.
Proof.
  intros H. simpl. destruct (String.eqb_spec s ""); [contradiction|reflexivity].
Qed.

Lemma option_string_eqb_eq (a b : option string) :
  JS.option_string_eqb a b = true <-> a = b.
Proof.
  destruct a as [x|], b as [y|]; simpl; split; intros H;
    try discriminate; try reflexivity.
  - apply String.eqb_eq in H. now subst.
  - injection H as ->. apply String.eqb_refl.
Qed.

Lemma OrderStatus_eqb_eq (a b : OrderStatus) :
  OrderStatus_eqb a b = true <-> a = b.
Proof. destruct a, b; simpl; split; intros H; congruence. Qed.

(** RFC 4231, test case 2. *)
Example hmac_sha256_hex_rfc4231 :
  Crypto.hmac_sha256_hex "Jefe" "what do ya want for nothing?"
  = "5bdcc146bf60754e6a042426089575c75a003f089d2739839dec58b964ec3843".
Proof. vm_compute. reflexivity. Qed.

(* ------------------------------------------------------------------ *)
(** ** Status mapping *)

(** C2: [mapPagSeguroStatusToOrderStatus] is the literal table, and maps
    every string that is not one of its nine keys to PENDING. *)
Theorem mapPagSeguroStatusToOrderStatus_table :
  mapPagSeguroStatusToOrderStatus "PAID" = PAID
  /\ mapPagSeguroStatusToOrderStatus "APPROVED" = PAID
  /\ mapPagSeguroStatusToOrderStatus "IN_ANALYSIS" = PENDING
  /\ mapPagSeguroStatusToOrderStatus "PENDING" = PENDING
  /\ mapPagSeguroStatusToOrderStatus "CANCELED" = CANCELLED
  /\ mapPagSeguroStatusToOrderStatus "ABORTED" = CANCELLED
  /\ mapPagSeguroStatusToOrderStatus "REFUNDED" = SHIPPED
  /\ mapPagSeguroStatusToOrderStatus "SHIPPED" = SHIPPED
  /\ mapPagSeguroStatusToOrderStatus "DELIVERED" = DELIVERED
  /\ forall s : string,
       ~ In s ["PAID"; "APPROVED"; "IN_ANALYSIS"; "PENDING"; "CANCELED";
               "ABORTED"; "REFUNDED"; "SHIPPED"; "DELIVERED"] ->
       mapPagSeguroStatusToOrderStatus s = PENDING.
Proof.
  repeat (split; [reflexivity|]).
  intros s Hs. unfold mapPagSeguroStatusToOrderStatus.
  repeat match goal with
         | |- context [String.eqb s ?k] =>
             destruct (String.eqb_spec s k) as [->|_];
             [exfalso; apply Hs; simpl; tauto|]
         end.
  reflexivity.
Qed.

Lemma mapPagSeguroStatusToOrderStatus_table_witness :
  mapPagSeguroStatusToOrderStatus "WAITING" = PENDING.
Proof.
  apply (proj2 (proj2 (proj2 (proj2 (proj2 (proj2 (proj2 (proj2 (proj2
           mapPagSeguroStatusToOrderStatus_table))))))))).
  simpl. intros H.
  repeat (destruct H as [H|H]; [discriminate H|]). exact H.
Defined.

(* ------------------------------------------------------------------ *)
(** ** Ownership *)

Lemma ensureOrderOwnership_owns (order : Order) (requesterId : option string) :
  ensureOrderOwnership order requesterId = Return tt <-> owns order requesterId.
Proof.
  unfold ensureOrderOwnership, owns.
  destruct (JS.truthy (order_userId order)) eqn:Hu.
  - destruct (JS.truthy requesterId) eqn:Hr; simpl.
    + destruct (JS.option_string_eqb (order_userId order) requesterId) eqn:He;
        simpl; split; intros H.
      * left. apply option_string_eqb_eq in He. auto.
      * reflexivity.
      * discriminate.
      * destruct H as [[_ H]|[H _]]; [|discriminate].
        subst. rewrite (proj2 (option_string_eqb_eq _ _) eq_refl) in He.
        discriminate.
    + split; intros H; [discriminate|].
      destruct H as [[_ H]|[H _]]; [|discriminate].
      subst. congruence.
  - destruct (JS.truthy (order_guestId order)) eqn:Hg; simpl.
    + destruct (JS.truthy requesterId) eqn:Hr; simpl.
      * destruct (JS.option_string_eqb (order_guestId order) requesterId) eqn:He;
          simpl; split; intros H.
        -- right. apply option_string_eqb_eq in He. auto.
        -- reflexivity.
        -- discriminate.
        -- destruct H as [[H _]|[_ [_ H]]]; [discriminate|].
           subst. rewrite (proj2 (option_string_eqb_eq _ _) eq_refl) in He.
           discriminate.
      * split; intros H; [discriminate|].
        destruct H as [[H _]|[_ [_ H]]]; [discriminate|].
        subst. congruence.
    + split; intros H; [discriminate|].
      destruct H as [[H _]|[_ [H _]]]; discriminate.
Qed.

Lemma find_order_id (orderId : string) (s : Store) (order : Order) :
  Prisma.find_order orderId s = Some order -> order_id order = orderId.
Proof.
  unfold Prisma.find_order. intros H. apply find_some in H.
  destruct H as [_ H]. now apply String.eqb_eq in H.
Qed.

Ltac run_step :=
  unfold run, initiate, createPixCharge, processCreditCardPayment,
    initiatePagSeguroRedirectCheckout, findOneById,
    getExistingPaymentTransaction, Prisma.transaction_findUnique,
    bind, call, lift, ret, throw, read_db, write_db; simpl.

(** What an initiation operation does up to its ownership check: it either
    throws having only looked the order up, or the order is there, pending
    and owned by the requester. *)
Lemma initiate_checks (this : Services) (op : Initiation) (orderId : string)
  (s : Store) :
  (exists e w,
      run (initiate this op orderId) s = (Throw e, w)
      /\ db w = s /\ incl (trace w) [OrdersFindOneById orderId])
  \/ (exists order,
         card_data_complete op
         /\ orders_fault (ordersService this) orderId = None
         /\ Prisma.find_order orderId s = Some order
         /\ order_status order = PENDING
         /\ ensureOrderOwnership order (requester op) = Return tt).
Proof.
  assert (Hsub : incl [OrdersFindOneById orderId] [OrdersFindOneById orderId])
    by apply incl_refl.
  assert (Hnil : incl [] [OrdersFindOneById orderId]) by apply incl_nil_l.
  assert (Hcard : forall dto,
             negb (JS.truthy (cardToken dto))
             || negb (JS.truthy (cardHolderName dto))
             || negb (JS.truthy (cardCpf dto)) = true ->
             forall u, exists e w,
               run (initiate this (CreditCardPayment u dto) orderId) s
               = (Throw e, w)
               /\ db w = s /\ incl (trace w) [OrdersFindOneById orderId]).
  { intros dto Hd u. run_step. rewrite Hd. simpl. eauto. }
  destruct (orders_fault (ordersService this) orderId) as [e|] eqn:Hf.
  { left. destruct op as [u|u dto|u];
      [|destruct (negb (JS.truthy (cardToken dto))
                  || negb (JS.truthy (cardHolderName dto))
                  || negb (JS.truthy (cardCpf dto))) eqn:Hd;
        [now apply Hcard|]|];
      run_step; rewrite ?Hd, Hf; simpl; eauto. }
  destruct (Prisma.find_order orderId s) as [order|] eqn:Ho.
  2:{ left. destruct op as [u|u dto|u];
      [|destruct (negb (JS.truthy (cardToken dto))
                  || negb (JS.truthy (cardHolderName dto))
                  || negb (JS.truthy (cardCpf dto))) eqn:Hd;
        [now apply Hcard|]|];
      run_step; rewrite ?Hd, Hf; simpl; rewrite Ho; simpl; eauto. }
  destruct (OrderStatus_eqb (order_status order) PENDING) eqn:Hs.
  2:{ left. destruct op as [u|u dto|u];
      [|destruct (negb (JS.truthy (cardToken dto))
                  || negb (JS.truthy (cardHolderName dto))
                  || negb (JS.truthy (cardCpf dto))) eqn:Hd;
        [now apply Hcard|]|];
      run_step; rewrite ?Hd, Hf; simpl; rewrite Ho; simpl; rewrite Hs;
      simpl; eauto. }
  destruct (ensureOrderOwnership order (requester op)) as [[]|e] eqn:He.
  { apply OrderStatus_eqb_eq in Hs.
    destruct op as [u|u dto|u];
      [right; exists order; simpl; auto| |right; exists order; simpl; auto].
    destruct (negb (JS.truthy (cardToken dto))
              || negb (JS.truthy (cardHolderName dto))
              || negb (JS.truthy (cardCpf dto))) eqn:Hd;
      [left; now apply Hcard|].
    right. exists order. simpl.
    apply orb_false_iff in Hd. destruct Hd as [Hd H3].
    apply orb_false_iff in Hd. destruct Hd as [H1 H2].
    apply negb_false_iff in H1, H2, H3. auto. }
  left. destruct op as [u|u dto|u];
      [|destruct (negb (JS.truthy (cardToken dto))
                  || negb (JS.truthy (cardHolderName dto))
                  || negb (JS.truthy (cardCpf dto))) eqn:Hd;
        [now apply Hcard|]|];
      simpl in He; run_step; rewrite ?Hd, Hf; simpl; rewrite Ho; simpl;
      rewrite Hs; simpl; rewrite He; simpl; eauto.
Qed.

(** C7: the ownership check passes exactly for the registered owner of the
    order or, when the order has no registered owner, for its guest; in
    each of the three initiation operations a requester who is not the
    owner is rejected, with nothing done but the order lookup, and a
    response is returned only for an existing order that the requester
    owns. *)
Theorem ownership_enforced :
  (forall (order : Order) (requesterId : option string),
      ensureOrderOwnership order requesterId = Return tt
      <-> owns order requesterId)
  /\ (forall (this : Services) (op : Initiation) (orderId : string)
             (s : Store) (order : Order),
         Prisma.find_order orderId s = Some order ->
         ~ owns order (requester op) ->
         exists e w,
           run (initiate this op orderId) s = (Throw e, w)
           /\ db w = s
           /\ incl (trace w) [OrdersFindOneById orderId])
  /\ (forall (this : Services) (op : Initiation) (orderId : string)
             (s : Store) (r : InitiationResponse) (w : World),
         run (initiate this op orderId) s = (Return r, w) ->
         exists order,
           Prisma.find_order orderId s = Some order
           /\ owns order (requester op)).
Proof.
  split; [exact ensureOrderOwnership_owns|]. split.
  - intros this op orderId s order Ho Hn.
    destruct (initiate_checks this op orderId s)
      as [H|[order' [_ [_ [Ho' [_ He]]]]]]; [exact H|].
    rewrite Ho in Ho'. injection Ho' as <-.
    apply ensureOrderOwnership_owns in He. contradiction.
  - intros this op orderId s r w Hrun.
    destruct (initiate_checks this op orderId s)
      as [[e [w' [H _]]]|[order [_ [_ [Ho [_ He]]]]]].
    + rewrite H in Hrun. discriminate.
    + exists order. split; [exact Ho|].
      now apply ensureOrderOwnership_owns.
Qed.

Lemma ownership_enforced_witness :
  exists e w,
    run (initiate (Sample.services "APPROVED" "PAID")
                  (PixCharge "intruder") "o1") Sample.store0
    = (Throw e, w)
    /\ db w = Sample.store0
    /\ incl (trace w) [OrdersFindOneById "o1"].
Proof.
  apply (proj1 (proj2 ownership_enforced)
           (Sample.services "APPROVED" "PAID") (PixCharge "intruder") "o1"
           Sample.store0 Sample.order_o1).
  - reflexivity.
  - unfold owns. simpl. intros [[_ H]|[H _]]; discriminate H.
Defined.

(* ------------------------------------------------------------------ *)
(** ** Card data validation *)

(** C10: [processCreditCardPayment] called without a card token, a holder
    name or a holder CPF throws its validation error at once: no call on
    any collaborator is made (the trace is empty) and the store is the one
    it was called on. *)
Theorem processCreditCardPayment_incomplete_card (this : Services)
  (orderId : string) (userId : option string) (dto : ProcessPaymentDto)
  (s : Store) :
  JS.truthy (cardToken dto) = false
  \/ JS.truthy (cardHolderName dto) = false
  \/ JS.truthy (cardCpf dto) = false ->
  run (processCreditCardPayment this orderId userId dto) s
  = (Throw (exn BadRequestException
              "Dados do cartão incompletos para processamento direto."),
     mkWorld s []).
Proof.
  intros H. unfold run, processCreditCardPayment.
  assert (Hd : negb (JS.truthy (cardToken dto))
               || negb (JS.truthy (cardHolderName dto))
               || negb (JS.truthy (cardCpf dto)) = true).
  { destruct H as [H|[H|H]]; rewrite H; simpl;
      rewrite ?orb_true_r; reflexivity. }
  rewrite Hd. reflexivity.
Qed.

Lemma processCreditCardPayment_incomplete_card_witness :
  run (processCreditCardPayment (Sample.services "APPROVED" "PAID")
         "o1" (Some "u1") Sample.card_without_token) Sample.store0
  = (Throw (exn BadRequestException
              "Dados do cartão incompletos para processamento direto."),
     mkWorld Sample.store0 []).
Proof.
  apply (processCreditCardPayment_incomplete_card
           (Sample.services "APPROVED" "PAID") "o1" (Some "u1")
           Sample.card_without_token Sample.store0).
  left. reflexivity.
Defined.

(* ------------------------------------------------------------------ *)
(** ** Webhook signature *)

Lemma flip_ascii_neq (k : nat) (c : ascii) : flip_ascii k c <> c.
Proof.
  destruct c as [[] [] [] [] [] [] [] []];
    do 8 (destruct k as [|k]; [discriminate|]); discriminate.
Qed.

Lemma flip_bit_neq (s : string) :
  forall i : nat, i < 8 * String.length s -> flip_bit i s <> s.
Proof.
  induction s as [|c rest IH]; intros i Hi; simpl in *.
  - lia.
  - destruct (Nat.ltb_spec i 8) as [Hlt|Hge].
    + intros H. apply (flip_ascii_neq i c). congruence.
    + intros H. apply (IH (i - 8)); [lia|congruence].
Qed.

Lemma handlePagSeguroNotification_rejects (this : Services)
  (secret : string) (s : Store) (id signature rawBody : string) :
  ConfigService.pagSeguroWebhookSecret (nestConfigService this)
  = Return secret ->
  signature <> Crypto.hmac_sha256_hex secret rawBody ->
  run (handlePagSeguroNotification this id signature rawBody) s
  = (Throw invalid_signature, mkWorld s []).
Proof.
  intros Hsecret Hsig.
  unfold run, handlePagSeguroNotification, bind, lift. rewrite Hsecret.
  destruct (String.eqb_spec signature (Crypto.hmac_sha256_hex secret rawBody));
    [contradiction|reflexivity].
Qed.

Section AddsOnly.

Variable allowed : Event -> bool.

Lemma adds_only_ret {A : Type} (a : A) : adds_only allowed (ret a).
Proof.
  intros w r w' H. injection H as _ <-. exists [].
  now rewrite app_nil_r.
Qed.

Lemma adds_only_throw {A : Type} (e : Thrown) :
  adds_only allowed (@throw A e).
Proof.
  intros w r w' H. injection H as _ <-. exists [].
  now rewrite app_nil_r.
Qed.

Lemma adds_only_lift {A : Type} (o : Outcome A) : adds_only allowed (lift o).
Proof.
  intros w r w' H. injection H as _ <-. exists [].
  now rewrite app_nil_r.
Qed.

Lemma adds_only_call {A : Type} (ev : Event) (o : Outcome A) :
  allowed ev = true -> adds_only allowed (call ev o).
Proof.
  intros Hev w r w' H. injection H as _ <-. exists [ev]. simpl.
  now rewrite Hev.
Qed.

Lemma adds_only_read_db : adds_only allowed read_db.
Proof.
  intros w r w' H. injection H as _ <-. exists [].
  now rewrite app_nil_r.
Qed.

Lemma adds_only_write_db (s : Store) : adds_only allowed (write_db s).
Proof.
  intros w r w' H. injection H as _ <-. exists []. simpl.
  now rewrite app_nil_r.
Qed.

Lemma adds_only_bind {A B : Type} (m : M A) (k : A -> M B) :
  adds_only allowed m -> (forall a, adds_only allowed (k a)) ->
  adds_only allowed (bind m k).
Proof.
  intros Hm Hk w r w' H. unfold bind in H.
  destruct (m w) as [[a|e] w1] eqn:Hmw.
  - destruct (Hm _ _ _ Hmw) as [t1 [H1 F1]].
    destruct (Hk a _ _ _ H) as [t2 [H2 F2]].
    exists (t1 ++ t2)%list. rewrite H2, H1, app_assoc, forallb_app, F1, F2.
    now split.
  - injection H as _ <-. exact (Hm _ _ _ Hmw).
Qed.

Lemma adds_only_try_catch {A : Type} (m : M A) (h : Thrown -> M A) :
  adds_only allowed m -> (forall e, adds_only allowed (h e)) ->
  adds_only allowed (try_catch m h).
Proof.
  intros Hm Hh w r w' H. unfold try_catch in H.
  destruct (m w) as [[a|e] w1] eqn:Hmw.
  - injection H as _ <-. exact (Hm _ _ _ Hmw).
  - destruct (Hm _ _ _ Hmw) as [t1 [H1 F1]].
    destruct (Hh e _ _ _ H) as [t2 [H2 F2]].
    exists (t1 ++ t2)%list. rewrite H2, H1, app_assoc, forallb_app, F1, F2.
    now split.
Qed.

End AddsOnly.

Ltac adds_only_tac :=
  repeat first
    [ apply adds_only_ret | apply adds_only_throw | apply adds_only_lift
    | apply adds_only_call; reflexivity
    | apply adds_only_read_db | apply adds_only_write_db
    | apply adds_only_bind; [|intro]
    | apply adds_only_try_catch; [|intro]
    | match goal with
      | |- adds_only _ (if ?b then _ else _) => destruct b
      | |- adds_only _ (match ?x with _ => _ end) => destruct x
      end ].

Lemma adds_only_findOneById (this : Services) (orderId : string) :
  adds_only any_call (findOneById this orderId).
Proof. unfold findOneById. adds_only_tac. Qed.

Lemma adds_only_prisma_transaction (p : PrismaService) (ws : list DbWrite) :
  adds_only any_call (Prisma.transaction p ws).
Proof. unfold Prisma.transaction. adds_only_tac. Qed.

Lemma adds_only_findFirst (p : PrismaService) (gid : string) :
  adds_only any_call (Prisma.transaction_findFirst_with_order p gid).
Proof. unfold Prisma.transaction_findFirst_with_order. adds_only_tac. Qed.

Lemma handlePagSeguroNotification_verified (this : Services)
  (secret : string) (s : Store) (id rawBody : string) :
  ConfigService.pagSeguroWebhookSecret (nestConfigService this)
  = Return secret ->
  exists r w,
    run (handlePagSeguroNotification this id
           (Crypto.hmac_sha256_hex secret rawBody) rawBody) s = (r, w)
    /\ hd_error (trace w) = Some (GetCheckoutDetails id).
Proof.
  intros Hsecret.
  unfold run, handlePagSeguroNotification.
  unfold bind at 1. unfold lift at 1. rewrite Hsecret.
  rewrite String.eqb_refl. simpl.
  unfold bind at 1. unfold call at 1. simpl.
  destruct (getCheckoutDetails (pagSeguroService this) id) as [d|e];
    [|eauto].
  match goal with
  | |- exists r w, ?m ?w0 = _ /\ _ =>
      destruct (m w0) as [r w] eqn:Hrun; exists r, w; split; [reflexivity|];
      assert (Hext : adds_only any_call m)
  end.
  { adds_only_tac; auto using adds_only_findOneById,
      adds_only_prisma_transaction, adds_only_findFirst. }
  destruct (Hext _ _ _ Hrun) as [t [Ht _]]. rewrite Ht. reflexivity.
Qed.

(* ------------------------------------------------------------------ *)
(** ** Reconciliation *)

Lemma quiet_ret {A : Type} (a : A) : quiet (ret a).
Proof. intros w r w' H. now injection H as _ <-. Qed.

Lemma quiet_throw {A : Type} (e : Exception) : quiet (@throw A e).
Proof. intros w r w' H. now injection H as _ <-. Qed.

Lemma quiet_lift {A : Type} (o : Outcome A) : quiet (lift o).
Proof. intros w r w' H. now injection H as _ <-. Qed.

Lemma quiet_call {A : Type} (ev : Event) (o : Outcome A) : quiet (call ev o).
Proof. intros w r w' H. now injection H as _ <-. Qed.

Lemma quiet_read_db : quiet read_db.
Proof. intros w r w' H. now injection H as _ <-. Qed.

Lemma quiet_bind {A B : Type} (m : M A) (k : A -> M B) :
  quiet m -> (forall a, quiet (k a)) -> quiet (bind m k).
Proof.
  intros Hm Hk w r w' H. unfold bind in H.
  destruct (m w) as [[a|e] w1] eqn:Hmw.
  - rewrite (Hk a _ _ _ H). exact (Hm _ _ _ Hmw).
  - injection H as _ <-. exact (Hm _ _ _ Hmw).
Qed.

Lemma quiet_try_catch {A : Type} (m : M A) (h : Thrown -> M A) :
  quiet m -> (forall e, quiet (h e)) -> quiet (try_catch m h).
Proof.
  intros Hm Hh w r w' H. unfold try_catch in H.
  destruct (m w) as [[a|e] w1] eqn:Hmw.
  - injection H as _ <-. exact (Hm _ _ _ Hmw).
  - rewrite (Hh e _ _ _ H). exact (Hm _ _ _ Hmw).
Qed.

Ltac quiet_tac :=
  repeat first
    [ apply quiet_ret | apply quiet_throw | apply quiet_lift
    | apply quiet_call | apply quiet_read_db
    | apply quiet_bind; [|intro] | apply quiet_try_catch; [|intro]
    | match goal with
      | |- quiet (if ?b then _ else _) => destruct b
      | |- quiet (match ?x with _ => _ end) => destruct x
      end ].

Lemma quiet_findOneById (this : Services) (orderId : string) :
  quiet (findOneById this orderId).
Proof. unfold findOneById. quiet_tac. Qed.

(** A [try] block whose [catch] does nothing but log the message of the
    failure: it completes, unless the failure is [null] or [undefined], of
    which the message cannot be read. *)
Lemma try_catch_log (m : M unit) (w : World) :
  try_catch m (fun error => lift (message_of error) ;;; ret tt) w
  = match m w with
    | (Throw (ThrownNullish v), w') =>
        (Throw (Raised (type_error v "message")), w')
    | (_, w') => (Return tt, w')
    end.
Proof.
  unfold try_catch, bind, lift, ret.
  destruct (m w) as [[[]|[e|v|x]] w']; reflexivity.
Qed.

Lemma find_map_preserved {A : Type} (p : A -> bool) (f : A -> A)
  (l : list A) :
  (forall x, p (f x) = p x) ->
  find p (map f l) = option_map f (find p l).
Proof.
  intros Hp. induction l as [|x l IH]; simpl; [reflexivity|].
  rewrite Hp. destruct (p x); [reflexivity|exact IH].
Qed.

(** The two writes of the webhook handler, once committed. *)
Lemma run_writes_status_update (p : PrismaService) (tid : nat)
  (oid : string) (new : OrderStatus) (s s' : Store) :
  Prisma.run_writes p
    [TransactionUpdateStatus tid (OrderStatus_name new);
     OrderUpdateStatus oid new] s = Return s' ->
  s' = mkStore
         (map (fun o => if order_id o =? oid
                        then Prisma.set_order_status new o else o)
              (orders s))
         (map (fun t => if Nat.eqb (tx_id t) tid
                        then Prisma.set_transaction_status
                               (db_now p) (OrderStatus_name new) t
                        else t)
              (transactions s))
  /\ (exists t, Prisma.find_transaction tid s = Some t)
  /\ (exists o, Prisma.find_order oid s = Some o).
Proof.
  simpl. unfold Prisma.run_write.
  destruct (db_fault p (TransactionUpdateStatus tid (OrderStatus_name new)));
    [intros H; discriminate H|].
  simpl.
  destruct (Prisma.find_transaction tid s) as [t|] eqn:Ht;
    [|intros H; discriminate H].
  destruct (db_fault p (OrderUpdateStatus oid new));
    [intros H; discriminate H|].
  simpl. unfold Prisma.find_order at 1. simpl.
  fold (Prisma.find_order oid s).
  destruct (Prisma.find_order oid s) as [o|] eqn:Ho;
    [|intros H; discriminate H].
  intros H. injection H as <-. eauto.
Qed.

Arguments Prisma.run_writes : simpl never.
(** The calls the webhook handler makes after its writes (the reload of
    the order and the e-mail) leave the store alone; the handler then
    acknowledges, unless one of them fails with [null] or [undefined]: the
    log line of the [catch] block then throws. *)
Lemma after_commit (m : M unit) (a : WebhookAck) (w : World) :
  quiet m ->
  exists r w',
    bind (try_catch m (fun error => lift (message_of error) ;;; ret tt))
         (fun _ => ret a) w = (r, w')
    /\ db w' = db w
    /\ (r = Return a
        \/ exists v,
             m w = (Throw (ThrownNullish v), w')
             /\ r = Throw (Raised (type_error v "message"))).
Proof.
  intros Hq. unfold bind. rewrite try_catch_log.
  destruct (m w) as [[[]|[e|v|x]] w'] eqn:Hm;
    eexists; eexists; (split; [reflexivity|]);
    (split; [exact (Hq _ _ _ Hm)|]); eauto.
Qed.

(** Every run of the webhook handler either leaves the store as it was,
    returning the no-op acknowledgement only when both statuses were
    already the canonical one, or has committed its two writes together. *)
Lemma handle_outcomes (this : Services) (s : Store)
  (id signature rawBody : string) (r : Outcome WebhookAck) (w : World) :
  run (handlePagSeguroNotification this id signature rawBody) s = (r, w) ->
  (db w = s
   /\ forall a, r = Return a ->
        a = mkWebhookAck "Status já atualizado"
        /\ exists d t order,
             getCheckoutDetails (pagSeguroService this) id = Return d
             /\ Prisma.find_transaction_by_gateway id s = Some t
             /\ JS.opt_field (tx_orderId t)
                  (fun oid => Prisma.find_order oid s) = Some order
             /\ tx_status t
                = OrderStatus_name
                    (mapPagSeguroStatusToOrderStatus
                       (pagSeguroTransactionStatus d))
             /\ order_status order
                = mapPagSeguroStatusToOrderStatus
                    (pagSeguroTransactionStatus d))
  \/ (exists d t order,
         getCheckoutDetails (pagSeguroService this) id = Return d
         /\ Prisma.find_transaction_by_gateway id s = Some t
         /\ JS.opt_field (tx_orderId t) (fun oid => Prisma.find_order oid s)
            = Some order
         /\ Prisma.run_writes (prisma this)
              [TransactionUpdateStatus (tx_id t)
                 (OrderStatus_name
                    (mapPagSeguroStatusToOrderStatus
                       (pagSeguroTransactionStatus d)));
               OrderUpdateStatus (order_id order)
                 (mapPagSeguroStatusToOrderStatus
                    (pagSeguroTransactionStatus d))] s
            = Return (db w)
         /\ (r = Return (mkWebhookAck
                            "Status do pedido atualizado com sucesso")
             \/ exists v, r = Throw (Raised (type_error v "message")))).
Proof.
  unfold run, handlePagSeguroNotification.
  unfold bind at 1. unfold lift at 1.
  destruct (ConfigService.pagSeguroWebhookSecret (nestConfigService this))
    as [secret|e0].
  2:{ intros H. injection H as <- <-. left. split; [reflexivity|].
      intros a Ha. discriminate Ha. }
  destruct (negb (signature =? Crypto.hmac_sha256_hex secret rawBody)).
  { intros H. injection H as <- <-. left. split; [reflexivity|].
    intros a Ha. discriminate Ha. }
  unfold bind at 1. unfold call at 1. simpl.
  destruct (getCheckoutDetails (pagSeguroService this) id) as [d|e1].
  2:{ intros H. injection H as <- <-. left. split; [reflexivity|].
      intros a Ha. discriminate Ha. }
  unfold bind at 1. unfold Prisma.transaction_findFirst_with_order.
  unfold bind at 1. unfold read_db at 1. unfold call at 1. simpl.
  destruct (db_read_fault (prisma this) id) as [e2|].
  { intros H. injection H as <- <-. left. split; [reflexivity|].
    intros a Ha. discriminate Ha. }
  destruct (Prisma.find_transaction_by_gateway id s) as [t|] eqn:Ht.
  2:{ intros H. injection H as <- <-. left. split; [reflexivity|].
      intros a Ha. discriminate Ha. }
  destruct (JS.opt_field (tx_orderId t) (fun oid => Prisma.find_order oid s))
    as [order|] eqn:Ho.
  2:{ intros H. injection H as <- <-. left. split; [reflexivity|].
      intros a Ha. discriminate Ha. }
  set (new := mapPagSeguroStatusToOrderStatus (pagSeguroTransactionStatus d)).
  destruct ((tx_status t =? OrderStatus_name new)
            && OrderStatus_eqb (order_status order) new) eqn:Hsame.
  - intros H. injection H as <- <-. left. split; [reflexivity|].
    intros a Ha. injection Ha as <-. split; [reflexivity|].
    apply andb_prop in Hsame. destruct Hsame as [Hts Hos].
    apply String.eqb_eq in Hts. apply OrderStatus_eqb_eq in Hos.
    exists d, t, order. auto.
  - unfold bind at 1. unfold Prisma.transaction.
    unfold bind at 1. unfold read_db at 1.
    unfold bind at 1. unfold call at 1. simpl.
    destruct (Prisma.run_writes (prisma this) _ s) as [s'|e3] eqn:Hw.
    2:{ intros H. injection H as <- <-. left. split; [reflexivity|].
        intros a Ha. discriminate Ha. }
    unfold write_db at 1.
    match goal with
    | |- bind (try_catch ?m _) _ ?w0 = _ -> _ =>
        destruct (after_commit m
                    (mkWebhookAck "Status do pedido atualizado com sucesso")
                    w0) as (r' & w' & Hrun & Hdb & Hr)
    end.
    { quiet_tac; apply quiet_findOneById. }
    rewrite Hrun. intros H. injection H as <- <-. right.
    exists d, t, order. simpl in Hdb. rewrite Hdb.
    repeat (split; [assumption || reflexivity|]).
    destruct Hr as [->|(v & _ & ->)]; eauto.
Qed.

(** What the handler's lookup finds in the store its two writes made. *)
Lemma lookup_after_status_update (now : string) (gid : string)
  (new : OrderStatus) (s : Store) (t : Transaction) (order : Order) :
  Prisma.find_transaction_by_gateway gid s = Some t ->
  JS.opt_field (tx_orderId t) (fun oid => Prisma.find_order oid s)
  = Some order ->
  let s' :=
    mkStore
      (map (fun o => if order_id o =? order_id order
                     then Prisma.set_order_status new o else o)
           (orders s))
      (map (fun x => if Nat.eqb (tx_id x) (tx_id t)
                     then Prisma.set_transaction_status
                            now (OrderStatus_name new) x
                     else x)
           (transactions s)) in
  Prisma.find_transaction_by_gateway gid s'
  = Some (Prisma.set_transaction_status now (OrderStatus_name new) t)
  /\ JS.opt_field
       (tx_orderId (Prisma.set_transaction_status now (OrderStatus_name new) t))
       (fun oid => Prisma.find_order oid s')
     = Some (Prisma.set_order_status new order).
Proof.
  intros Ht Ho s'. split.
  - unfold Prisma.find_transaction_by_gateway, s'. simpl.
    rewrite find_map_preserved.
    + unfold Prisma.find_transaction_by_gateway in Ht. rewrite Ht. simpl.
      now rewrite Nat.eqb_refl.
    + intros x. destruct (Nat.eqb (tx_id x) (tx_id t)); reflexivity.
  - simpl. destruct (tx_orderId t) as [oid|]; simpl in *; [|discriminate].
    unfold Prisma.find_order, s'. simpl.
    rewrite find_map_preserved.
    + unfold Prisma.find_order in Ho. rewrite Ho. simpl.
      now rewrite String.eqb_refl.
    + intros x. destruct (order_id x =? order_id order); reflexivity.
Qed.

Lemma handle_noop (this : Services) (s : Store)
  (id signature rawBody secret : string) (d : CheckoutDetails)
  (t : Transaction) (order : Order) :
  ConfigService.pagSeguroWebhookSecret (nestConfigService this)
  = Return secret ->
  signature = Crypto.hmac_sha256_hex secret rawBody ->
  getCheckoutDetails (pagSeguroService this) id = Return d ->
  db_read_fault (prisma this) id = None ->
  Prisma.find_transaction_by_gateway id s = Some t ->
  JS.opt_field (tx_orderId t) (fun oid => Prisma.find_order oid s)
  = Some order ->
  tx_status t
  = OrderStatus_name
      (mapPagSeguroStatusToOrderStatus (pagSeguroTransactionStatus d)) ->
  order_status order
  = mapPagSeguroStatusToOrderStatus (pagSeguroTransactionStatus d) ->
  run (handlePagSeguroNotification this id signature rawBody) s
  = (Return (mkWebhookAck "Status já atualizado"),
     mkWorld s [GetCheckoutDetails id; TransactionFindFirst id]).
Proof.
  intros Hsecret -> Hd Hrf Ht Ho Hts Hos.
  unfold run, handlePagSeguroNotification.
  unfold bind at 1. unfold lift at 1. rewrite Hsecret.
  rewrite String.eqb_refl. simpl.
  unfold bind at 1. unfold call at 1. simpl. rewrite Hd.
  unfold bind at 1. unfold Prisma.transaction_findFirst_with_order.
  unfold bind at 1. unfold read_db at 1. unfold call at 1. simpl.
  rewrite Hrf, Ht, Ho, Hts, Hos. rewrite String.eqb_refl.
  rewrite (proj2 (OrderStatus_eqb_eq _ _) eq_refl). reflexivity.
Qed.

(** C5: when the canonical status computed from the gateway already is the
    status of both the transaction and its order, the webhook handler
    returns its no-op acknowledgement having made only its two lookups (no
    write); hence, once a delivery has succeeded, a second delivery of the
    same gateway status is acknowledged as a no-op and leaves the store
    that the first delivery left. *)
Theorem reconciliation_idempotent :
  (forall (this : Services) (s : Store)
          (id signature rawBody secret : string) (d : CheckoutDetails)
          (t : Transaction) (order : Order),
      ConfigService.pagSeguroWebhookSecret (nestConfigService this)
      = Return secret ->
      signature = Crypto.hmac_sha256_hex secret rawBody ->
      getCheckoutDetails (pagSeguroService this) id = Return d ->
      db_read_fault (prisma this) id = None ->
      Prisma.find_transaction_by_gateway id s = Some t ->
      JS.opt_field (tx_orderId t) (fun oid => Prisma.find_order oid s)
      = Some order ->
      tx_status t
      = OrderStatus_name
          (mapPagSeguroStatusToOrderStatus (pagSeguroTransactionStatus d)) ->
      order_status order
      = mapPagSeguroStatusToOrderStatus (pagSeguroTransactionStatus d) ->
      run (handlePagSeguroNotification this id signature rawBody) s
      = (Return (mkWebhookAck "Status já atualizado"),
         mkWorld s [GetCheckoutDetails id; TransactionFindFirst id]))
  /\ (forall (first second : Services) (s : Store)
             (id signature1 rawBody1 signature2 rawBody2 secret : string)
             (d1 d2 : CheckoutDetails) (a1 : WebhookAck) (w1 : World),
         run (handlePagSeguroNotification first id signature1 rawBody1) s
         = (Return a1, w1) ->
         getCheckoutDetails (pagSeguroService first) id = Return d1 ->
         ConfigService.pagSeguroWebhookSecret (nestConfigService second)
         = Return secret ->
         signature2 = Crypto.hmac_sha256_hex secret rawBody2 ->
         getCheckoutDetails (pagSeguroService second) id = Return d2 ->
         pagSeguroTransactionStatus d2 = pagSeguroTransactionStatus d1 ->
         db_read_fault (prisma second) id = None ->
         run (handlePagSeguroNotification second id signature2 rawBody2)
             (db w1)
         = (Return (mkWebhookAck "Status já atualizado"),
            mkWorld (db w1)
                    [GetCheckoutDetails id; TransactionFindFirst id])).
Proof.
  split; [exact handle_noop|].
  intros first second s id sig1 body1 sig2 body2 secret d1 d2 a1 w1
         Hrun Hd1 Hsecret Hsig Hd2 Hsame Hrf.
  destruct (handle_outcomes _ _ _ _ _ _ _ Hrun)
    as [[Hdb Hret]|(d & t & order & Hd & Ht & Ho & Hw & _)].
  - destruct (Hret a1 eq_refl)
      as (_ & d & t & order & Hd & Ht & Ho & Hts & Hos).
    rewrite Hd1 in Hd. injection Hd as <-. rewrite Hdb.
    apply handle_noop with (secret := secret) (d := d2) (t := t)
                           (order := order); auto; now rewrite Hsame.
  - rewrite Hd1 in Hd. injection Hd as <-.
    destruct (run_writes_status_update _ _ _ _ _ _ Hw) as (Hs' & _ & _).
    destruct (lookup_after_status_update
                (db_now (prisma first)) id
                (mapPagSeguroStatusToOrderStatus
                   (pagSeguroTransactionStatus d1))
                s t order Ht Ho) as [Ht' Ho'].
    rewrite <- Hs' in Ht', Ho'.
    eapply handle_noop with (secret := secret) (d := d2); eauto;
      rewrite Hsame; reflexivity.
Qed.

Lemma reconciliation_idempotent_witness :
  let this := Sample.services "APPROVED" "APPROVED" in
  let signature := Crypto.hmac_sha256_hex "whsec_test" Sample.body in
  let first :=
    run (handlePagSeguroNotification this "tx1" signature Sample.body)
        Sample.store_with_tx1 in
  fst first = Return (mkWebhookAck "Status do pedido atualizado com sucesso")
  /\ run (handlePagSeguroNotification this "tx1" signature Sample.body)
         (db (snd first))
     = (Return (mkWebhookAck "Status já atualizado"),
        mkWorld (db (snd first))
                [GetCheckoutDetails "tx1"; TransactionFindFirst "tx1"]).
Proof.
  intros this signature first. split; [vm_compute; reflexivity|].
  apply (proj2 reconciliation_idempotent this this Sample.store_with_tx1
           "tx1" signature Sample.body signature Sample.body "whsec_test"
           (mkCheckoutDetails (Some "tx1") (Some "APPROVED") None None)
           (mkCheckoutDetails (Some "tx1") (Some "APPROVED") None None)
           (mkWebhookAck "Status do pedido atualizado com sucesso")
           (snd first)).
  - vm_compute. reflexivity.
  - reflexivity.
  - reflexivity.
  - reflexivity.
  - reflexivity.
  - reflexivity.
  - reflexivity.
Defined.

Lemma status_after_status_update (p : PrismaService) (tid : nat)
  (oid : string) (new : OrderStatus) (s s' : Store) :
  Prisma.run_writes p
    [TransactionUpdateStatus tid (OrderStatus_name new);
     OrderUpdateStatus oid new] s = Return s' ->
  transaction_status tid s' = Some (OrderStatus_name new)
  /\ order_status_of oid s' = Some new.
Proof.
  intros Hw.
  destruct (run_writes_status_update _ _ _ _ _ _ Hw)
    as (-> & [t Ht] & [o Ho]).
  unfold transaction_status, order_status_of, Prisma.find_transaction,
    Prisma.find_order in *. simpl. split.
  - rewrite find_map_preserved.
    + rewrite Ht. simpl. apply find_some in Ht. destruct Ht as [_ Ht].
      now rewrite Ht.
    + intros x. destruct (Nat.eqb (tx_id x) tid) eqn:E; simpl;
        rewrite ?E; reflexivity.
  - rewrite find_map_preserved.
    + rewrite Ho. simpl. apply find_some in Ho. destruct Ho as [_ Ho].
      now rewrite Ho.
    + intros x. destruct (order_id x =? oid) eqn:E; simpl;
        rewrite ?E; reflexivity.
Qed.

Lemma count_events_none (p : Event -> bool) (t : list Event) :
  forallb (fun e => negb (p e)) t = true -> count_events p t = 0.
Proof.
  unfold count_events. induction t as [|e t IH]; simpl; [reflexivity|].
  destruct (p e); simpl; [discriminate|exact IH].
Qed.

(** The webhook handler writes through [$transaction] only. *)
Lemma handle_writes_in_transaction (this : Services)
  (id signature rawBody : string) :
  adds_only not_single_write
    (handlePagSeguroNotification this id signature rawBody).
Proof.
  unfold handlePagSeguroNotification, findOneById, Prisma.transaction,
    Prisma.transaction_findFirst_with_order.
  adds_only_tac.
Qed.

(** C6: whatever the gateway, the database and the mailer do, a run of the
    webhook handler ends with the store it started from (transaction and
    order both keep their status), or with the status of the transaction it
    located and the status of that transaction's order both equal to the
    new canonical status: the two updates are one all-or-nothing write, and
    no outcome has the transaction updated without its order; the handler
    sends no write to the store outside that transaction. *)
Theorem reconciliation_atomic (this : Services) (s : Store)
  (id signature rawBody : string) (r : Outcome WebhookAck) (w : World) :
  run (handlePagSeguroNotification this id signature rawBody) s = (r, w) ->
  (db w = s
   \/ exists d t order,
       getCheckoutDetails (pagSeguroService this) id = Return d
       /\ Prisma.find_transaction_by_gateway id s = Some t
       /\ JS.opt_field (tx_orderId t) (fun oid => Prisma.find_order oid s)
          = Some order
       /\ transaction_status (tx_id t) (db w)
          = Some (OrderStatus_name
                    (mapPagSeguroStatusToOrderStatus
                       (pagSeguroTransactionStatus d)))
       /\ order_status_of (order_id order) (db w)
          = Some (mapPagSeguroStatusToOrderStatus
                    (pagSeguroTransactionStatus d)))
  /\ count_events is_single_write (trace w) = 0.
Proof.
  intros Hrun. split.
  - destruct (handle_outcomes _ _ _ _ _ _ _ Hrun)
      as [[Hdb _]|(d & t & order & Hd & Ht & Ho & Hw & _)].
    + left. exact Hdb.
    + right. exists d, t, order.
      destruct (status_after_status_update _ _ _ _ _ _ Hw) as [H1 H2]. auto.
  - destruct (handle_writes_in_transaction this id signature rawBody
                _ _ _ Hrun) as [t [Ht Hall]].
    rewrite Ht. simpl. now apply count_events_none.
Qed.

(** With a database that refuses the update of the order, the update of
    the transaction is not kept either. *)
Lemma reconciliation_atomic_witness :
  let this :=
    mkServices Sample.database_refusing_order_updates Sample.orders_service
      (Sample.gateway "APPROVED") Sample.environment Sample.mailer
      (Sample.antifraud "APPROVED") in
  let outcome :=
    run (handlePagSeguroNotification this "tx1"
           (Crypto.hmac_sha256_hex "whsec_test" Sample.body) Sample.body)
        Sample.store_with_tx1 in
  fst outcome = Throw (exn Error "deadlock detected")
  /\ (db (snd outcome) = Sample.store_with_tx1
      \/ exists d t order,
           getCheckoutDetails (pagSeguroService this) "tx1" = Return d
           /\ Prisma.find_transaction_by_gateway "tx1" Sample.store_with_tx1
              = Some t
           /\ JS.opt_field (tx_orderId t)
                (fun oid => Prisma.find_order oid Sample.store_with_tx1)
              = Some order
           /\ transaction_status (tx_id t) (db (snd outcome))
              = Some (OrderStatus_name
                        (mapPagSeguroStatusToOrderStatus
                           (pagSeguroTransactionStatus d)))
           /\ order_status_of (order_id order) (db (snd outcome))
              = Some (mapPagSeguroStatusToOrderStatus
                        (pagSeguroTransactionStatus d))).
Proof.
  intros this outcome. split; [vm_compute; reflexivity|].
  apply (proj1 (reconciliation_atomic this Sample.store_with_tx1 "tx1"
                  (Crypto.hmac_sha256_hex "whsec_test" Sample.body)
                  Sample.body (fst outcome) (snd outcome)
                  ltac:(vm_compute; reflexivity))).
Defined.

(** The end of a run of the handler whose outcome is the one stated. *)
Ltac acknowledged :=
  let H := fresh "H" in
  cbv beta iota zeta; intros H; injection H as <- _; reflexivity.

(** C8: once the two status writes of the webhook handler have committed,
    the committed store is the final one whatever the reload of the order
    and the mailer do, and the handler returns its success acknowledgement
    when neither of them fails with [null] or [undefined]: such a failure
    is caught and logged.  But when the reload of the order, or the mail
    that is sent, does fail with [null] or [undefined], the log line of the
    [catch] block reads the message of the caught value and throws a
    TypeError, which the webhook caller gets: that failure is not
    swallowed. *)
Theorem notification_failure_after_commit (this : Services) (s s' : Store)
  (id signature rawBody secret : string) (d : CheckoutDetails)
  (t : Transaction) (order : Order) :
  ConfigService.pagSeguroWebhookSecret (nestConfigService this)
  = Return secret ->
  signature = Crypto.hmac_sha256_hex secret rawBody ->
  getCheckoutDetails (pagSeguroService this) id = Return d ->
  db_read_fault (prisma this) id = None ->
  Prisma.find_transaction_by_gateway id s = Some t ->
  JS.opt_field (tx_orderId t) (fun oid => Prisma.find_order oid s)
  = Some order ->
  tx_status t
  <> OrderStatus_name
       (mapPagSeguroStatusToOrderStatus (pagSeguroTransactionStatus d))
  \/ order_status order
     <> mapPagSeguroStatusToOrderStatus (pagSeguroTransactionStatus d) ->
  Prisma.run_writes (prisma this)
    [TransactionUpdateStatus (tx_id t)
       (OrderStatus_name
          (mapPagSeguroStatusToOrderStatus (pagSeguroTransactionStatus d)));
     OrderUpdateStatus (order_id order)
       (mapPagSeguroStatusToOrderStatus (pagSeguroTransactionStatus d))] s
  = Return s' ->
  exists r w,
    run (handlePagSeguroNotification this id signature rawBody) s = (r, w)
    /\ db w = s'
    /\ (r = Return (mkWebhookAck "Status do pedido atualizado com sucesso")
        \/ exists v, r = Throw (Raised (type_error v "message")))
    /\ ((forall v,
            orders_fault (ordersService this) (order_id order)
            <> Some (ThrownNullish v)) ->
        (forall to amount v,
            sendPaymentConfirmationEmail (notificationsService this)
              to (order_id order) amount <> Throw (ThrownNullish v)) ->
        (forall to v,
            sendPaymentCancellationEmail (notificationsService this)
              to (order_id order) <> Throw (ThrownNullish v)) ->
        r = Return (mkWebhookAck "Status do pedido atualizado com sucesso"))
    /\ (forall to v,
           notification_recipient this order s' = Some to ->
           to <> "" ->
           (mapPagSeguroStatusToOrderStatus (pagSeguroTransactionStatus d)
            = PAID
            /\ sendPaymentConfirmationEmail (notificationsService this)
                 to (order_id order) (toNumber (order_totalAmount order))
               = Throw (ThrownNullish v))
           \/ (mapPagSeguroStatusToOrderStatus
                 (pagSeguroTransactionStatus d) = CANCELLED
               /\ sendPaymentCancellationEmail (notificationsService this)
                    to (order_id order)
                  = Throw (ThrownNullish v)) ->
           r = Throw (Raised (type_error v "message")))
    /\ (forall v,
           JS.truthy (order_userId order) = true ->
           orders_fault (ordersService this) (order_id order)
           = Some (ThrownNullish v) ->
           r = Throw (Raised (type_error v "message"))).
Proof.
  intros Hsecret -> Hd Hrf Ht Ho Hdiff Hw.
  unfold run, handlePagSeguroNotification.
  unfold bind at 1. unfold lift at 1. rewrite Hsecret.
  rewrite String.eqb_refl. simpl.
  unfold bind at 1. unfold call at 1. simpl. rewrite Hd.
  unfold bind at 1. unfold Prisma.transaction_findFirst_with_order.
  unfold bind at 1. unfold read_db at 1. unfold call at 1. simpl.
  rewrite Hrf, Ht, Ho.
  set (new := mapPagSeguroStatusToOrderStatus (pagSeguroTransactionStatus d))
    in *.
  assert (Hsame : (tx_status t =? OrderStatus_name new)
                  && OrderStatus_eqb (order_status order) new = false).
  { apply andb_false_iff. destruct Hdiff as [Hn|Hn].
    - left. now apply String.eqb_neq.
    - right. destruct (OrderStatus_eqb (order_status order) new) eqn:He;
        [|reflexivity].
      apply OrderStatus_eqb_eq in He. contradiction. }
  rewrite Hsame.
  unfold bind at 1. unfold Prisma.transaction.
  unfold bind at 1. unfold read_db at 1.
  unfold bind at 1. unfold call at 1. simpl. rewrite Hw.
  unfold write_db at 1.
  match goal with
  | |- exists r w, bind (try_catch ?m ?h) ?k ?w0 = (r, w) /\ _ =>
      destruct (bind (try_catch m h) k w0) as [r w] eqn:Hrun;
      destruct (after_commit m
                  (mkWebhookAck "Status do pedido atualizado com sucesso")
                  w0) as (r' & w' & Hrun' & Hdb & Hr);
      [quiet_tac; apply quiet_findOneById|]
  end.
  rewrite Hrun in Hrun'. injection Hrun' as <- <-.
  exists r, w. split; [reflexivity|]. split; [exact Hdb|].
  split; [destruct Hr as [->|(v & _ & ->)]; eauto|].
  clear Hr Hdb. revert Hrun. unfold bind at 1. rewrite try_catch_log.
  cbv beta iota zeta delta [bind call ret throw findOneById read_db].
  cbn [db trace app].
  split.
  - intros Hreload Hconfirm Hcancel. revert Hrun.
    destruct (JS.truthy (order_userId order)).
    + destruct (orders_fault (ordersService this) (order_id order))
        as [[e|v|x]|] eqn:Hof;
        try (acknowledged);
        [exfalso; exact (Hreload v eq_refl)|].
      cbv beta iota zeta. cbn [db trace app].
      destruct (Prisma.find_order (order_id order) s') as [o|];
        [|acknowledged].
      destruct (JS.truthy (JS.opt_field (order_user o) user_email));
        [|acknowledged].
      destruct (OrderStatus_eqb new PAID);
        [|destruct (OrderStatus_eqb new CANCELLED);
          [|acknowledged]].
      * destruct (sendPaymentConfirmationEmail _ _ _ _)
          as [[]|[e|v|x]] eqn:Hsend;
          try (acknowledged).
        exfalso. exact (Hconfirm _ _ v Hsend).
      * destruct (sendPaymentCancellationEmail _ _ _)
          as [[]|[e|v|x]] eqn:Hsend;
          try (acknowledged).
        exfalso. exact (Hcancel _ v Hsend).
    + destruct (JS.truthy (order_guestEmail order));
        [|acknowledged].
      destruct (OrderStatus_eqb new PAID);
        [|destruct (OrderStatus_eqb new CANCELLED);
          [|acknowledged]].
      * destruct (sendPaymentConfirmationEmail _ _ _ _)
          as [[]|[e|v|x]] eqn:Hsend;
          try (acknowledged).
        exfalso. exact (Hconfirm _ _ v Hsend).
      * destruct (sendPaymentCancellationEmail _ _ _)
          as [[]|[e|v|x]] eqn:Hsend;
          try (acknowledged).
        exfalso. exact (Hcancel _ v Hsend).
  - split.
    + intros to v Hto Hne Hsend. revert Hrun.
      unfold notification_recipient in Hto.
      destruct (JS.truthy (order_userId order)).
      * destruct (orders_fault (ordersService this) (order_id order));
          [discriminate Hto|].
        cbv beta iota zeta. cbn [db trace app].
        destruct (Prisma.find_order (order_id order) s') as [o|];
          [|discriminate Hto].
        cbn [JS.opt_field] in Hto. rewrite Hto, (truthy_Some_intro to Hne).
        destruct Hsend as [[Hnew Hsend]|[Hnew Hsend]]; rewrite Hnew;
          cbn [OrderStatus_eqb JS.nullish_default]; rewrite Hsend;
          acknowledged.
      * rewrite Hto, (truthy_Some_intro to Hne).
        destruct Hsend as [[Hnew Hsend]|[Hnew Hsend]]; rewrite Hnew;
          cbn [OrderStatus_eqb JS.nullish_default]; rewrite Hsend;
          acknowledged.
    + intros v Huser Hreload. revert Hrun.
      rewrite Huser, Hreload. acknowledged.
Qed.

(** The mailer rejects with [undefined]: the status update is kept, and
    the handler fails with the TypeError of its log line. *)
Lemma notification_failure_after_commit_witness :
  let this :=
    mkServices Sample.database Sample.orders_service
      (Sample.gateway "APPROVED") Sample.environment
      Scenario.mailer_rejecting_undefined (Sample.antifraud "APPROVED") in
  exists w,
    run (handlePagSeguroNotification this "tx2"
           (Crypto.hmac_sha256_hex "whsec_test" Sample.body) Sample.body)
        Scenario.store_with_tx2
    = (Throw (Raised
                (exn TypeError
                   "Cannot read properties of undefined (reading 'message')")),
       w)
    /\ db w
       = mkStore
           [Sample.order_o1; Prisma.set_order_status PAID Sample.order_o2]
           [Prisma.set_transaction_status Sample.now "PAID"
              Scenario.tx_redirect_tx2].
Proof.
  intros this.
  destruct (notification_failure_after_commit this Scenario.store_with_tx2
              (mkStore
                 [Sample.order_o1;
                  Prisma.set_order_status PAID Sample.order_o2]
                 [Prisma.set_transaction_status Sample.now "PAID"
                    Scenario.tx_redirect_tx2])
              "tx2" (Crypto.hmac_sha256_hex "whsec_test" Sample.body)
              Sample.body "whsec_test"
              (mkCheckoutDetails (Some "tx2") (Some "APPROVED") None None)
              Scenario.tx_redirect_tx2 Sample.order_o2)
    as (r & w & Hrun & Hdb & _ & _ & Hbug & _).
  - reflexivity.
  - reflexivity.
  - reflexivity.
  - reflexivity.
  - reflexivity.
  - reflexivity.
  - left. vm_compute. discriminate.
  - vm_compute. reflexivity.
  - exists w. rewrite Hrun.
    rewrite (Hbug "guest@example.com" JsUndefined eq_refl
               ltac:(discriminate) (or_introl (conj eq_refl eq_refl))).
    split; [reflexivity|exact Hdb].
Defined.

(* ------------------------------------------------------------------ *)
(** ** Reconstruction from an existing transaction *)

(** An existing transaction stored without gateway id makes the
    reconstruction, and with it the initiation, fail. *)
Lemma reconstruction_raises_without_gateway_id :
  run (createPixCharge (Sample.services "APPROVED" "PAID") "o1" "u1")
      Sample.store_without_gateway_id
  = (Throw (exn InternalServerErrorException
              "Transação existente sem ID do PagSeguro."),
     mkWorld Sample.store_without_gateway_id
             [OrdersFindOneById "o1"; TransactionFindUnique "o1"]).
Proof. vm_compute. reflexivity. Qed.

(** What each reconstruction helper does on a transaction that has a
    gateway id: one re-query, then the answer built from it, or from the
    stored row when the re-query fails; when it fails with [null] or
    [undefined], the log line of the [catch] block throws. *)
Lemma existing_pix_response (this : Services) (transaction : Transaction)
  (gid : string) (w : World) :
  tx_gatewayTransactionId transaction = Some gid ->
  gid <> "" ->
  exists o,
    buildPixResponseFromTransaction this transaction w
    = (o, mkWorld (db w) (trace w ++ [GetOrderDetails gid]))
    /\ match getOrderDetails (pagSeguroService this) gid with
       | Return d => exists r, o = Return r /\ pix_transactionId r = gid
       | Throw (ThrownNullish v) =>
           o = Throw (Raised (type_error v "message"))
       | Throw _ => o = Return (stored_pix_response gid transaction)
       end.
Proof.
  intros Hgid Hne.
  unfold buildPixResponseFromTransaction.
  rewrite Hgid, (truthy_Some_intro gid Hne). simpl.
  unfold try_catch, bind, call, ret, lift.
  destruct (getOrderDetails (pagSeguroService this) gid) as [d|[e|v|x]];
    eexists; (split; [reflexivity|]); eauto.
Qed.

Lemma existing_card_response (this : Services) (transaction : Transaction)
  (gid : string) (w : World) :
  tx_gatewayTransactionId transaction = Some gid ->
  gid <> "" ->
  exists o,
    buildExistingDirectCardResponse this transaction w
    = (o, mkWorld (db w) (trace w ++ [GetCheckoutDetails gid]))
    /\ match getCheckoutDetails (pagSeguroService this) gid with
       | Return d =>
           exists r, o = Return (CardExisting r) /\ ecr_transactionId r = gid
       | Throw (ThrownNullish v) =>
           o = Throw (Raised (type_error v "message"))
       | Throw _ => o = Return (stored_card_response gid transaction)
       end.
Proof.
  intros Hgid Hne.
  unfold buildExistingDirectCardResponse.
  rewrite Hgid, (truthy_Some_intro gid Hne). simpl.
  unfold try_catch, bind, call, ret, lift.
  destruct (getCheckoutDetails (pagSeguroService this) gid) as [d|[e|v|x]];
    eexists; (split; [reflexivity|]); eauto.
Qed.

Lemma existing_redirect_response (this : Services)
  (transaction : Transaction) (gid : string) (w : World) :
  tx_gatewayTransactionId transaction = Some gid ->
  gid <> "" ->
  exists o,
    buildExistingRedirectResponse this transaction w
    = (o, mkWorld (db w) (trace w ++ [GetCheckoutDetails gid]))
    /\ match getCheckoutDetails (pagSeguroService this) gid with
       | Return d =>
           exists r,
             o = Return r
             /\ rr_pagSeguroCheckoutId r
                = Some (JS.nullish_default (checkout_id d) gid)
       | Throw (ThrownNullish v) =>
           o = Throw (Raised (type_error v "message"))
       | Throw _ => o = Return (stored_redirect_response gid transaction)
       end.
Proof.
  intros Hgid Hne.
  unfold buildExistingRedirectResponse.
  rewrite Hgid, (truthy_Some_intro gid Hne). simpl.
  unfold try_catch, bind, call, ret, lift.
  destruct (getCheckoutDetails (pagSeguroService this) gid) as [d|[e|v|x]];
    eexists; (split; [reflexivity|]); eauto.
Qed.

(** C9, amended: for an existing transaction whose stored gateway id is
    present and not empty, a reconstruction helper whose re-query of the
    gateway does not fail with [null] or [undefined] does not raise: it
    makes that one re-query, leaves the store as it is, and returns a
    response carrying the stored gateway id (the redirect helper: the id
    the re-query reports, if it reports one); when the re-query fails, the
    response is built from the stored status, transactionRef and qrCodeUrl
    alone. *)
Theorem reconstruction_never_raises (this : Services)
  (transaction : Transaction) (gid : string) (w : World) :
  tx_gatewayTransactionId transaction = Some gid ->
  gid <> "" ->
  ((forall v, getOrderDetails (pagSeguroService this) gid
              <> Throw (ThrownNullish v)) ->
   exists r,
     buildPixResponseFromTransaction this transaction w
     = (Return r, mkWorld (db w) (trace w ++ [GetOrderDetails gid]))
     /\ pix_transactionId r = gid
     /\ forall e,
          getOrderDetails (pagSeguroService this) gid = Throw e ->
          r = stored_pix_response gid transaction)
  /\ ((forall v, getCheckoutDetails (pagSeguroService this) gid
                 <> Throw (ThrownNullish v)) ->
      (exists r,
          buildExistingDirectCardResponse this transaction w
          = (Return (CardExisting r),
             mkWorld (db w) (trace w ++ [GetCheckoutDetails gid]))
          /\ ecr_transactionId r = gid
          /\ forall e,
               getCheckoutDetails (pagSeguroService this) gid = Throw e ->
               CardExisting r = stored_card_response gid transaction)
      /\ (exists r,
             buildExistingRedirectResponse this transaction w
             = (Return r,
                mkWorld (db w) (trace w ++ [GetCheckoutDetails gid]))
             /\ rr_pagSeguroCheckoutId r
                = Some (match getCheckoutDetails (pagSeguroService this)
                                gid with
                        | Return d => JS.nullish_default (checkout_id d) gid
                        | Throw _ => gid
                        end)
             /\ forall e,
                  getCheckoutDetails (pagSeguroService this) gid = Throw e ->
                  r = stored_redirect_response gid transaction)).
Proof.
  intros Hgid Hne. split; [|intros Hmsg; split].
  - intros Hmsg.
    destruct (existing_pix_response this transaction gid w Hgid Hne)
      as (o & Hrun & Ho). rewrite Hrun.
    destruct (getOrderDetails (pagSeguroService this) gid) as [d|[e|v|x]];
      [destruct Ho as (r & -> & Hid)|subst o|
       exfalso; exact (Hmsg v eq_refl)|subst o];
      eexists; (split; [reflexivity|]);
      (split; [assumption || reflexivity|]);
      intros e' He'; (discriminate He' || reflexivity).
  - destruct (existing_card_response this transaction gid w Hgid Hne)
      as (o & Hrun & Ho). rewrite Hrun.
    destruct (getCheckoutDetails (pagSeguroService this) gid)
      as [d|[e|v|x]];
      [destruct Ho as (r & -> & Hid)|subst o|
       exfalso; exact (Hmsg v eq_refl)|subst o];
      eexists; (split; [reflexivity|]);
      (split; [assumption || reflexivity|]);
      intros e' He'; (discriminate He' || reflexivity).
  - destruct (existing_redirect_response this transaction gid w Hgid Hne)
      as (o & Hrun & Ho). rewrite Hrun.
    destruct (getCheckoutDetails (pagSeguroService this) gid)
      as [d|[e|v|x]];
      [destruct Ho as (r & -> & Hid)|subst o|
       exfalso; exact (Hmsg v eq_refl)|subst o];
      eexists; (split; [reflexivity|]);
      (split; [assumption || reflexivity|]);
      intros e' He'; (discriminate He' || reflexivity).
Qed.

(** The gateway is down: the PIX response is the stored one. *)
Lemma reconstruction_never_raises_witness :
  buildPixResponseFromTransaction
    (mkServices Sample.database Sample.orders_service Sample.gateway_down
       Sample.environment Sample.mailer (Sample.antifraud "APPROVED"))
    Sample.tx_pix_tx1 (mkWorld Sample.store_with_tx1 [])
  = (Return (stored_pix_response "tx1" Sample.tx_pix_tx1),
     mkWorld Sample.store_with_tx1 [GetOrderDetails "tx1"]).
Proof.
  destruct (proj1 (reconstruction_never_raises
                     (mkServices Sample.database Sample.orders_service
                        Sample.gateway_down Sample.environment Sample.mailer
                        (Sample.antifraud "APPROVED"))
                     Sample.tx_pix_tx1 "tx1"
                     (mkWorld Sample.store_with_tx1 [])
                     eq_refl
                     (fun H : "tx1" = "" => eq_ind "tx1"
                        (fun s => match s with
                                  | EmptyString => False
                                  | String _ _ => True
                                  end) I "" H))
             ltac:(intros v H; discriminate H))
    as [r [Hrun [_ Hstored]]].
  rewrite Hrun. rewrite (Hstored (exn Error "connect ETIMEDOUT") eq_refl).
  reflexivity.
Defined.

(* ------------------------------------------------------------------ *)
(** ** Initiation: antifraud gate and idempotency *)

Ltac unfold_monad :=
  cbv beta iota zeta delta
    [run initiate createPixCharge processCreditCardPayment
     initiatePagSeguroRedirectCheckout findOneById
     getExistingPaymentTransaction Prisma.transaction_findUnique
     bind call lift ret throw read_db write_db negb OrderStatus_eqb];
  cbn [db trace app].

(** Runs an initiation operation up to the lookup of an existing
    transaction. *)
Ltac enter_checks Hcard Hf Ho Hs He :=
  let Hc1 := fresh "Hc" in
  let Hc2 := fresh "Hc" in
  let Hc3 := fresh "Hc" in
  match goal with
  | |- context [initiate _ ?op _] => destruct op as [u|u dto|u]
  end;
  simpl in Hcard, He;
  unfold_monad;
  [|destruct Hcard as (Hc1 & Hc2 & Hc3); rewrite Hc1, Hc2, Hc3;
    cbn [orb]; unfold_monad|];
  rewrite Hf; unfold_monad; rewrite Ho; unfold_monad;
  rewrite Hs; unfold_monad; rewrite He; unfold_monad.

(** Runs an initiation operation up to the answer of the lookup of an
    existing transaction. *)
Ltac enter_initiation Hchecks :=
  let Hcard := fresh "Hcard" in
  let Hf := fresh "Hf" in
  let Ho := fresh "Ho" in
  let Hs := fresh "Hs" in
  let He := fresh "He" in
  let Hrf := fresh "Hrf" in
  destruct Hchecks as (Hcard & Hf & Ho & Hs & He & Hrf);
  enter_checks Hcard Hf Ho Hs He;
  rewrite Hrf; unfold_monad.

Lemma antifraud_denied (this : Services) (op : Initiation)
  (orderId : string) (s : Store) (order : Order) (verdict : AntifraudResult) :
  passes_checks this op orderId s order ->
  Prisma.find_transaction_by_order (order_id order) s = None ->
  (forall request,
      analyzeTransaction (antifraudService this) request = Return verdict) ->
  af_status verdict = "DENIED" ->
  exists request,
    run (initiate this op orderId) s
    = (Throw (exn InternalServerErrorException (generic_failure op)),
       mkWorld s [OrdersFindOneById orderId;
                  TransactionFindUnique (order_id order);
                  AnalyzeTransaction request]).
Proof.
  intros Hchecks Hnone Haf Hdenied.
  enter_initiation Hchecks; rewrite Hnone;
    destruct (buildPagSeguroPayload order)
      as [[customer shippingAddress] items];
    unfold try_catch; unfold_monad; rewrite Haf; unfold_monad;
    rewrite Hdenied; rewrite String.eqb_refl; unfold_monad;
    eexists; reflexivity.
Qed.

(** What the [catch] block of an initiation operation throws. *)
Lemma rethrow_or_generalize_run {A : Type} (generic : string)
  (error : Thrown) (w : World) :
  @rethrow_or_generalize A generic error w
  = (Throw (match message_of error with
            | Throw te => te
            | Return _ =>
                if classified_by_gateway error then error
                else exn InternalServerErrorException generic
            end), w).
Proof.
  unfold rethrow_or_generalize, bind, lift, throw.
  destruct error as [e|v|x]; simpl; [|reflexivity|reflexivity].
  destruct (_ && _); reflexivity.
Qed.

Lemma rethrow_or_generalize_throws {A : Type} (generic : string)
  (error : Thrown) (w : World) :
  exists e, @rethrow_or_generalize A generic error w = (Throw e, w).
Proof. rewrite rethrow_or_generalize_run. eauto. Qed.

(** The [catch] block of an initiation operation never turns a failure
    into a response. *)
Lemma try_catch_rethrow {A : Type} (m : M A) (generic : string)
  (w w' : World) (a : A) :
  try_catch m (rethrow_or_generalize generic) w = (Return a, w') ->
  m w = (Return a, w').
Proof.
  unfold try_catch. destruct (m w) as [[x|e] w1]; [auto|].
  destruct (@rethrow_or_generalize_throws A generic e w1) as [e' He].
  rewrite He. discriminate.
Qed.

Lemma prisma_write_run (p : PrismaService) (wr : DbWrite) (w : World) :
  Prisma.write p wr w
  = match Prisma.run_write p wr (db w) with
    | Return s' => (Return tt, mkWorld s' (trace w ++ [PrismaWrite wr]))
    | Throw e => (Throw e, mkWorld (db w) (trace w ++ [PrismaWrite wr]))
    end.
Proof.
  unfold Prisma.write, bind, read_db, call, write_db. simpl.
  destruct (Prisma.run_write p wr (db w)); reflexivity.
Qed.

Lemma find_app_none {A : Type} (p : A -> bool) (l : list A) (x : A) :
  find p l = None -> p x = true -> find p (l ++ [x]) = Some x.
Proof.
  induction l as [|y l IH]; simpl; intros Hn Hx.
  - now rewrite Hx.
  - destruct (p y); [discriminate|auto].
Qed.

(** A transaction created for an order that had none is the one the
    lookup by order finds afterwards; the orders are left alone. *)
Lemma run_write_create (p : PrismaService) (d : TransactionCreate)
  (oid : string) (s s' : Store) :
  Prisma.run_write p (TransactionCreateW d) s = Return s' ->
  new_orderId d = Some oid ->
  Prisma.find_transaction_by_order oid s = None ->
  orders s' = orders s
  /\ exists t,
       Prisma.find_transaction_by_order oid s' = Some t
       /\ tx_gatewayTransactionId t = new_gatewayTransactionId d.
Proof.
  intros H Hoid Hnone. revert H. unfold Prisma.run_write.
  destruct (db_fault p (TransactionCreateW d)); [discriminate|].
  unfold Prisma.apply_write. rewrite Hoid. simpl. rewrite Hnone.
  intros H. injection H as <-. simpl. split; [reflexivity|].
  eexists. split.
  - unfold Prisma.find_transaction_by_order. simpl.
    apply find_app_none; [exact Hnone|]. simpl. rewrite Hoid. simpl.
    apply String.eqb_refl.
  - reflexivity.
Qed.

(** An initiation operation that finds a transaction with a gateway id
    for the order answers from it, after one re-query of the gateway and
    nothing else; it fails when the re-query fails with [null] or
    [undefined]. *)
Lemma short_circuit (this : Services) (op : Initiation) (orderId : string)
  (s : Store) (order : Order) (existing : Transaction) (gid : string) :
  passes_checks this op orderId s order ->
  Prisma.find_transaction_by_order (order_id order) s = Some existing ->
  tx_gatewayTransactionId existing = Some gid ->
  gid <> "" ->
  exists o,
    run (initiate this op orderId) s
    = (o,
       mkWorld s [OrdersFindOneById orderId;
                  TransactionFindUnique (order_id order);
                  requery op gid])
    /\ match requery_failure this op gid with
       | Some (ThrownNullish v) =>
           o = Throw (Raised (type_error v "message"))
       | _ => exists r, o = Return r /\ refers_to this op r gid
       end.
Proof.
  intros Hchecks Hex Hgid Hne.
  enter_initiation Hchecks; rewrite Hex; unfold requery_failure, refers_to.
  - destruct (existing_pix_response this existing gid
                (mkWorld s [OrdersFindOneById orderId;
                            TransactionFindUnique (order_id order)])
                Hgid Hne) as (o & Hrun & Hans).
    rewrite Hrun.
    destruct (getOrderDetails (pagSeguroService this) gid) as [d|[e|v|x]];
      [destruct Hans as (r & -> & Hid)|subst o..];
      eexists; (split; [reflexivity|]); try reflexivity;
      eexists; (split; [reflexivity|]); simpl; congruence.
  - destruct (existing_card_response this existing gid
                (mkWorld s [OrdersFindOneById orderId;
                            TransactionFindUnique (order_id order)])
                Hgid Hne) as (o & Hrun & Hans).
    rewrite Hrun.
    destruct (getCheckoutDetails (pagSeguroService this) gid)
      as [d|[e|v|x]];
      [destruct Hans as (r & -> & Hid)|subst o..];
      eexists; (split; [reflexivity|]); try reflexivity;
      eexists; (split; [reflexivity|]); simpl; congruence.
  - destruct (existing_redirect_response this existing gid
                (mkWorld s [OrdersFindOneById orderId;
                            TransactionFindUnique (order_id order)])
                Hgid Hne) as (o & Hrun & Hans).
    rewrite Hrun.
    destruct (getCheckoutDetails (pagSeguroService this) gid)
      as [d|[e|v|x]];
      [destruct Hans as (r & -> & Hid)|subst o..];
      eexists; (split; [reflexivity|]); try reflexivity;
      eexists; (split; [reflexivity|]); simpl; congruence.
Qed.

Lemma run_write_order_update (p : PrismaService) (oid : string)
  (status : OrderStatus) (s s' : Store) :
  Prisma.run_write p (OrderUpdateStatus oid status) s = Return s' ->
  transactions s' = transactions s.
Proof.
  unfold Prisma.run_write.
  destruct (db_fault p (OrderUpdateStatus oid status)); [discriminate|].
  unfold Prisma.apply_write.
  destruct (Prisma.find_order oid s); [|discriminate].
  intros H. injection H as <-. reflexivity.
Qed.

Lemma run_write_create_row (p : PrismaService) (d : TransactionCreate)
  (oid : string) (s s' : Store) :
  Prisma.run_write p (TransactionCreateW d) s = Return s' ->
  new_orderId d = Some oid ->
  Prisma.find_transaction_by_order oid s = None ->
  s' = mkStore (orders s)
         (transactions s
            ++ [Prisma.new_transaction (Prisma.fresh_id (transactions s))
                                       (db_now p) d]).
Proof.
  intros H Hoid Hnone. revert H. unfold Prisma.run_write.
  destruct (db_fault p (TransactionCreateW d)); [discriminate|].
  unfold Prisma.apply_write. rewrite Hoid. simpl. rewrite Hnone.
  intros H. now injection H as <-.
Qed.

Lemma run_write_order_update_store (p : PrismaService) (oid : string)
  (status : OrderStatus) (s s' : Store) :
  Prisma.run_write p (OrderUpdateStatus oid status) s = Return s' ->
  s' = mkStore
         (map (fun o => if order_id o =? oid
                        then Prisma.set_order_status status o else o)
              (orders s))
         (transactions s).
Proof.
  unfold Prisma.run_write.
  destruct (db_fault p (OrderUpdateStatus oid status)); [discriminate|].
  unfold Prisma.apply_write.
  destruct (Prisma.find_order oid s); [|discriminate].
  intros H. now injection H as <-.
Qed.

Lemma fresh_id_fresh (ts : list Transaction) :
  ~ In (Prisma.fresh_id ts) (map tx_id ts).
Proof.
  unfold Prisma.fresh_id.
  assert (H : forall x, In x (map tx_id ts) ->
                        x <= fold_right Nat.max 0 (map tx_id ts)).
  { induction ts as [|t ts IH]; simpl; [tauto|].
    intros x [<-|Hx]; [lia|]. specialize (IH x Hx). lia. }
  intros Hin. apply H in Hin. lia.
Qed.

(** What a first payment leaves behind when it returns: one more
    transaction, which mirrors the gateway's answer. *)
Lemma first_payment (this : Services) (op : Initiation) (orderId : string)
  (s : Store) (order : Order) (r : InitiationResponse) (w : World) :
  card_data_complete op ->
  orders_fault (ordersService this) orderId = None ->
  Prisma.find_order orderId s = Some order ->
  order_status order = PENDING ->
  ensureOrderOwnership order (requester op) = Return tt ->
  Prisma.find_transaction_by_order (order_id order) s = None ->
  run (initiate this op orderId) s = (Return r, w) ->
  exists t,
    transactions (db w) = (transactions s ++ [t])%list
    /\ stored_as this (trace w) r t
    /\ tx_orderId t = Some (order_id order)
    /\ tx_amount t = order_totalAmount order
    /\ tx_userId t = userId_or_null order
    /\ ~ In (tx_id t) (map tx_id (transactions s))
    /\ (exists verdict,
           tx_antifraudStatus t = Some verdict /\ verdict <> "DENIED")
    /\ count_events is_gateway_create (trace w) = 1
    /\ (orders (db w) = orders s
        \/ exists c,
             r = CardPaymentResponse (CardCharged c)
             /\ cc_status c = "PAID").
Proof.
  intros Hcard Hf Ho Hs He Hnone.
  enter_checks Hcard Hf Ho Hs He;
    (destruct (db_read_fault (prisma this) (order_id order));
     [intros H; discriminate H|]);
    rewrite Hnone;
    destruct (buildPagSeguroPayload order)
      as [[customer shippingAddress] items];
    match goal with
    | |- context [try_catch ?m ?h ?w0] =>
        destruct (try_catch m h w0) as [[a|e] w1] eqn:Htc;
        [apply try_catch_rethrow in Htc|intros H; discriminate H]
    end;
    intros H; injection H as <- <-;
    revert Htc; unfold_monad;
    (destruct (analyzeTransaction _ _) as [verdict|e];
     [|intros H; discriminate H]);
    (destruct (String.eqb_spec (af_status verdict) "DENIED") as [Hden|Hden];
     [intros H; discriminate H|]);
    (destruct (ConfigService.backendUrl (nestConfigService this) =? "");
     [intros H; discriminate H|]).
  - destruct (createPagSeguroPixCharge _ _ _) as [resp|e] eqn:Hgw;
      [|intros H; discriminate H].
    rewrite prisma_write_run. cbn [db trace].
    destruct (Prisma.run_write _ _ s) as [s'|e] eqn:Hw;
      [|intros H; discriminate H].
    intros H. injection H as <- <-.
    rewrite (run_write_create_row _ _ _ _ _ Hw eq_refl Hnone).
    eexists. cbn [db trace transactions]. split; [reflexivity|].
    split.
    { cbn. split; [|auto]. do 2 eexists. split; [|exact Hgw].
      simpl. auto 10. }
    cbn. repeat split; eauto using fresh_id_fresh.
  - destruct (processDirectCreditCardPayment _ _ _ _) as [resp|e] eqn:Hgw;
      [|intros H; discriminate H].
    rewrite prisma_write_run. cbn [db trace].
    destruct (Prisma.run_write _ _ s) as [s'|e] eqn:Hw;
      [|intros H; discriminate H].
    rewrite (run_write_create_row _ _ _ _ _ Hw eq_refl Hnone).
    destruct (String.eqb_spec (cc_status resp) (OrderStatus_name PAID))
      as [Hpaid|Hpaid].
    + rewrite prisma_write_run. cbn [db trace].
      destruct (Prisma.run_write _ (OrderUpdateStatus _ _) _)
        as [s''|e] eqn:Hw2; [|intros H; discriminate H].
      rewrite (run_write_order_update_store _ _ _ _ _ Hw2).
      rewrite try_catch_log.
      destruct (JS.truthy (JS.nullish _ _));
        [destruct (sendPaymentConfirmationEmail _ _ _ _)
           as [[]|[e|v|x]]|];
        cbv beta iota zeta delta [call ret]; cbn [db trace app];
        intros H; try discriminate H; injection H as <- <-;
        eexists; cbn [db trace transactions];
        (split; [reflexivity|]);
        (split;
         [cbn; split; [|auto]; do 3 eexists; split; [|exact Hgw];
          simpl; auto 10|]);
        cbn; repeat split; eauto using fresh_id_fresh.
    + intros H. injection H as <- <-.
      eexists. cbn [db trace transactions]. split; [reflexivity|].
      split.
      { cbn. split; [|auto]. do 3 eexists. split; [|exact Hgw].
        simpl. auto 10. }
      cbn. repeat split; eauto using fresh_id_fresh.
  - destruct (createPagSeguroCheckoutRedirect _ _ _) as [resp|e] eqn:Hgw;
      [|intros H; discriminate H].
    rewrite prisma_write_run. cbn [db trace].
    destruct (Prisma.run_write _ _ s) as [s'|e] eqn:Hw;
      [|intros H; discriminate H].
    intros H. injection H as <- <-.
    rewrite (run_write_create_row _ _ _ _ _ Hw eq_refl Hnone).
    eexists. cbn [db trace transactions]. split; [reflexivity|].
    split.
    { cbn. do 3 eexists. split; [|split; [exact Hgw|auto 10]].
      simpl. auto 10. }
    cbn. repeat split; eauto using fresh_id_fresh.
Qed.

(** A response of an initiation operation is either built from the
    transaction the order already had, after the re-query alone, or the
    answer of a first payment. *)
Lemma initiate_returns (this : Services) (op : Initiation) (orderId : string)
  (s : Store) (r : InitiationResponse) (w : World) :
  run (initiate this op orderId) s = (Return r, w) ->
  exists order,
    card_data_complete op
    /\ orders_fault (ordersService this) orderId = None
    /\ Prisma.find_order orderId s = Some order
    /\ order_status order = PENDING
    /\ ensureOrderOwnership order (requester op) = Return tt
    /\ db_read_fault (prisma this) (order_id order) = None
    /\ forall existing,
         Prisma.find_transaction_by_order (order_id order) s
         = Some existing ->
         exists gid,
           tx_gatewayTransactionId existing = Some gid
           /\ gid <> ""
           /\ refers_to this op r gid
           /\ w = mkWorld s [OrdersFindOneById orderId;
                             TransactionFindUnique (order_id order);
                             requery op gid].
Proof.
  intros Hrun.
  destruct (initiate_checks this op orderId s)
    as [[e [w' [H _]]]|[order (Hcard & Hf & Ho & Hs & He)]];
    [rewrite H in Hrun; discriminate|].
  exists order.
  destruct (db_read_fault (prisma this) (order_id order)) as [e|] eqn:Hrf.
  { exfalso. revert Hrun.
    enter_checks Hcard Hf Ho Hs He; rewrite Hrf; intros H; discriminate H. }
  repeat (split; [assumption || reflexivity|]).
  intros existing Hex.
  assert (Hchecks : passes_checks this op orderId s order)
    by (unfold passes_checks; auto 10).
  destruct (JS.truthy (tx_gatewayTransactionId existing)) eqn:Htr.
  - apply truthy_Some in Htr. destruct Htr as [gid [Hgid Hne]].
    exists gid. split; [exact Hgid|]. split; [exact Hne|].
    destruct (short_circuit this op orderId s order existing gid
                Hchecks Hex Hgid Hne) as (o & Hrun' & Ho').
    rewrite Hrun in Hrun'. injection Hrun' as <- ->.
    destruct (requery_failure this op gid) as [[e|v|x]|];
      try (destruct Ho' as (r' & Hr' & Href); injection Hr' as <-; auto);
      discriminate Ho'.
  - exfalso. revert Hrun.
    enter_initiation Hchecks; rewrite Hex;
      [unfold buildPixResponseFromTransaction
      |unfold buildExistingDirectCardResponse
      |unfold buildExistingRedirectResponse];
      rewrite Htr; cbn; intros H; discriminate H.
Qed.

(** Each operation answers with its own kind of response. *)
Lemma initiate_response_kind (this : Services) (op : Initiation)
  (orderId : string) (s : Store) (r : InitiationResponse) (w : World) :
  run (initiate this op orderId) s = (Return r, w) ->
  match op, r with
  | PixCharge _, PixResponse _
  | CreditCardPayment _ _, CardPaymentResponse _
  | RedirectCheckout _, RedirectCheckoutResponse _ => True
  | _, _ => False
  end.
Proof.
  unfold run, initiate, bind, ret.
  destruct op as [u|u dto|u];
    match goal with
    | |- (let (o, w') := ?m ?w0 in _) = _ -> _ =>
        destruct (m w0) as [[a|e] w']
    end;
    intros H; inversion H; exact I.
Qed.

(** With a verdict other than DENIED and a callback URL configured, the
    gateway-create operation of the flow is invoked, once. *)
Lemma antifraud_passed (this : Services) (op : Initiation)
  (orderId : string) (s : Store) (order : Order) (verdict : AntifraudResult) :
  passes_checks this op orderId s order ->
  Prisma.find_transaction_by_order (order_id order) s = None ->
  (forall request,
      analyzeTransaction (antifraudService this) request = Return verdict) ->
  af_status verdict <> "DENIED" ->
  ConfigService.backendUrl (nestConfigService this) <> "" ->
  exists r w,
    run (initiate this op orderId) s = (r, w)
    /\ count_events is_gateway_create (trace w) = 1.
Proof.
  intros Hchecks Hnone Haf Hverdict Hurl.
  apply String.eqb_neq in Hverdict, Hurl.
  enter_initiation Hchecks; rewrite Hnone;
    destruct (buildPagSeguroPayload order)
      as [[customer shippingAddress] items];
    unfold try_catch at 1; unfold_monad;
    rewrite Haf; unfold_monad; rewrite Hverdict, Hurl; unfold_monad.
  - destruct (createPagSeguroPixCharge _ _ _) as [resp|e].
    + rewrite prisma_write_run. cbn [db trace].
      destruct (Prisma.run_write _ _ s) as [s'|e];
        rewrite ?rethrow_or_generalize_run;
        eexists; eexists; split; reflexivity.
    + rewrite rethrow_or_generalize_run.
      eexists. eexists. split; reflexivity.
  - destruct (processDirectCreditCardPayment _ _ _ _) as [resp|e].
    + rewrite prisma_write_run. cbn [db trace].
      destruct (Prisma.run_write _ _ s) as [s'|e].
      * destruct (cc_status resp =? OrderStatus_name PAID).
        -- rewrite prisma_write_run. cbn [db trace].
           destruct (Prisma.run_write _ _ s') as [s''|e].
           ++ rewrite try_catch_log.
              destruct (JS.truthy (JS.nullish _ _));
                [destruct (sendPaymentConfirmationEmail _ _ _ _)
                   as [[]|[e|v|x]]|];
                cbv beta iota zeta delta [call ret]; cbn [db trace app];
                rewrite ?rethrow_or_generalize_run;
                eexists; eexists; split; reflexivity.
           ++ rewrite rethrow_or_generalize_run.
              eexists. eexists. split; reflexivity.
        -- eexists. eexists. split; reflexivity.
      * rewrite rethrow_or_generalize_run.
        eexists. eexists. split; reflexivity.
    + rewrite rethrow_or_generalize_run.
      eexists. eexists. split; reflexivity.
  - destruct (createPagSeguroCheckoutRedirect _ _ _) as [resp|e].
    + rewrite prisma_write_run. cbn [db trace].
      destruct (Prisma.run_write _ _ s) as [s'|e];
        rewrite ?rethrow_or_generalize_run;
        eexists; eexists; split; reflexivity.
    + rewrite rethrow_or_generalize_run.
      eexists. eexists. split; reflexivity.
Qed.

(** C4: in each of the three initiation operations, when the antifraud
    verdict is DENIED no gateway-create operation is invoked and nothing is
    written: the calls made are the two lookups and the antifraud analysis,
    and the store is untouched.  The request fails, but with the generic
    InternalServerError of the operation's [catch] block, which replaces
    the BadRequest "Transação negada pela análise antifraude." thrown
    inside the [try].  With any other verdict and a callback URL configured
    the gateway-create operation is invoked. *)
Theorem antifraud_gate (this : Services) (op : Initiation)
  (orderId : string) (s : Store) (order : Order) (verdict : AntifraudResult) :
  passes_checks this op orderId s order ->
  Prisma.find_transaction_by_order (order_id order) s = None ->
  (forall request,
      analyzeTransaction (antifraudService this) request = Return verdict) ->
  (af_status verdict = "DENIED" ->
   exists request,
     run (initiate this op orderId) s
     = (Throw (exn InternalServerErrorException (generic_failure op)),
        mkWorld s [OrdersFindOneById orderId;
                   TransactionFindUnique (order_id order);
                   AnalyzeTransaction request]))
  /\ (af_status verdict <> "DENIED" ->
      ConfigService.backendUrl (nestConfigService this) <> "" ->
      exists r w,
        run (initiate this op orderId) s = (r, w)
        /\ count_events is_gateway_create (trace w) = 1).
Proof.
  intros Hchecks Hnone Haf. split.
  - intros Hdenied. now apply antifraud_denied with (verdict := verdict).
  - intros Hverdict Hurl. now apply antifraud_passed with (order := order)
                                                        (verdict := verdict).
Qed.

Lemma sample_passes_checks (verdict status : string) (op : Initiation) :
  card_data_complete op ->
  requester op = Some "u1" ->
  passes_checks (Sample.services verdict status) op "o1" Sample.store0
                Sample.order_o1.
Proof.
  intros Hcard Hreq. unfold passes_checks. rewrite Hreq.
  repeat split; auto.
Qed.

(** The fraud denial reaches the caller of [createPixCharge] as an
    InternalServerError. *)
Lemma antifraud_gate_witness :
  exists request,
    run (initiate (Sample.services "DENIED" "PAID") (PixCharge "u1") "o1")
        Sample.store0
    = (Throw (exn InternalServerErrorException
                "Falha ao iniciar o processo de pagamento PIX com PagSeguro."),
       mkWorld Sample.store0
               [OrdersFindOneById "o1"; TransactionFindUnique "o1";
                AnalyzeTransaction request]).
Proof.
  apply (proj1 (antifraud_gate (Sample.services "DENIED" "PAID")
                  (PixCharge "u1") "o1" Sample.store0 Sample.order_o1
                  (mkAntifraudResult "DENIED")
                  (sample_passes_checks "DENIED" "PAID" (PixCharge "u1")
                     I eq_refl)
                  eq_refl (fun _ => eq_refl))).
  reflexivity.
Defined.

Lemma count_events_app (p : Event -> bool) (t1 t2 : list Event) :
  count_events p (t1 ++ t2) = count_events p t1 + count_events p t2.
Proof. unfold count_events. now rewrite filter_app, length_app. Qed.

Lemma find_order_same_orders (orderId : string) (s s' : Store) :
  orders s' = orders s ->
  Prisma.find_order orderId s' = Prisma.find_order orderId s.
Proof. unfold Prisma.find_order. now intros ->. Qed.

(** A card payment that the gateway answers PAID flips the order to PAID,
    and a second call is refused: it is not answered from the stored
    transaction. *)
Lemma second_card_payment_refused :
  let this := Sample.services "APPROVED" "PAID" in
  let first :=
    run (processCreditCardPayment this "o1" (Some "u1") Sample.complete_card)
        Sample.store0 in
  fst first
  = Return (CardCharged (mkCardChargeResult "ch1" "PAID" "ref-ch1"))
  /\ fst (run (processCreditCardPayment this "o1" (Some "u1")
                 Sample.complete_card) (db (snd first)))
     = Throw (exn BadRequestException
                "O pedido já foi pago ou está em outro status.").
Proof. split; vm_compute; reflexivity. Qed.

(** C3, amended: when an initiation operation is called for a pending
    order that the requester owns and that already has a transaction with
    a non-empty gateway id, and the re-query of the gateway does not fail
    with [null] or [undefined], the operation answers from that
    transaction: the response carries the stored gateway id (the redirect
    operation: the id the re-query reports when it reports one, the stored
    id otherwise), no gateway-create operation is invoked, and nothing is
    written (no second transaction).
    Hence, when a first call has returned a response that is not a card
    charge answered PAID, and the transaction now stored for the order has
    a non-empty gateway id, that id is the one of the first response (for
    a redirect checkout, whose response is the redirect URL alone: the
    checkout id the gateway gave with that URL), and a second call returns
    a response for that same gateway id, leaves the store as it is and
    invokes no gateway-create operation: over the two calls there is at
    most one. *)
Theorem initiation_idempotent :
  (forall (this : Services) (op : Initiation) (orderId : string) (s : Store)
          (order : Order) (existing : Transaction) (gid : string),
      passes_checks this op orderId s order ->
      Prisma.find_transaction_by_order (order_id order) s = Some existing ->
      tx_gatewayTransactionId existing = Some gid ->
      gid <> "" ->
      (forall v, requery_failure this op gid <> Some (ThrownNullish v)) ->
      exists r w,
        run (initiate this op orderId) s = (Return r, w)
        /\ refers_to this op r gid
        /\ db w = s
        /\ count_events is_gateway_create (trace w) = 0
        /\ count_events is_store_write (trace w) = 0)
  /\ (forall (first second : Services) (op : Initiation) (orderId : string)
             (s : Store) (r1 : InitiationResponse) (w1 : World),
         run (initiate first op orderId) s = (Return r1, w1) ->
         (forall c, r1 = CardPaymentResponse (CardCharged c) ->
                    cc_status c <> "PAID") ->
         (forall t,
             Prisma.find_transaction_by_order orderId (db w1) = Some t ->
             JS.truthy (tx_gatewayTransactionId t) = true) ->
         orders_fault (ordersService second) orderId = None ->
         db_read_fault (prisma second) orderId = None ->
         (forall gid v,
             requery_failure second op gid <> Some (ThrownNullish v)) ->
         exists t gid r2 w2,
           Prisma.find_transaction_by_order orderId (db w1) = Some t
           /\ tx_gatewayTransactionId t = Some gid
           /\ answers_for first op (trace w1) r1 gid
           /\ run (initiate second op orderId) (db w1) = (Return r2, w2)
           /\ refers_to second op r2 gid
           /\ db w2 = db w1
           /\ count_events is_gateway_create (trace w2) = 0
           /\ count_events is_gateway_create (trace w1 ++ trace w2) <= 1).
Proof.
  assert (Hshort : forall this op orderId s order existing gid,
             passes_checks this op orderId s order ->
             Prisma.find_transaction_by_order (order_id order) s
             = Some existing ->
             tx_gatewayTransactionId existing = Some gid ->
             gid <> "" ->
             (forall v, requery_failure this op gid
                        <> Some (ThrownNullish v)) ->
             exists r,
               run (initiate this op orderId) s
               = (Return r,
                  mkWorld s [OrdersFindOneById orderId;
                             TransactionFindUnique (order_id order);
                             requery op gid])
               /\ refers_to this op r gid).
  { intros this op orderId s order existing gid Hchecks Hex Hgid Hne Hmsg.
    destruct (short_circuit this op orderId s order existing gid
                Hchecks Hex Hgid Hne) as (o & Hrun & Ho).
    rewrite Hrun.
    destruct (requery_failure this op gid) as [[e|v|x]|];
      [| exfalso; exact (Hmsg v eq_refl) | |];
      destruct Ho as (r & -> & Href); eauto. }
  assert (Hquiet : forall op orderId oid gid,
             count_events is_gateway_create
               [OrdersFindOneById orderId; TransactionFindUnique oid;
                requery op gid] = 0
             /\ count_events is_store_write
                  [OrdersFindOneById orderId; TransactionFindUnique oid;
                   requery op gid] = 0)
    by (intros [u|u dto|u] orderId oid gid; split; reflexivity).
  split.
  - intros this op orderId s order existing gid Hchecks Hex Hgid Hne Hmsg.
    destruct (Hshort this op orderId s order existing gid
                Hchecks Hex Hgid Hne Hmsg) as [r [Hrun Href]].
    exists r. eexists. split; [exact Hrun|]. split; [exact Href|].
    split; [reflexivity|]. apply Hquiet.
  - intros first second op orderId s r1 w1 Hrun Hnotpaid Htruthy Hof Hrf
      Hmsg.
    destruct (initiate_returns first op orderId s r1 w1 Hrun)
      as (order & Hcard & Hf & Ho & Hs & He & Hrf1 & Hexisting).
    pose proof (find_order_id _ _ _ Ho) as Hoid.
    destruct (Prisma.find_transaction_by_order (order_id order) s)
      as [existing|] eqn:Hex.
    + (* the first call was itself answered from the stored row *)
      destruct (Hexisting existing eq_refl)
        as (gid & Hgid & Hne & Href & Hw1).
      subst w1. cbn [db trace] in *.
      assert (Hchecks : passes_checks second op orderId s order).
      { unfold passes_checks. rewrite Hoid. auto 10. }
      destruct (Hshort second op orderId s order existing gid
                  Hchecks Hex Hgid Hne (Hmsg gid)) as [r2 [Hrun2 Href2]].
      exists existing, gid, r2. eexists.
      rewrite <- Hoid at 1. split; [exact Hex|]. split; [exact Hgid|].
      split.
      { pose proof (initiate_response_kind _ _ _ _ _ _ Hrun) as Hkind.
        unfold answers_for.
        destruct op as [u|u dto|u], r1 as [p|c|rr];
          try contradiction; [exact Href|exact Href|left; exact Href]. }
      split; [exact Hrun2|]. split; [exact Href2|].
      split; [reflexivity|]. cbn [trace].
      destruct (Hquiet op orderId (order_id order) gid) as [Hzero _].
      split; [exact Hzero|].
      rewrite count_events_app, Hzero. lia.
    + (* the first call made the payment *)
      destruct (first_payment first op orderId s order r1 w1
                  Hcard Hf Ho Hs He Hex Hrun)
        as (t & Htxs & Hstored & Htoid & _ & _ & _ & _ & Hcount & Hord).
      destruct Hord as [Hord|(c & -> & Hpaid)];
        [|exfalso; exact (Hnotpaid c eq_refl Hpaid)].
      assert (Ht : Prisma.find_transaction_by_order (order_id order) (db w1)
                   = Some t).
      { unfold Prisma.find_transaction_by_order in *. rewrite Htxs.
        apply find_app_none; [exact Hex|].
        cbv beta. rewrite Htoid. simpl. apply String.eqb_refl. }
      rewrite Hoid in Ht.
      destruct (truthy_Some _ (Htruthy t Ht)) as [gid [Hgid Hne]].
      assert (Hchecks : passes_checks second op orderId (db w1) order).
      { unfold passes_checks. rewrite (find_order_same_orders _ _ _ Hord).
        rewrite Hoid. auto 10. }
      rewrite <- Hoid in Ht.
      destruct (Hshort second op orderId (db w1) order t gid
                  Hchecks Ht Hgid Hne (Hmsg gid)) as [r2 [Hrun2 Href2]].
      exists t, gid, r2. eexists.
      rewrite <- Hoid at 1. split; [exact Ht|]. split; [exact Hgid|].
      split.
      { unfold answers_for, stored_as in *.
        destruct r1 as [p|[c|e]|rr]; simpl.
        - destruct Hstored as (_ & _ & Hid & _). congruence.
        - destruct Hstored as (_ & _ & Hid & _). congruence.
        - contradiction.
        - right. destruct Hstored
            as (request & url & c & Hin & Hgw & -> & _ & Hid & _).
          exists request, url, c. repeat split; auto. congruence. }
      split; [exact Hrun2|]. split; [exact Href2|].
      split; [reflexivity|]. cbn [trace].
      destruct (Hquiet op orderId (order_id order) gid) as [Hzero _].
      split; [exact Hzero|].
      rewrite count_events_app, Hzero, Hcount. lia.
Qed.

(** Two redirect checkouts for the guest order [o2]: the first one stores
    the checkout id [chk1] the gateway gave, the second one is answered
    from the stored transaction with the id the re-query reports. *)
Lemma initiation_idempotent_witness :
  let this := Sample.services "APPROVED" "PAID" in
  let op := RedirectCheckout (Some "g1") in
  let first := run (initiate this op "o2") Sample.store0 in
  exists t gid r2 w2,
    Prisma.find_transaction_by_order "o2" (db (snd first)) = Some t
    /\ tx_gatewayTransactionId t = Some gid
    /\ answers_for this op (trace (snd first))
         (RedirectCheckoutResponse
            (mkRedirectResponse "https://gateway.example/pay/chk1" None))
         gid
    /\ run (initiate this op "o2") (db (snd first)) = (Return r2, w2)
    /\ refers_to this op r2 gid
    /\ db w2 = db (snd first)
    /\ count_events is_gateway_create (trace w2) = 0
    /\ count_events is_gateway_create (trace (snd first) ++ trace w2) <= 1.
Proof.
  intros this op first.
  apply (proj2 initiation_idempotent this this op "o2" Sample.store0
           (RedirectCheckoutResponse
              (mkRedirectResponse "https://gateway.example/pay/chk1" None))
           (snd first)).
  - vm_compute. reflexivity.
  - intros c H. discriminate H.
  - intros t H. vm_compute in H. injection H as <-. reflexivity.
  - reflexivity.
  - reflexivity.
  - intros gid v H. discriminate H.
Defined.

(* ------------------------------------------------------------------ *)
(** ** End-to-end scenarios *)

(** Scenario A: a first PIX charge for the pending order [o1] stores a
    PENDING transaction with gateway id [tx1]; the order stays PENDING. *)
Example scenario_first_pix_charge :
  run (createPixCharge (Sample.services "APPROVED" "APPROVED") "o1" "u1")
      Sample.store0
  = (Return Sample.pix_tx1,
     mkWorld Sample.store_with_tx1
       [OrdersFindOneById "o1";
        TransactionFindUnique "o1";
        AnalyzeTransaction
          (mkAntifraudRequest "o1" (toNumber 17990%Z) "ana@example.com"
             (Some "12345678909") "PIX"
             [mkAntifraudItem "p1" 1%Z (toNumber 15990%Z)] None);
        CreatePagSeguroPixCharge
          (mkChargeRequest "o1" 17990%Z "Pagamento do Pedido #o1 na MKCloset"
             (mkCustomer "ana@example.com" "Ana Souza" (Some "11999990000")
                (Some "12345678909"))
             (mkShippingAddress "01001000" "Rua Direita" "10" None "Centro"
                "Sao Paulo" "SP")
             (Some "SEDEX") (Some 2000%Z)
             [mkPayloadItem "Conjunto Julia" 1%Z 15990%Z])
          "https://api.mkcloset.example";
        PrismaWrite
          (TransactionCreateW
             (mkTransactionCreate (Some "u1") (Some "o1") 17990%Z PAYMENT
                "PENDING" (Some "Cobrança PIX para Pedido #o1") (Some "tx1")
                (Some "00020126br.gov.bcb.pix")
                (Some "https://gateway.example/qr/tx1.png")
                (Some "APPROVED")))]).
Proof. vm_compute. reflexivity. Qed.

(** Scenario B: a signed webhook reporting APPROVED for [tx1] moves the
    order and the transaction to PAID and sends the confirmation. *)
Example scenario_webhook_approved :
  run (handlePagSeguroNotification (Sample.services "APPROVED" "APPROVED")
         "tx1" (Crypto.hmac_sha256_hex "whsec_test" Sample.body) Sample.body)
      Sample.store_with_tx1
  = (Return (mkWebhookAck "Status do pedido atualizado com sucesso"),
     mkWorld
       (mkStore
          [Prisma.set_order_status PAID Sample.order_o1; Sample.order_o2]
          [Prisma.set_transaction_status Sample.now "PAID" Sample.tx_pix_tx1])
       [GetCheckoutDetails "tx1";
        TransactionFindFirst "tx1";
        PrismaTransaction
          [TransactionUpdateStatus 1 "PAID"; OrderUpdateStatus "o1" PAID];
        OrdersFindOneById "o1";
        SendPaymentConfirmationEmail "ana@example.com" "o1" (toNumber 17990%Z)]).
Proof. vm_compute. reflexivity. Qed.

(** An unsigned webhook is refused when no secret is configured. *)
Example webhook_without_secret :
  run (handlePagSeguroNotification
         (mkServices Sample.database Sample.orders_service
            (Sample.gateway "APPROVED")
            (mkNestConfigService (Some "https://api.mkcloset.example") None)
            Sample.mailer (Sample.antifraud "APPROVED"))
         "tx1" "" Sample.body)
      Sample.store_with_tx1
  = (Throw (exn InternalServerErrorException
              "A variável de ambiente PAGSEGURO_WEBHOOK_SECRET é obrigatória para garantir a validade das notificações."),
     mkWorld Sample.store_with_tx1 []).
Proof. vm_compute. reflexivity. Qed.

(** A guest pays order [o2] by redirect checkout. *)
Example scenario_guest_redirect :
  fst (run (initiatePagSeguroRedirectCheckout
              (Sample.services "APPROVED" "APPROVED") (Some "g1") "o2")
           Sample.store0)
  = Return (mkRedirectResponse "https://gateway.example/pay/chk1" None).
Proof. vm_compute. reflexivity. Qed.

(* ------------------------------------------------------------------ *)
(** ** Initiation: the checks before the payment *)

(** Order [o1] of the samples passes the checks of an initiation asked by
    its owner, whatever the collaborators, as long as the lookups work. *)
Lemma order_o1_passes_checks (this : Services) (op : Initiation) :
  card_data_complete op ->
  requester op = Some "u1" ->
  orders_fault (ordersService this) "o1" = None ->
  db_read_fault (prisma this) "o1" = None ->
  passes_checks this op "o1" Sample.store0 Sample.order_o1.
Proof.
  intros Hcard Hreq Hf Hrf. unfold passes_checks. rewrite Hreq.
  repeat split; auto.
Qed.

(** X1: an initiation operation ([createPixCharge], [processCreditCardPayment]
    with complete card data, [initiatePagSeguroRedirectCheckout]) that gets
    no order from the orders service throws
    NotFound("Pedido com ID <orderId> não encontrado.") right after that
    lookup: no other collaborator is called and the store is left as it
    was. *)
Theorem initiation_order_not_found (this : Services) (op : Initiation)
  (orderId : string) (s : Store) :
  card_data_complete op ->
  orders_fault (ordersService this) orderId = None ->
  Prisma.find_order orderId s = None ->
  run (initiate this op orderId) s
  = (Throw (exn NotFoundException
              ("Pedido com ID " ++ orderId ++ " não encontrado.")),
     mkWorld s [OrdersFindOneById orderId]).
Proof.
  intros Hcard Hf Ho.
  destruct op as [u|u dto|u]; simpl in Hcard; unfold_monad;
    [|destruct Hcard as (Hc1 & Hc2 & Hc3); rewrite Hc1, Hc2, Hc3;
      cbn [orb]; unfold_monad|];
    rewrite Hf; unfold_monad; rewrite Ho; unfold_monad; reflexivity.
Qed.

(** No order [o9] in the sample store. *)
Lemma initiation_order_not_found_witness :
  run (initiate (Sample.services "APPROVED" "PAID") (PixCharge "u1") "o9")
      Sample.store0
  = (Throw (exn NotFoundException "Pedido com ID o9 não encontrado."),
     mkWorld Sample.store0 [OrdersFindOneById "o9"]).
Proof.
  exact (initiation_order_not_found (Sample.services "APPROVED" "PAID")
           (PixCharge "u1") "o9" Sample.store0 I eq_refl eq_refl).
Defined.

(** X2: an initiation operation on an order whose status is not PENDING throws
    BadRequest("O pedido já foi pago ou está em outro status.") right after
    the order lookup, whoever asks (the status is tested before the
    ownership): nothing else is called, nothing is written. *)
Theorem initiation_order_not_pending (this : Services) (op : Initiation)
  (orderId : string) (s : Store) (order : Order) :
  card_data_complete op ->
  orders_fault (ordersService this) orderId = None ->
  Prisma.find_order orderId s = Some order ->
  order_status order <> PENDING ->
  run (initiate this op orderId) s
  = (Throw (exn BadRequestException
              "O pedido já foi pago ou está em outro status."),
     mkWorld s [OrdersFindOneById orderId]).
Proof.
  intros Hcard Hf Ho Hs.
  destruct op as [u|u dto|u]; simpl in Hcard; unfold_monad;
    [|destruct Hcard as (Hc1 & Hc2 & Hc3); rewrite Hc1, Hc2, Hc3;
      cbn [orb]; unfold_monad|];
    rewrite Hf; unfold_monad; rewrite Ho; unfold_monad;
    destruct (order_status order); try reflexivity; contradiction.
Qed.

(** Order [o1] is already paid. *)
Lemma initiation_order_not_pending_witness :
  run (initiate (Sample.services "APPROVED" "PAID") (RedirectCheckout (Some "u1"))
         "o1") Scenario.store_paid
  = (Throw (exn BadRequestException
              "O pedido já foi pago ou está em outro status."),
     mkWorld Scenario.store_paid [OrdersFindOneById "o1"]).
Proof.
  apply (initiation_order_not_pending (Sample.services "APPROVED" "PAID")
           (RedirectCheckout (Some "u1")) "o1" Scenario.store_paid
           (Prisma.set_order_status PAID Sample.order_o1)).
  - exact I.
  - reflexivity.
  - reflexivity.
  - simpl. discriminate.
Defined.

(** X3: every failure of [ensureOrderOwnership] is a BadRequest, and its message
    tells the case: "Acesso não autorizado a este pedido." for an order with
    a user that the requester is not; "Pedido sem identificador de convidado
    definido." for an order with neither user nor guest; "Acesso não
    autorizado ao pedido de convidado." for a guest order that the
    requester is not the guest of. *)
Theorem ensureOrderOwnership_failures (order : Order)
  (requesterId : option string) (thrown : Thrown) :
  ensureOrderOwnership order requesterId = Throw thrown ->
  exists e,
    thrown = Raised e
    /\ exn_class e = BadRequestException
    /\ ((JS.truthy (order_userId order) = true
         /\ requesterId <> order_userId order
         /\ exn_message e = "Acesso não autorizado a este pedido.")
        \/ (JS.truthy (order_userId order) = false
            /\ JS.truthy (order_guestId order) = false
            /\ exn_message e
               = "Pedido sem identificador de convidado definido.")
        \/ (JS.truthy (order_userId order) = false
            /\ JS.truthy (order_guestId order) = true
            /\ requesterId <> order_guestId order
            /\ exn_message e
               = "Acesso não autorizado ao pedido de convidado.")).
Proof.
  unfold ensureOrderOwnership.
  destruct (JS.truthy (order_userId order)) eqn:Hu.
  - destruct (negb (JS.truthy requesterId)
              || negb (JS.option_string_eqb (order_userId order) requesterId))
      eqn:Hbad; intros H; [|discriminate H].
    injection H as <-. eexists. split; [reflexivity|]. split; [reflexivity|]. left.
    repeat split; auto. intros ->.
    rewrite Hu, (proj2 (option_string_eqb_eq _ _) eq_refl) in Hbad.
    discriminate Hbad.
  - destruct (JS.truthy (order_guestId order)) eqn:Hg; cbn [negb].
    + destruct (negb (JS.truthy requesterId)
                || negb (JS.option_string_eqb (order_guestId order)
                                              requesterId))
        eqn:Hbad; intros H; [|discriminate H].
      injection H as <-. eexists. split; [reflexivity|]. split; [reflexivity|]. right. right.
      repeat split; auto. intros ->.
      rewrite Hg, (proj2 (option_string_eqb_eq _ _) eq_refl) in Hbad.
      discriminate Hbad.
    + intros H. injection H as <-. eexists. split; [reflexivity|]. split; [reflexivity|]. right. left. auto.
Qed.

(** The guest order [o2] asked by user [u1]. *)
Lemma ensureOrderOwnership_failures_witness :
  exists e,
    ensureOrderOwnership Sample.order_o2 (Some "u1") = Throw (Raised e)
    /\ exn_class e = BadRequestException.
Proof.
  destruct (ensureOrderOwnership_failures Sample.order_o2 (Some "u1") _
              eq_refl) as (e & He & Hclass & _).
  exists e. rewrite <- He. split; [reflexivity|exact Hclass].
Defined.

(* ------------------------------------------------------------------ *)
(** ** Initiation: failures inside the try block *)

Lemma backendUrl_unset (c : NestConfigService) :
  JS.truthy (BACKEND_URL c) = false -> ConfigService.backendUrl c = "".
Proof.
  unfold ConfigService.backendUrl, JS.or_default, JS.truthy.
  destruct (BACKEND_URL c) as [u|]; [|reflexivity].
  destruct (String.eqb_spec u ""); [reflexivity|discriminate].
Qed.

(** X4: with BACKEND_URL unset (or empty), a first initiation that passes the
    antifraud analysis fails with the operation's generic
    InternalServerError (the message about BACKEND_URL is replaced by the
    catch block); the gateway is never called and nothing is stored: the
    calls made are the two lookups and the antifraud analysis. *)
Theorem initiation_without_backend_url (this : Services) (op : Initiation)
  (orderId : string) (s : Store) (order : Order) (verdict : AntifraudResult) :
  passes_checks this op orderId s order ->
  Prisma.find_transaction_by_order (order_id order) s = None ->
  (forall request,
      analyzeTransaction (antifraudService this) request = Return verdict) ->
  af_status verdict <> "DENIED" ->
  JS.truthy (BACKEND_URL (nestConfigService this)) = false ->
  exists request,
    run (initiate this op orderId) s
    = (Throw (exn InternalServerErrorException (generic_failure op)),
       mkWorld s [OrdersFindOneById orderId;
                  TransactionFindUnique (order_id order);
                  AnalyzeTransaction request]).
Proof.
  intros Hchecks Hnone Haf Hverdict Hurl.
  apply String.eqb_neq in Hverdict. apply backendUrl_unset in Hurl.
  enter_initiation Hchecks; rewrite Hnone;
    destruct (buildPagSeguroPayload order)
      as [[customer shippingAddress] items];
    unfold try_catch; unfold_monad; rewrite Haf; unfold_monad;
    rewrite Hverdict, Hurl; unfold_monad;
    eexists; reflexivity.
Qed.

(** The sample services without BACKEND_URL. *)
Lemma initiation_without_backend_url_witness :
  exists request,
    run (initiate
           (Scenario.with_environment Scenario.environment_without_backend_url)
           (PixCharge "u1") "o1") Sample.store0
    = (Throw (exn InternalServerErrorException
                (generic_failure (PixCharge "u1"))),
       mkWorld Sample.store0
         [OrdersFindOneById "o1"; TransactionFindUnique "o1";
          AnalyzeTransaction request]).
Proof.
  apply (initiation_without_backend_url
           (Scenario.with_environment Scenario.environment_without_backend_url)
           (PixCharge "u1") "o1" Sample.store0 Sample.order_o1
           (mkAntifraudResult "APPROVED")).
  - apply order_o1_passes_checks; auto. exact I.
  - reflexivity.
  - reflexivity.
  - simpl. discriminate.
  - reflexivity.
Defined.

Lemma rethrow_or_generalize_surfaced {A : Type} (op : Initiation)
  (error : Thrown) (w : World) :
  @rethrow_or_generalize A (generic_failure op) error w
  = (Throw (surfaced op error), w).
Proof. apply rethrow_or_generalize_run. Qed.

(** What the [catch] block hands to the caller is an exception object:
    the TypeError of its log line for [null] and [undefined], an
    InternalServerError otherwise. *)
Lemma surfaced_cases (op : Initiation) (error : Thrown) :
  exists e,
    surfaced op error = Raised e
    /\ (exn_class e = InternalServerErrorException
        /\ (exn_message e = generic_failure op
            \/ prefix "Falha no PagSeguro:" (exn_message e) = true)
        \/ exists v, error = ThrownNullish v /\ e = type_error v "message").
Proof.
  unfold surfaced.
  destruct error as [e|v|x]; simpl.
  - destruct (ExceptionClass_eqb (exn_class e) InternalServerErrorException)
      eqn:Hc; simpl.
    + destruct (prefix "Falha no PagSeguro:" (exn_message e)) eqn:Hp; simpl.
      * exists e. split; [reflexivity|]. left. split; [|right; exact Hp].
        destruct (exn_class e); try discriminate Hc; reflexivity.
      * eexists. split; [reflexivity|]. left. split; [reflexivity|].
        left. reflexivity.
    + eexists. split; [reflexivity|]. left. split; [reflexivity|].
      left. reflexivity.
  - eexists. split; [reflexivity|]. right. eauto.
  - eexists. split; [reflexivity|]. left. split; [reflexivity|].
    left. reflexivity.
Qed.

(** A failure that leaves the [try] block of an initiation operation is
    what its [catch] block made of a failure inside. *)
Lemma try_catch_generalized {A : Type} (m : M A) (generic : string)
  (w w' : World) (thrown : Thrown) :
  try_catch m (rethrow_or_generalize generic) w = (Throw thrown, w') ->
  exists e0,
    m w = (Throw e0, w')
    /\ thrown = match message_of e0 with
                | Throw te => te
                | Return _ =>
                    if classified_by_gateway e0 then e0
                    else exn InternalServerErrorException generic
                end.
Proof.
  unfold try_catch. destruct (m w) as [[x|e0] w1]; [discriminate|].
  rewrite rethrow_or_generalize_run. intros H. injection H as <- <-.
  eauto.
Qed.

(** One step of a [try] block that does not throw [null] or [undefined]
    by itself. *)
Ltac not_nullish :=
  let H := fresh "H" in
  cbv beta iota zeta; cbn [db trace app]; intros H; discriminate H.

Ltac rejected_nullish Hno :=
  let H := fresh "H" in
  cbv beta iota zeta; cbn [db trace app]; intros H; injection H as -> _;
  exfalso; eapply Hno; eassumption.

(** X5: once the checks are passed and the order has no transaction yet,
    every failure of an initiation operation reaches the caller as an
    exception object of one of two kinds: an InternalServerError whose
    message is the operation's generic one or starts with "Falha no
    PagSeguro:"; or the TypeError "Cannot read properties of null (or
    undefined) (reading 'message')" thrown by the log line of the [catch]
    block, which happens only when the antifraud service, the
    gateway-create operation or a write of the database rejected with
    [null] or [undefined]. *)
Theorem initiation_failures_are_internal (this : Services) (op : Initiation)
  (orderId : string) (s : Store) (order : Order) (thrown : Thrown)
  (w : World) :
  passes_checks this op orderId s order ->
  Prisma.find_transaction_by_order (order_id order) s = None ->
  run (initiate this op orderId) s = (Throw thrown, w) ->
  exists e,
    thrown = Raised e
    /\ (exn_class e = InternalServerErrorException
        /\ (exn_message e = generic_failure op
            \/ prefix "Falha no PagSeguro:" (exn_message e) = true)
        \/ (exists v, e = type_error v "message")
           /\ ~ no_nullish_rejection this op).
Proof.
  intros Hchecks Hnone.
  assert (Hcases : forall t0,
             (forall v, t0 = ThrownNullish v ->
                        ~ no_nullish_rejection this op) ->
             exists e,
               surfaced op t0 = Raised e
               /\ (exn_class e = InternalServerErrorException
                   /\ (exn_message e = generic_failure op
                       \/ prefix "Falha no PagSeguro:" (exn_message e)
                          = true)
                   \/ (exists v, e = type_error v "message")
                      /\ ~ no_nullish_rejection this op)).
  { intros t0 Hnull.
    destruct (surfaced_cases op t0) as (e & He & [Hise|(v & Hv & Hte)]);
      exists e; (split; [exact He|]); [left; exact Hise|].
    right. split; [eauto|]. exact (Hnull v Hv). }
  revert thrown w.
  enter_initiation Hchecks; rewrite Hnone;
    destruct (buildPagSeguroPayload order)
      as [[customer shippingAddress] items];
    intros thrown w;
    match goal with
    | |- context [try_catch ?m ?h ?w0] =>
        destruct (try_catch m h w0) as [[a|t1] w1] eqn:Htc;
        [intros H; discriminate H|intros H; injection H as <- <-]
    end;
    apply try_catch_generalized in Htc;
    destruct Htc as (t0 & Hbody & ->);
    apply Hcases; intros v -> (Haf & Hdb & Hgw); revert Hbody;
    unfold_monad;
    (destruct (analyzeTransaction _ _) as [verdict|t] eqn:Hcall;
     [|rejected_nullish Haf]);
    (destruct (af_status verdict =? "DENIED"); [not_nullish|]);
    (destruct (ConfigService.backendUrl (nestConfigService this) =? "");
     [not_nullish|]).
  - destruct (createPagSeguroPixCharge _ _ _) as [resp|t] eqn:Hcreate;
      [|rejected_nullish Hgw].
    rewrite prisma_write_run. cbn [db trace].
    unfold Prisma.run_write.
    destruct (db_fault _ _) as [t|] eqn:Hfault; [rejected_nullish Hdb|].
    destruct (Prisma.apply_write _ _ s) as [s'|t] eqn:Hw; [not_nullish|].
    revert Hw. unfold Prisma.apply_write.
    destruct (JS.opt_field _ _); intros Hw; try discriminate Hw;
      injection Hw as <-; not_nullish.
  - destruct (processDirectCreditCardPayment _ _ _ _) as [resp|t]
      eqn:Hcreate; [|rejected_nullish Hgw].
    rewrite prisma_write_run. cbn [db trace].
    unfold Prisma.run_write at 1.
    destruct (db_fault _ _) as [t|] eqn:Hfault; [rejected_nullish Hdb|].
    destruct (Prisma.apply_write _ _ s) as [s'|t] eqn:Hw.
    2:{ revert Hw. unfold Prisma.apply_write.
        destruct (JS.opt_field _ _); intros Hw; try discriminate Hw;
          injection Hw as <-; not_nullish. }
    destruct (cc_status resp =? OrderStatus_name PAID); [|not_nullish].
    rewrite prisma_write_run. cbn [db trace].
    unfold Prisma.run_write at 1.
    destruct (db_fault _ (OrderUpdateStatus _ _)) as [t|] eqn:Hfault2;
      [rejected_nullish Hdb|].
    destruct (Prisma.apply_write _ _ s') as [s''|t] eqn:Hw2.
    2:{ revert Hw2. unfold Prisma.apply_write.
        destruct (Prisma.find_order (order_id order) s'); intros Hw2;
          try discriminate Hw2; injection Hw2 as <-; not_nullish. }
    rewrite try_catch_log.
    destruct (JS.truthy (JS.nullish _ _));
      [destruct (sendPaymentConfirmationEmail _ _ _ _) as [[]|[e|v'|x]]|];
      cbv beta iota zeta delta [call ret]; not_nullish.
  - destruct (createPagSeguroCheckoutRedirect _ _ _) as [resp|t]
      eqn:Hcreate; [|rejected_nullish Hgw].
    rewrite prisma_write_run. cbn [db trace].
    unfold Prisma.run_write.
    destruct (db_fault _ _) as [t|] eqn:Hfault; [rejected_nullish Hdb|].
    destruct (Prisma.apply_write _ _ s) as [s'|t] eqn:Hw; [not_nullish|].
    revert Hw. unfold Prisma.apply_write.
    destruct (JS.opt_field _ _); intros Hw; try discriminate Hw;
      injection Hw as <-; not_nullish.
Qed.

(** The failure of a PIX charge denied by the antifraud analysis. *)
Lemma initiation_failures_are_internal_witness :
  let outcome :=
    run (initiate (Sample.services "DENIED" "PAID") (PixCharge "u1") "o1")
        Sample.store0 in
  exists e,
    fst outcome = Throw (Raised e)
    /\ (exn_class e = InternalServerErrorException
        /\ (exn_message e = generic_failure (PixCharge "u1")
            \/ prefix "Falha no PagSeguro:" (exn_message e) = true)
        \/ (exists v, e = type_error v "message")
           /\ ~ no_nullish_rejection (Sample.services "DENIED" "PAID")
                  (PixCharge "u1")).
Proof.
  intros outcome.
  destruct (initiation_failures_are_internal
              (Sample.services "DENIED" "PAID") (PixCharge "u1") "o1"
              Sample.store0 Sample.order_o1
              (Raised (exn InternalServerErrorException
                         (generic_failure (PixCharge "u1"))))
              (snd outcome))
    as (e & He & Hkind).
  - apply sample_passes_checks; [exact I|reflexivity].
  - reflexivity.
  - reflexivity.
  - exists e. rewrite <- He. split; [reflexivity|exact Hkind].
Defined.

(** X6: when the gateway-create call of a first initiation fails, whatever
    it fails with, the caller gets [surfaced op] of the failure: the
    failure itself if the gateway adapter classified it
    (InternalServerError, "Falha no PagSeguro:..."), the TypeError of the
    log line of the [catch] block if it is [null] or [undefined], the
    generic InternalServerError otherwise; the gateway was called once, no
    write was sent to the store, and the store is the initial one (no
    Transaction is left behind). *)
Theorem initiation_gateway_failure (this : Services) (op : Initiation)
  (orderId : string) (s : Store) (order : Order) (verdict : AntifraudResult)
  (thrown : Thrown) :
  passes_checks this op orderId s order ->
  Prisma.find_transaction_by_order (order_id order) s = None ->
  (forall request,
      analyzeTransaction (antifraudService this) request = Return verdict) ->
  af_status verdict <> "DENIED" ->
  ConfigService.backendUrl (nestConfigService this) <> "" ->
  gateway_create_fails this op thrown ->
  exists w,
    run (initiate this op orderId) s = (Throw (surfaced op thrown), w)
    /\ db w = s
    /\ count_events is_gateway_create (trace w) = 1
    /\ count_events is_store_write (trace w) = 0.
Proof.
  intros Hchecks Hnone Haf Hverdict Hurl Hfail.
  apply String.eqb_neq in Hverdict, Hurl.
  enter_initiation Hchecks; rewrite Hnone; simpl in Hfail;
    destruct (buildPagSeguroPayload order)
      as [[customer shippingAddress] items];
    unfold try_catch; unfold_monad; rewrite Haf; unfold_monad;
    rewrite Hverdict, Hurl; unfold_monad; rewrite Hfail;
    rewrite rethrow_or_generalize_run;
    eexists; repeat split; reflexivity.
Qed.

(** The gateway rejects the card charge with [null]: the caller gets the
    TypeError of the log line, and nothing is stored. *)
Lemma initiation_gateway_failure_witness :
  exists w,
    run (initiate (Scenario.with_gateway Scenario.gateway_rejecting_null)
           (CreditCardPayment (Some "u1") Sample.complete_card) "o1")
        Sample.store0
    = (Throw (Raised
                (exn TypeError
                   "Cannot read properties of null (reading 'message')")),
       w)
    /\ db w = Sample.store0
    /\ count_events is_gateway_create (trace w) = 1
    /\ count_events is_store_write (trace w) = 0.
Proof.
  apply (initiation_gateway_failure
           (Scenario.with_gateway Scenario.gateway_rejecting_null)
           (CreditCardPayment (Some "u1") Sample.complete_card) "o1"
           Sample.store0 Sample.order_o1 (mkAntifraudResult "APPROVED")
           (ThrownNullish JsNull)).
  - apply order_o1_passes_checks; auto. simpl. auto.
  - reflexivity.
  - reflexivity.
  - simpl. discriminate.
  - vm_compute. discriminate.
  - simpl. reflexivity.
Defined.

(* ------------------------------------------------------------------ *)
(** ** Initiation: what a first payment stores *)

(** X7: when an initiation operation returns for an order that had no
    transaction, the store holds exactly one more Transaction, appended to
    the former ones.  It mirrors the answer of the gateway-create call the
    operation made, which the response hands out: status, gateway id (for
    a redirect checkout the checkout id the gateway gave, the response
    being the redirect URL alone), transactionRef, QR code.  It is for this
    order, its amount and its user, has a fresh id, carries an antifraud
    verdict other than DENIED, and the gateway-create operation was called
    exactly once. *)
Theorem first_initiation_persists (this : Services) (op : Initiation)
  (orderId : string) (s : Store) (order : Order) (r : InitiationResponse)
  (w : World) :
  run (initiate this op orderId) s = (Return r, w) ->
  Prisma.find_order orderId s = Some order ->
  Prisma.find_transaction_by_order orderId s = None ->
  exists t,
    transactions (db w) = (transactions s ++ [t])%list
    /\ stored_as this (trace w) r t
    /\ tx_orderId t = Some orderId
    /\ tx_amount t = order_totalAmount order
    /\ tx_userId t = userId_or_null order
    /\ ~ In (tx_id t) (map tx_id (transactions s))
    /\ (exists verdict,
           tx_antifraudStatus t = Some verdict /\ verdict <> "DENIED")
    /\ count_events is_gateway_create (trace w) = 1.
Proof.
  intros Hrun Ho Hnone.
  destruct (initiate_checks this op orderId s)
    as [[e [w' [H _]]]|[order' (Hcard & Hf & Ho' & Hs & He)]];
    [rewrite H in Hrun; discriminate|].
  rewrite Ho in Ho'. injection Ho' as <-.
  pose proof (find_order_id _ _ _ Ho) as Hoid. rewrite <- Hoid in Hnone.
  destruct (first_payment this op orderId s order r w
              Hcard Hf Ho Hs He Hnone Hrun)
    as (t & Htxs & Hstored & Htoid & Hamount & Huser & Hfresh & Hverdict
        & Hcount & _).
  exists t. rewrite <- Hoid at 1. auto 10.
Qed.

(** The first redirect checkout of the guest order [o2]: the transaction
    carries the checkout id [chk1] the gateway gave with the URL. *)
Lemma first_initiation_persists_witness :
  let this := Sample.services "APPROVED" "PAID" in
  let w :=
    snd (run (initiate this (RedirectCheckout (Some "g1")) "o2")
             Sample.store0) in
  exists t,
    transactions (db w) = [t]
    /\ stored_as this (trace w)
         (RedirectCheckoutResponse
            (mkRedirectResponse "https://gateway.example/pay/chk1" None)) t
    /\ tx_orderId t = Some "o2"
    /\ tx_amount t = 15990%Z
    /\ tx_userId t = None
    /\ ~ In (tx_id t) []
    /\ (exists verdict,
           tx_antifraudStatus t = Some verdict /\ verdict <> "DENIED")
    /\ count_events is_gateway_create (trace w) = 1.
Proof.
  intros this w.
  apply (first_initiation_persists this (RedirectCheckout (Some "g1")) "o2"
           Sample.store0 Sample.order_o2
           (RedirectCheckoutResponse
              (mkRedirectResponse "https://gateway.example/pay/chk1" None))
           w).
  - reflexivity.
  - reflexivity.
  - reflexivity.
Defined.

(* ------------------------------------------------------------------ *)
(** ** Card payment: the order update *)

Lemma find_order_updated (oid : string) (status : OrderStatus)
  (os : list Order) (order : Order) :
  find (fun o => order_id o =? oid) os = Some order ->
  find (fun o => order_id o =? oid)
       (map (fun o => if order_id o =? oid
                      then Prisma.set_order_status status o else o) os)
  = Some (Prisma.set_order_status status order).
Proof.
  intros H. rewrite find_map_preserved.
  - rewrite H. simpl. apply find_some in H. destruct H as [_ H].
    now rewrite H.
  - intros x. destruct (order_id x =? oid) eqn:E; simpl; rewrite ?E;
      reflexivity.
Qed.

(** X8: a first card payment whose antifraud service, gateway and database
    all answer stores one Transaction with the status of the gateway's
    charge.  If that status is PAID the order is PAID afterwards and at
    most one mail is sent; otherwise the orders are left as they were, no
    mail is sent and the charge is returned.  The charge is returned as
    well when it is PAID, unless the mailer rejects with [null] or
    [undefined]: any other failure of the mailer is swallowed, but that one
    makes the log line of the inner [catch] throw, and the request fails
    with the generic InternalServerError while the Transaction and the
    order stay PAID. *)
Theorem card_payment_paid (this : Services) (orderId : string)
  (userId : option string) (dto : ProcessPaymentDto) (s : Store)
  (order : Order) (verdict : AntifraudResult) (charge : CardChargeResult) :
  passes_checks this (CreditCardPayment userId dto) orderId s order ->
  Prisma.find_transaction_by_order (order_id order) s = None ->
  (forall request,
      analyzeTransaction (antifraudService this) request = Return verdict) ->
  af_status verdict <> "DENIED" ->
  ConfigService.backendUrl (nestConfigService this) <> "" ->
  (forall request card url,
      processDirectCreditCardPayment (pagSeguroService this) request card url
      = Return charge) ->
  (forall write, db_fault (prisma this) write = None) ->
  exists r w t,
    run (processCreditCardPayment this orderId userId dto) s = (r, w)
    /\ transactions (db w) = (transactions s ++ [t])%list
    /\ tx_status t = cc_status charge
    /\ (cc_status charge = "PAID" ->
        order_status_of orderId (db w) = Some PAID
        /\ count_events is_notification (trace w) <= 1)
    /\ (cc_status charge <> "PAID" ->
        orders (db w) = orders s
        /\ count_events is_notification (trace w) = 0
        /\ r = Return (CardCharged charge))
    /\ ((forall to amount v,
            sendPaymentConfirmationEmail (notificationsService this)
              to orderId amount <> Throw (ThrownNullish v)) ->
        r = Return (CardCharged charge))
    /\ (r = Return (CardCharged charge)
        \/ (r = Throw (Raised
                         (exn InternalServerErrorException
                            "Falha ao processar pagamento com cartão de crédito."))
            /\ exists to amount v,
                 sendPaymentConfirmationEmail (notificationsService this)
                   to orderId amount = Throw (ThrownNullish v)))
    /\ (forall to v,
           cc_status charge = "PAID" ->
           JS.nullish (JS.opt_field (order_user order) user_email)
                      (order_guestEmail order) = Some to ->
           to <> "" ->
           sendPaymentConfirmationEmail (notificationsService this)
             to orderId (toNumber (order_totalAmount order))
           = Throw (ThrownNullish v) ->
           r = Throw (Raised
                        (exn InternalServerErrorException
                           "Falha ao processar pagamento com cartão de crédito."))).
Proof.
  intros Hchecks Hnone Haf Hverdict Hurl Hgw Hdb.
  apply String.eqb_neq in Hverdict, Hurl.
  pose proof Hchecks as (_ & _ & Ho & _).
  pose proof (find_order_id _ _ _ Ho) as Hoid.
  destruct Hchecks as (Hcard & Hf & _ & Hs & He & Hrf).
  simpl in Hcard, He. destruct Hcard as (Hc1 & Hc2 & Hc3).
  unfold_monad. rewrite Hc1, Hc2, Hc3. cbn [orb]. unfold_monad.
  rewrite Hf; unfold_monad; rewrite Ho; unfold_monad;
    rewrite Hs; unfold_monad; rewrite He; unfold_monad;
    rewrite Hrf; unfold_monad. rewrite Hnone.
  destruct (buildPagSeguroPayload order)
    as [[customer shippingAddress] items].
  unfold try_catch at 1. unfold_monad. rewrite Haf. unfold_monad.
  rewrite Hverdict, Hurl. unfold_monad. rewrite Hgw.
  rewrite prisma_write_run. cbn [db trace].
  unfold Prisma.run_write at 1. rewrite Hdb.
  unfold Prisma.apply_write at 1. cbn [new_orderId JS.opt_field].
  rewrite Hnone.
  destruct (String.eqb_spec (cc_status charge) (OrderStatus_name PAID))
    as [Hpaid|Hpaid].
  - rewrite prisma_write_run. cbn [db trace].
    unfold Prisma.run_write at 1. rewrite Hdb.
    unfold Prisma.apply_write at 1. unfold Prisma.find_order at 1.
    cbn [orders]. fold (Prisma.find_order (order_id order) s).
    rewrite Hoid, Ho.
    assert (Hpaid_status :
              find (fun o => order_id o =? orderId)
                   (map (fun o => if order_id o =? orderId
                                  then Prisma.set_order_status PAID o else o)
                        (orders s))
              = Some (Prisma.set_order_status PAID order))
      by (apply find_order_updated; exact Ho).
    rewrite try_catch_log.
    destruct (JS.truthy (JS.nullish _ _)) eqn:Htruthy;
      [destruct (sendPaymentConfirmationEmail _ _ _ _)
         as [[]|[e|v|x]] eqn:Hsend|];
      cbv beta iota zeta delta [call ret]; cbn [db trace app];
      rewrite ?rethrow_or_generalize_run; cbn [message_of];
      cbv beta iota zeta; cbn [classified_by_gateway exn_class type_error
                                 exn ExceptionClass_eqb andb];
      eexists; eexists; eexists; (split; [reflexivity|]);
      cbn [db trace transactions]; (split; [reflexivity|]);
      (split; [reflexivity|]);
      (split;
       [intros _; unfold order_status_of, Prisma.find_order; cbn [orders];
        rewrite Hpaid_status; split; [reflexivity|];
        unfold count_events; cbn; lia|]);
      (split; [intros Hn; contradiction|]);
      (split;
       [intros Hmailer; try reflexivity;
        exfalso; exact (Hmailer _ _ _ Hsend)|]);
      (split; [first [left; reflexivity|right; split; [reflexivity|eauto]]|]);
      intros to v0 _ Hto Hne Hrejects; try reflexivity; exfalso;
      first
        [ rewrite Hto in Htruthy; simpl in Htruthy; apply Hne;
          destruct (String.eqb_spec to "");
          [assumption|discriminate Htruthy]
        | rewrite Hto in Hsend; cbn [JS.nullish_default] in Hsend;
          rewrite ?Hoid in Hsend; rewrite Hrejects in Hsend;
          discriminate Hsend ].
  - eexists. eexists. eexists. split; [reflexivity|].
    cbn [db trace transactions]. split; [reflexivity|].
    split; [reflexivity|].
    split; [intros Hp; contradiction|].
    split; [intros _; repeat split; reflexivity|].
    split; [intros _; reflexivity|]. split; [left; reflexivity|].
    intros to v _Hp. contradiction.
Qed.

(** The card payment of order [o1], answered PAID, with a mailer that
    rejects with [undefined]: the card is charged, the transaction and the
    order are PAID, and the request fails. *)
Lemma card_payment_paid_witness :
  let this :=
    mkServices Sample.database Sample.orders_service (Sample.gateway "PAID")
      Sample.environment Scenario.mailer_rejecting_undefined
      (Sample.antifraud "APPROVED") in
  exists w t,
    run (processCreditCardPayment this "o1" (Some "u1") Sample.complete_card)
        Sample.store0
    = (Throw (Raised
                (exn InternalServerErrorException
                   "Falha ao processar pagamento com cartão de crédito.")),
       w)
    /\ transactions (db w) = [t]
    /\ tx_status t = "PAID"
    /\ order_status_of "o1" (db w) = Some PAID.
Proof.
  intros this.
  destruct (card_payment_paid this "o1" (Some "u1") Sample.complete_card
              Sample.store0 Sample.order_o1 (mkAntifraudResult "APPROVED")
              (mkCardChargeResult "ch1" "PAID" "ref-ch1"))
    as (r & w & t & Hrun & Htxs & Hstatus & Hpaid & _ & _ & Hr & _).
  - apply order_o1_passes_checks; auto. simpl. auto.
  - reflexivity.
  - reflexivity.
  - simpl. discriminate.
  - vm_compute. discriminate.
  - reflexivity.
  - reflexivity.
  - exists w, t. rewrite Hrun. split.
    + f_equal.
      assert (Hfails : fst (run (processCreditCardPayment this "o1"
                                   (Some "u1") Sample.complete_card)
                                Sample.store0)
                       = Throw (Raised
                                  (exn InternalServerErrorException
                                     "Falha ao processar pagamento com cartão de crédito.")))
        by (vm_compute; reflexivity).
      rewrite Hrun in Hfails. exact Hfails.
    + split; [exact Htxs|]. split; [exact Hstatus|].
      exact (proj1 (Hpaid eq_refl)).
Defined.

Lemma card_payment_refused_run (this : Services)
  (orderId : string) (userId : option string) (dto : ProcessPaymentDto)
  (s : Store) (order : Order) (verdict : AntifraudResult)
  (charge : CardChargeResult) (refusal : Thrown) :
  passes_checks this (CreditCardPayment userId dto) orderId s order ->
  Prisma.find_transaction_by_order (order_id order) s = None ->
  (forall request,
      analyzeTransaction (antifraudService this) request = Return verdict) ->
  af_status verdict <> "DENIED" ->
  ConfigService.backendUrl (nestConfigService this) <> "" ->
  (forall request card url,
      processDirectCreditCardPayment (pagSeguroService this) request card url
      = Return charge) ->
  cc_status charge = "PAID" ->
  (forall data, db_fault (prisma this) (TransactionCreateW data) = None) ->
  db_fault (prisma this) (OrderUpdateStatus orderId PAID) = Some refusal ->
  exists w t,
    run (processCreditCardPayment this orderId userId dto) s
    = (Throw (surfaced (CreditCardPayment userId dto) refusal), w)
    /\ db w = mkStore (orders s) (transactions s ++ [t])
    /\ tx_status t = "PAID"
    /\ tx_orderId t = Some orderId
    /\ tx_gatewayTransactionId t = Some (cc_transactionId charge)
    /\ count_events is_notification (trace w) = 0.
Proof.
  intros Hchecks Hnone Haf Hverdict Hurl Hgw Hpaid Hcreate Hrefuse.
  apply String.eqb_neq in Hverdict, Hurl.
  pose proof Hchecks as (_ & _ & Ho & _).
  pose proof (find_order_id _ _ _ Ho) as Hoid.
  destruct Hchecks as (Hcard & Hf & _ & Hs & He & Hrf).
  simpl in Hcard, He. destruct Hcard as (Hc1 & Hc2 & Hc3).
  unfold_monad. rewrite Hc1, Hc2, Hc3. cbn [orb]. unfold_monad.
  rewrite Hf; unfold_monad; rewrite Ho; unfold_monad;
    rewrite Hs; unfold_monad; rewrite He; unfold_monad;
    rewrite Hrf; unfold_monad. rewrite Hnone.
  destruct (buildPagSeguroPayload order)
    as [[customer shippingAddress] items].
  unfold try_catch at 1. unfold_monad. rewrite Haf. unfold_monad.
  rewrite Hverdict, Hurl. unfold_monad. rewrite Hgw.
  rewrite prisma_write_run. cbn [db trace].
  unfold Prisma.run_write at 1. rewrite Hcreate.
  unfold Prisma.apply_write at 1. cbn [new_orderId JS.opt_field].
  rewrite Hnone. rewrite Hpaid. cbn [OrderStatus_name].
  rewrite String.eqb_refl.
  rewrite prisma_write_run. cbn [db trace].
  unfold Prisma.run_write at 1. rewrite Hoid, Hrefuse.
  rewrite rethrow_or_generalize_run.
  eexists. eexists. split; [reflexivity|].
  cbn [db trace]. repeat split; reflexivity.
Qed.

(** X9: the two writes of a card payment are not atomic.  When the gateway
    charged the card (PAID), the Transaction was created and the update of
    the order is refused, the request fails, yet the PAID Transaction stays
    stored while the order keeps its PENDING status and no mail is sent.
    A retry does not charge the card again: it makes the two lookups and
    the re-query of the gateway, nothing else, and is answered from the
    stored Transaction, unless the re-query rejects with [null] or
    [undefined], which makes the retry fail with the TypeError of the
    helper's log line. *)
Theorem card_payment_order_update_refused (this : Services)
  (orderId : string) (userId : option string) (dto : ProcessPaymentDto)
  (s : Store) (order : Order) (verdict : AntifraudResult)
  (charge : CardChargeResult) (refusal : Thrown) :
  passes_checks this (CreditCardPayment userId dto) orderId s order ->
  Prisma.find_transaction_by_order (order_id order) s = None ->
  (forall request,
      analyzeTransaction (antifraudService this) request = Return verdict) ->
  af_status verdict <> "DENIED" ->
  ConfigService.backendUrl (nestConfigService this) <> "" ->
  (forall request card url,
      processDirectCreditCardPayment (pagSeguroService this) request card url
      = Return charge) ->
  cc_status charge = "PAID" ->
  (forall data, db_fault (prisma this) (TransactionCreateW data) = None) ->
  db_fault (prisma this) (OrderUpdateStatus orderId PAID) = Some refusal ->
  cc_transactionId charge <> "" ->
  exists w t,
    run (processCreditCardPayment this orderId userId dto) s
    = (Throw (surfaced (CreditCardPayment userId dto) refusal), w)
    /\ transactions (db w) = (transactions s ++ [t])%list
    /\ tx_status t = "PAID"
    /\ orders (db w) = orders s
    /\ count_events is_notification (trace w) = 0
    /\ forall retry : Services,
         orders_fault (ordersService retry) orderId = None ->
         db_read_fault (prisma retry) orderId = None ->
         exists o,
           run (initiate retry (CreditCardPayment userId dto) orderId) (db w)
           = (o,
              mkWorld (db w)
                [OrdersFindOneById orderId; TransactionFindUnique orderId;
                 GetCheckoutDetails (cc_transactionId charge)])
           /\ match getCheckoutDetails (pagSeguroService retry)
                    (cc_transactionId charge) with
              | Throw (ThrownNullish v) =>
                  o = Throw (Raised (type_error v "message"))
              | _ =>
                  exists r,
                    o = Return r
                    /\ response_gateway_id r = Some (cc_transactionId charge)
              end.
Proof.
  intros Hchecks Hnone Haf Hverdict Hurl Hgw Hpaid Hcreate Hrefuse Hgid.
  destruct (card_payment_refused_run this orderId userId dto s order verdict
              charge refusal Hchecks Hnone Haf Hverdict Hurl Hgw Hpaid
              Hcreate Hrefuse)
    as (w & t & Hrun & Hdb & Hst & Htoid & Htgid & Hnotif).
  exists w, t. rewrite Hdb. cbn [transactions orders].
  repeat (split; [assumption || reflexivity|]).
  intros retry Hof Hrf2.
  destruct Hchecks as (Hcard & _ & Ho & Hs & He & _).
  pose proof (find_order_id _ _ _ Ho) as Hoid.
  assert (Hchecks1 : passes_checks retry (CreditCardPayment userId dto)
                       orderId (mkStore (orders s) (transactions s ++ [t]))
                       order).
  { unfold passes_checks. rewrite Hoid.
    split; [exact Hcard|]. split; [exact Hof|]. split; [exact Ho|].
    split; [exact Hs|]. split; [exact He|exact Hrf2]. }
  assert (Hrow : Prisma.find_transaction_by_order (order_id order)
                   (mkStore (orders s) (transactions s ++ [t])) = Some t).
  { unfold Prisma.find_transaction_by_order. cbn [transactions].
    apply find_app_none.
    - exact Hnone.
    - cbv beta. rewrite Htoid, Hoid. simpl. apply String.eqb_refl. }
  destruct (short_circuit retry (CreditCardPayment userId dto) orderId _
              order t (cc_transactionId charge) Hchecks1 Hrow Htgid Hgid)
    as (o & Hrun2 & Hans).
  exists o. rewrite Hoid in Hrun2. split; [exact Hrun2|].
  revert Hans. unfold requery_failure, refers_to.
  destruct (getCheckoutDetails (pagSeguroService retry)
              (cc_transactionId charge)) as [d|[e|v|x]]; auto.
Qed.

(** The database refuses the update of order [o1] after the charge. *)
Lemma card_payment_order_update_refused_witness :
  exists w t,
    run (processCreditCardPayment
           (Scenario.with_database Sample.database_refusing_order_updates)
           "o1" (Some "u1") Sample.complete_card) Sample.store0
    = (Throw (Raised
                (exn InternalServerErrorException
                   "Falha ao processar pagamento com cartão de crédito.")),
       w)
    /\ transactions (db w) = [t]
    /\ tx_status t = "PAID"
    /\ orders (db w) = orders Sample.store0
    /\ count_events is_notification (trace w) = 0
    /\ forall retry : Services,
         orders_fault (ordersService retry) "o1" = None ->
         db_read_fault (prisma retry) "o1" = None ->
         exists o,
           run (initiate retry
                  (CreditCardPayment (Some "u1") Sample.complete_card) "o1")
               (db w)
           = (o,
              mkWorld (db w)
                [OrdersFindOneById "o1"; TransactionFindUnique "o1";
                 GetCheckoutDetails "ch1"])
           /\ match getCheckoutDetails (pagSeguroService retry) "ch1" with
              | Throw (ThrownNullish v) =>
                  o = Throw (Raised (type_error v "message"))
              | _ =>
                  exists r, o = Return r /\ response_gateway_id r = Some "ch1"
              end.
Proof.
  apply (card_payment_order_update_refused
           (Scenario.with_database Sample.database_refusing_order_updates)
           "o1" (Some "u1") Sample.complete_card Sample.store0
           Sample.order_o1 (mkAntifraudResult "APPROVED")
           (mkCardChargeResult "ch1" "PAID" "ref-ch1")
           (Raised (exn Error "deadlock detected"))).
  - apply order_o1_passes_checks; auto. simpl. auto.
  - reflexivity.
  - reflexivity.
  - simpl. discriminate.
  - vm_compute. discriminate.
  - reflexivity.
  - reflexivity.
  - reflexivity.
  - reflexivity.
  - simpl. discriminate.
Defined.

(* ------------------------------------------------------------------ *)
(** ** Webhook: lookups, secret and body *)

(** Runs the webhook handler, its signature being the right one, up to the
    answer of the transaction lookup. *)
Ltac enter_webhook Hsecret Hd Hrf :=
  unfold run, handlePagSeguroNotification;
  unfold bind at 1; unfold lift at 1; rewrite Hsecret;
  rewrite String.eqb_refl; cbn [negb];
  unfold bind at 1; unfold call at 1; cbn [db trace app]; rewrite Hd;
  unfold bind at 1; unfold Prisma.transaction_findFirst_with_order;
  unfold bind at 1; unfold read_db at 1; unfold call at 1;
  cbn [db trace app]; rewrite Hrf.

(** X10: a correctly signed notification for a checkout id that no Transaction
    carries, or whose Transaction has no order, throws
    NotFound("Transação não encontrada para o checkout ID fornecido.")
    after the gateway lookup and the transaction lookup, with the store
    left as it was. *)
Theorem webhook_transaction_not_found (this : Services) (s : Store)
  (id rawBody secret : string) (d : CheckoutDetails) :
  ConfigService.pagSeguroWebhookSecret (nestConfigService this)
  = Return secret ->
  getCheckoutDetails (pagSeguroService this) id = Return d ->
  db_read_fault (prisma this) id = None ->
  Prisma.find_transaction_by_gateway id s = None
  \/ (exists t,
         Prisma.find_transaction_by_gateway id s = Some t
         /\ JS.opt_field (tx_orderId t) (fun oid => Prisma.find_order oid s)
            = None) ->
  run (handlePagSeguroNotification this id
         (Crypto.hmac_sha256_hex secret rawBody) rawBody) s
  = (Throw transaction_not_found,
     mkWorld s [GetCheckoutDetails id; TransactionFindFirst id]).
Proof.
  intros Hsecret Hd Hrf Hmiss.
  enter_webhook Hsecret Hd Hrf.
  destruct Hmiss as [Ht|(t & Ht & Ho)]; rewrite Ht; [reflexivity|].
  rewrite Ho. reflexivity.
Qed.

(** No transaction of the store carries [chk9]. *)
Lemma webhook_transaction_not_found_witness :
  run (handlePagSeguroNotification (Sample.services "APPROVED" "PAID") "chk9"
         (Crypto.hmac_sha256_hex "whsec_test" Sample.body) Sample.body)
      Sample.store_with_tx1
  = (Throw transaction_not_found,
     mkWorld Sample.store_with_tx1
       [GetCheckoutDetails "chk9"; TransactionFindFirst "chk9"]).
Proof.
  apply (webhook_transaction_not_found (Sample.services "APPROVED" "PAID")
           Sample.store_with_tx1 "chk9" Sample.body "whsec_test"
           (mkCheckoutDetails (Some "chk9") (Some "PAID") None None)).
  - reflexivity.
  - reflexivity.
  - reflexivity.
  - left. reflexivity.
Defined.

(** X11: with PAGSEGURO_WEBHOOK_SECRET unset (or empty) the webhook handler
    fails closed: every notification, whatever its signature and body, is
    refused with the InternalServerError of the configuration getter,
    before any call on a collaborator and with the store untouched. *)
Theorem webhook_without_secret_fails_closed (this : Services) (s : Store)
  (id signature rawBody : string) :
  JS.truthy (PAGSEGURO_WEBHOOK_SECRET (nestConfigService this)) = false ->
  run (handlePagSeguroNotification this id signature rawBody) s
  = (Throw missing_webhook_secret, mkWorld s []).
Proof.
  intros Hunset.
  unfold run, handlePagSeguroNotification, bind, lift,
    ConfigService.pagSeguroWebhookSecret.
  destruct (PAGSEGURO_WEBHOOK_SECRET (nestConfigService this)) as [secret|];
    [|reflexivity].
  simpl in Hunset. apply negb_false_iff in Hunset. rewrite Hunset.
  reflexivity.
Qed.

(** The sample services without webhook secret, an empty signature. *)
Lemma webhook_without_secret_fails_closed_witness :
  run (handlePagSeguroNotification
         (Scenario.with_environment Scenario.environment_without_secret)
         "tx1" "" Sample.body) Sample.store_with_tx1
  = (Throw missing_webhook_secret, mkWorld Sample.store_with_tx1 []).
Proof.
  apply (webhook_without_secret_fails_closed
           (Scenario.with_environment Scenario.environment_without_secret)
           Sample.store_with_tx1 "tx1" "" Sample.body).
  reflexivity.
Defined.

(** X12: the raw body of a notification is used for the signature check only:
    two correctly signed notifications for the same checkout id behave the
    same (same outcome, same calls, same final store) whatever their
    bodies say. *)
Theorem webhook_outcome_ignores_body (this : Services) (s : Store)
  (id secret body1 body2 : string) :
  ConfigService.pagSeguroWebhookSecret (nestConfigService this)
  = Return secret ->
  run (handlePagSeguroNotification this id
         (Crypto.hmac_sha256_hex secret body1) body1) s
  = run (handlePagSeguroNotification this id
           (Crypto.hmac_sha256_hex secret body2) body2) s.
Proof.
  intros Hsecret.
  unfold run, handlePagSeguroNotification, bind, lift. rewrite Hsecret.
  rewrite !String.eqb_refl. reflexivity.
Qed.

(** The sample body and an empty object, both signed. *)
Lemma webhook_outcome_ignores_body_witness :
  run (handlePagSeguroNotification (Sample.services "APPROVED" "PAID") "tx1"
         (Crypto.hmac_sha256_hex "whsec_test" Sample.body) Sample.body)
      Sample.store_with_tx1
  = run (handlePagSeguroNotification (Sample.services "APPROVED" "PAID")
           "tx1" (Crypto.hmac_sha256_hex "whsec_test" "{}") "{}")
        Sample.store_with_tx1.
Proof.
  apply (webhook_outcome_ignores_body (Sample.services "APPROVED" "PAID")
           Sample.store_with_tx1 "tx1" "whsec_test" Sample.body "{}").
  reflexivity.
Defined.

(* ------------------------------------------------------------------ *)
(** ** Webhook: the form of the signature *)

Lemma round_keeps_eight (st : list Z * list Z) (k : Z) :
  List.length (fst st) = 8%nat ->
  List.length (fst (Crypto.round st k)) = 8%nat.
Proof.
  destruct st as [v win]. simpl.
  destruct v as [|a [|b [|c [|d [|e [|f [|g [|h [|i v]]]]]]]]];
    simpl; intros H; try discriminate H; reflexivity.
Qed.

Lemma rounds_keep_eight (ks : list Z) (st : list Z * list Z) :
  List.length (fst st) = 8%nat ->
  List.length (fst (fold_left Crypto.round ks st)) = 8%nat.
Proof.
  revert st. induction ks as [|k ks IH]; intros st H; simpl; [exact H|].
  apply IH. now apply round_keeps_eight.
Qed.

Lemma compress_length (h block : list Z) :
  List.length h = 8%nat -> List.length (Crypto.compress h block) = 8%nat.
Proof.
  intros H. unfold Crypto.compress.
  pose proof (rounds_keep_eight Crypto.K256 (h, Crypto.words_of_bytes block) H)
    as Hv.
  destruct (fold_left Crypto.round Crypto.K256
              (h, Crypto.words_of_bytes block)) as [v win].
  simpl in Hv. rewrite length_map, length_combine, H, Hv. reflexivity.
Qed.

Lemma absorb_length (n : nat) (h bs : list Z) :
  List.length h = 8%nat -> List.length (Crypto.absorb n h bs) = 8%nat.
Proof.
  revert h bs. induction n as [|n IH]; intros h bs H; simpl; [exact H|].
  apply IH. now apply compress_length.
Qed.

Lemma bytes_of_words_length (ws : list Z) :
  List.length (flat_map Crypto.bytes_of_word ws) = (4 * List.length ws)%nat.
Proof.
  induction ws as [|w ws IH]; simpl; [reflexivity|]. rewrite IH. lia.
Qed.

Lemma bytes_of_words_range (ws : list Z) :
  Forall (fun b => (0 <= b < 256)%Z) (flat_map Crypto.bytes_of_word ws).
Proof.
  induction ws as [|w ws IH]; simpl; [constructor|].
  repeat (constructor; [apply Z.mod_pos_bound; lia|]). exact IH.
Qed.

Lemma sha256_length (msg : list Z) :
  List.length (Crypto.sha256 msg) = 32%nat.
Proof.
  unfold Crypto.sha256. rewrite bytes_of_words_length, absorb_length;
    reflexivity.
Qed.

Lemma hex_digit_lower (d : Z) :
  (0 <= d < 16)%Z -> is_lower_hex (Crypto.hex_digit d) = true.
Proof.
  intros H.
  assert (Hd : (d = 0 \/ d = 1 \/ d = 2 \/ d = 3 \/ d = 4 \/ d = 5 \/ d = 6
               \/ d = 7 \/ d = 8 \/ d = 9 \/ d = 10 \/ d = 11 \/ d = 12
               \/ d = 13 \/ d = 14 \/ d = 15)%Z) by lia.
  repeat (destruct Hd as [->|Hd]; [reflexivity|]). subst. reflexivity.
Qed.

Lemma hex_of_bytes_format (bs : list Z) :
  Forall (fun b => (0 <= b < 256)%Z) bs ->
  String.length (Crypto.hex_of_bytes bs) = (2 * List.length bs)%nat
  /\ all_chars is_lower_hex (Crypto.hex_of_bytes bs) = true.
Proof.
  induction 1 as [|b bs Hb _ [IHl IHc]]; simpl; [auto|].
  rewrite IHl, IHc. split; [lia|].
  rewrite !hex_digit_lower; [reflexivity| |].
  - apply Z.mod_pos_bound. lia.
  - split; [apply Z.div_pos; lia|apply Z.div_lt_upper_bound; lia].
Qed.

(** The digest Node renders: 64 characters, all in [0-9a-f]. *)
Lemma hmac_sha256_hex_format (secret body : string) :
  String.length (Crypto.hmac_sha256_hex secret body) = 64%nat
  /\ all_chars is_lower_hex (Crypto.hmac_sha256_hex secret body) = true.
Proof.
  unfold Crypto.hmac_sha256_hex, Crypto.hmac_sha256.
  match goal with
  | |- context [Crypto.hex_of_bytes ?bs] =>
      destruct (hex_of_bytes_format bs) as [Hl Hc];
      [unfold Crypto.sha256 at 1; apply bytes_of_words_range|]
  end.
  rewrite Hl, Hc, sha256_length. auto.
Qed.

(** X13: a signature that is not made of exactly 64 characters among 0-9 and a-f
    (the form of a hex SHA-256 digest) is rejected with Unauthorized before
    any call, for every secret and body: the right digest behind a prefix
    such as sha256= is refused as well. *)
Theorem webhook_rejects_malformed_signature (this : Services)
  (secret : string) (s : Store) (id signature rawBody : string) :
  ConfigService.pagSeguroWebhookSecret (nestConfigService this)
  = Return secret ->
  String.length signature <> 64%nat
  \/ all_chars is_lower_hex signature = false ->
  run (handlePagSeguroNotification this id signature rawBody) s
  = (Throw invalid_signature, mkWorld s []).
Proof.
  intros Hsecret Hbad.
  apply handlePagSeguroNotification_rejects with (secret := secret);
    [exact Hsecret|].
  intros ->.
  destruct (hmac_sha256_hex_format secret rawBody) as [Hl Hc].
  destruct Hbad as [Hn|Hn]; [contradiction|]. rewrite Hc in Hn.
  discriminate Hn.
Qed.

(** A prefixed digest. *)
Lemma webhook_rejects_malformed_signature_witness :
  run (handlePagSeguroNotification (Sample.services "APPROVED" "PAID") "tx1"
         "sha256=5d5b09f6dcb2d53a5fffc60c4ac0d55fabdf556069d6631545f42aa6e3500f2e"
         Sample.body) Sample.store_with_tx1
  = (Throw invalid_signature, mkWorld Sample.store_with_tx1 []).
Proof.
  apply (webhook_rejects_malformed_signature
           (Sample.services "APPROVED" "PAID") "whsec_test"
           Sample.store_with_tx1 "tx1" _ Sample.body).
  - reflexivity.
  - left. simpl. lia.
Defined.

(* ------------------------------------------------------------------ *)
(** ** Webhook: the signature and the body as JavaScript strings *)











(** The encoding of ASCII, two-byte, three-byte and supplementary
    characters, and of unpaired surrogates. *)
Example utf8_examples :
  JsString.utf8 (JsString.of_ascii Sample.body) = Sample.body
  /\ JsString.utf8 [0xE9%N] = String (ascii_of_N 0xC3)
                                (String (ascii_of_N 0xA9) EmptyString)
  /\ JsString.utf8 [0x20AC%N]
     = String (ascii_of_N 0xE2)
         (String (ascii_of_N 0x82) (String (ascii_of_N 0xAC) EmptyString))
  /\ JsString.utf8 [0xD83D%N; 0xDE00%N]
     = String (ascii_of_N 0xF0)
         (String (ascii_of_N 0x9F)
            (String (ascii_of_N 0x98)
               (String (ascii_of_N 0x80) EmptyString)))
  /\ JsString.utf8 [0xD83D%N] = JsString.utf8 [0xFFFD%N]
  /\ JsString.utf8 [0xDE00%N; 0xD83D%N] = JsString.utf8 [0xFFFD%N; 0xFFFD%N]
  /\ JsString.utf8 [0xFFFD%N]
     = String (ascii_of_N 0xEF)
         (String (ascii_of_N 0xBF) (String (ascii_of_N 0xBD) EmptyString)).
Proof. repeat split; reflexivity. Qed.




(* ------------------------------------------------------------------ *)
(** ** Webhook: notifications *)

Lemma truthy_default_nonempty (v : option string) :
  JS.truthy v = true -> JS.nullish_default v "" <> "".
Proof.
  intros H. destruct (truthy_Some v H) as [x [-> Hx]]. exact Hx.
Qed.

(** X14: for every run of the webhook handler, whatever the collaborators
    do: at most one mail is sent; a confirmation is sent only to a
    non-empty address and only for an order that is PAID in the final
    store, a cancellation only to a non-empty address and for an order that
    is CANCELLED there; and a run that sent a mail answers "Status do
    pedido atualizado com sucesso", or fails with the TypeError of the log
    line of its [catch] block (the mailer rejected with [null] or
    [undefined]): no other run sends a mail. *)
Theorem webhook_notifications (this : Services) (s : Store)
  (id signature rawBody : string) (r : Outcome WebhookAck) (w : World) :
  run (handlePagSeguroNotification this id signature rawBody) s = (r, w) ->
  count_events is_notification (trace w) <= 1
  /\ (forall to orderId amount,
         In (SendPaymentConfirmationEmail to orderId amount) (trace w) ->
         to <> "" /\ order_status_of orderId (db w) = Some PAID)
  /\ (forall to orderId,
         In (SendPaymentCancellationEmail to orderId) (trace w) ->
         to <> "" /\ order_status_of orderId (db w) = Some CANCELLED)
  /\ (count_events is_notification (trace w) = 0
      \/ r = Return (mkWebhookAck "Status do pedido atualizado com sucesso")
      \/ exists v, r = Throw (Raised (type_error v "message"))).
Proof.
  assert (Hquiet : forall (r0 : Outcome WebhookAck) (s0 : Store)
                          (t : list Event),
             forallb (fun e => negb (is_notification e)) t = true ->
             count_events is_notification t <= 1
             /\ (forall to orderId amount,
                    In (SendPaymentConfirmationEmail to orderId amount) t ->
                    to <> "" /\ order_status_of orderId s0 = Some PAID)
             /\ (forall to orderId,
                    In (SendPaymentCancellationEmail to orderId) t ->
                    to <> "" /\ order_status_of orderId s0 = Some CANCELLED)
             /\ (count_events is_notification t = 0
                 \/ r0 = Return (mkWebhookAck
                                   "Status do pedido atualizado com sucesso")
                 \/ exists v, r0 = Throw (Raised (type_error v "message")))).
  { intros r0 s0 t Hall.
    rewrite (count_events_none _ _ Hall).
    rewrite forallb_forall in Hall.
    split; [lia|]. split; [|split; [|left; reflexivity]].
    - intros to oid amt Hin. apply Hall in Hin. discriminate Hin.
    - intros to oid Hin. apply Hall in Hin. discriminate Hin. }
  unfold run, handlePagSeguroNotification.
  unfold bind at 1. unfold lift at 1.
  destruct (ConfigService.pagSeguroWebhookSecret (nestConfigService this))
    as [secret|e0];
    [|intros H; injection H as <- <-; now apply Hquiet].
  destruct (negb (signature =? Crypto.hmac_sha256_hex secret rawBody));
    [intros H; injection H as <- <-; now apply Hquiet|].
  unfold bind at 1. unfold call at 1. cbn [db trace app].
  destruct (getCheckoutDetails (pagSeguroService this) id) as [d|e1];
    [|intros H; injection H as <- <-; now apply Hquiet].
  unfold bind at 1. unfold Prisma.transaction_findFirst_with_order.
  unfold bind at 1. unfold read_db at 1. unfold call at 1.
  cbn [db trace app].
  destruct (db_read_fault (prisma this) id) as [e2|];
    [intros H; injection H as <- <-; now apply Hquiet|].
  destruct (Prisma.find_transaction_by_gateway id s) as [t|] eqn:Ht;
    [|intros H; injection H as <- <-; now apply Hquiet].
  destruct (JS.opt_field (tx_orderId t) (fun oid => Prisma.find_order oid s))
    as [order|] eqn:Ho;
    [|intros H; injection H as <- <-; now apply Hquiet].
  set (new := mapPagSeguroStatusToOrderStatus (pagSeguroTransactionStatus d)).
  destruct ((tx_status t =? OrderStatus_name new)
            && OrderStatus_eqb (order_status order) new);
    [intros H; injection H as <- <-; now apply Hquiet|].
  unfold bind at 1. unfold Prisma.transaction.
  unfold bind at 1. unfold read_db at 1.
  unfold bind at 1. unfold call at 1. cbn [db trace app].
  destruct (Prisma.run_writes (prisma this) _ s) as [s'|e3] eqn:Hw;
    [|intros H; injection H as <- <-; now apply Hquiet].
  destruct (status_after_status_update _ _ _ _ _ _ Hw) as [_ Hstatus].
  unfold write_db at 1. unfold bind at 1. rewrite try_catch_log.
  cbn [db trace].
  (* the calls made after the commit *)
  match goal with
  | |- (let (o, w') := match ?m ?w0 with _ => _ end in _) = _ -> _ =>
      assert (Hm : forall o w1,
                 m w0 = (o, w1) ->
                 db w1 = s'
                 /\ count_events is_notification (trace w1) <= 1
                 /\ (forall to oid amt,
                        In (SendPaymentConfirmationEmail to oid amt)
                           (trace w1) ->
                        to <> "" /\ oid = order_id order /\ new = PAID)
                 /\ (forall to oid,
                        In (SendPaymentCancellationEmail to oid) (trace w1) ->
                        to <> "" /\ oid = order_id order /\ new = CANCELLED));
      [|destruct (m w0) as [o w1] eqn:Hmw;
        destruct (Hm o w1 eq_refl) as (Hdb1 & Hcount & Hconf & Hcanc)]
  end.
  { assert (Hsilent : forall (o : Outcome unit) (o' : Outcome unit)
                             (t0 : list Event) (w1 : World),
               forallb (fun e => negb (is_notification e)) t0 = true ->
               (o, mkWorld s' t0) = (o', w1) ->
               db w1 = s'
               /\ count_events is_notification (trace w1) <= 1
               /\ (forall to oid amt,
                      In (SendPaymentConfirmationEmail to oid amt)
                         (trace w1) ->
                      to <> "" /\ oid = order_id order /\ new = PAID)
               /\ (forall to oid,
                      In (SendPaymentCancellationEmail to oid) (trace w1) ->
                      to <> "" /\ oid = order_id order /\ new = CANCELLED)).
    { intros o o' t0 w1 Hall H. injection H as _ <-. cbn [db trace].
      rewrite (count_events_none _ _ Hall).
      rewrite forallb_forall in Hall.
      split; [reflexivity|]. split; [lia|]. split.
      - intros to oid amt Hin. apply Hall in Hin. discriminate Hin.
      - intros to oid Hin. apply Hall in Hin. discriminate Hin. }
    assert (Hmail : forall (a : option string) (t0 : list Event)
                           (o : Outcome unit) (w1 : World),
               forallb (fun e => negb (is_notification e)) t0 = true ->
               (if JS.truthy a
                then
                  if OrderStatus_eqb new PAID
                  then
                    call (SendPaymentConfirmationEmail
                            (JS.nullish_default a "") (order_id order)
                            (toNumber (order_totalAmount order)))
                         (sendPaymentConfirmationEmail
                            (notificationsService this)
                            (JS.nullish_default a "") (order_id order)
                            (toNumber (order_totalAmount order)))
                  else
                    if OrderStatus_eqb new CANCELLED
                    then
                      call (SendPaymentCancellationEmail
                              (JS.nullish_default a "") (order_id order))
                           (sendPaymentCancellationEmail
                              (notificationsService this)
                              (JS.nullish_default a "") (order_id order))
                    else ret tt
                else ret tt) (mkWorld s' t0) = (o, w1) ->
               db w1 = s'
               /\ count_events is_notification (trace w1) <= 1
               /\ (forall to oid amt,
                      In (SendPaymentConfirmationEmail to oid amt)
                         (trace w1) ->
                      to <> "" /\ oid = order_id order /\ new = PAID)
               /\ (forall to oid,
                      In (SendPaymentCancellationEmail to oid) (trace w1) ->
                      to <> "" /\ oid = order_id order /\ new = CANCELLED)).
    { intros a t0 o w1 Hall.
      pose proof (count_events_none _ _ Hall) as Hzero.
      pose proof Hall as Hall'. rewrite forallb_forall in Hall'.
      destruct (JS.truthy a) eqn:Ha; [|apply Hsilent; exact Hall].
      pose proof (truthy_default_nonempty a Ha) as Hne.
      destruct (OrderStatus_eqb new PAID) eqn:Hp;
        [|destruct (OrderStatus_eqb new CANCELLED) eqn:Hc;
          [|apply Hsilent; exact Hall]];
        unfold call; cbn [db trace]; intros H; injection H as _ <-;
        cbn [db trace]; (split; [reflexivity|]);
        (split; [rewrite count_events_app, Hzero; cbn; lia|]).
      - apply OrderStatus_eqb_eq in Hp. split.
        + intros to oid amt Hin. apply in_app_or in Hin.
          destruct Hin as [Hin|[Hin|[]]];
            [apply Hall' in Hin; discriminate Hin|].
          injection Hin as <- <- _. auto.
        + intros to oid Hin. apply in_app_or in Hin.
          destruct Hin as [Hin|[Hin|[]]];
            [apply Hall' in Hin; discriminate Hin|discriminate Hin].
      - apply OrderStatus_eqb_eq in Hc. split.
        + intros to oid amt Hin. apply in_app_or in Hin.
          destruct Hin as [Hin|[Hin|[]]];
            [apply Hall' in Hin; discriminate Hin|discriminate Hin].
        + intros to oid Hin. apply in_app_or in Hin.
          destruct Hin as [Hin|[Hin|[]]];
            [apply Hall' in Hin; discriminate Hin|].
          injection Hin as <- <-. auto. }
    intros o w1.
    unfold bind at 1.
    destruct (JS.truthy (order_userId order)).
    - unfold bind at 1. unfold findOneById. unfold bind at 1.
      unfold read_db at 1. unfold call at 1. cbn [db trace app].
      destruct (orders_fault (ordersService this) (order_id order))
        as [e|]; [apply Hsilent; reflexivity|].
      destruct (Prisma.find_order (order_id order) s') as [o'|];
        [|apply Hsilent; reflexivity].
      unfold ret at 1. apply Hmail. reflexivity.
    - unfold ret at 1. apply Hmail. reflexivity. }
  assert (Hfinal : forall r0,
             (r0 = Return (mkWebhookAck
                             "Status do pedido atualizado com sucesso")
              \/ exists v, r0 = Throw (Raised (type_error v "message"))) ->
             (r0, w1) = (r, w) ->
             count_events is_notification (trace w) <= 1
             /\ (forall to orderId amount,
                    In (SendPaymentConfirmationEmail to orderId amount)
                       (trace w) ->
                    to <> "" /\ order_status_of orderId (db w) = Some PAID)
             /\ (forall to orderId,
                    In (SendPaymentCancellationEmail to orderId) (trace w) ->
                    to <> ""
                    /\ order_status_of orderId (db w) = Some CANCELLED)
             /\ (count_events is_notification (trace w) = 0
                 \/ r = Return (mkWebhookAck
                                  "Status do pedido atualizado com sucesso")
                 \/ exists v, r = Throw (Raised (type_error v "message")))).
  { intros r0 Hr0 H. injection H as <- <-. rewrite Hdb1.
    split; [exact Hcount|]. split; [|split; [|right; exact Hr0]].
    - intros to oid amt Hin.
      destruct (Hconf to oid amt Hin) as (H1 & -> & H3).
      split; [exact H1|]. now rewrite Hstatus, H3.
    - intros to oid Hin. destruct (Hcanc to oid Hin) as (H1 & -> & H3).
      split; [exact H1|]. now rewrite Hstatus, H3. }
  destruct o as [[]|[e|v|x]]; cbv beta iota zeta; unfold ret;
    apply Hfinal; eauto.
Qed.

(** The notification that order [o1] is paid: one confirmation, to its
    user. *)
Lemma webhook_notifications_witness :
  let w :=
    snd (run (handlePagSeguroNotification (Sample.services "APPROVED" "PAID")
                "tx1" (Crypto.hmac_sha256_hex "whsec_test" Sample.body)
                Sample.body) Sample.store_with_tx1) in
  In (SendPaymentConfirmationEmail "ana@example.com" "o1" (toNumber 17990%Z)) (trace w)
  /\ count_events is_notification (trace w) <= 1
  /\ order_status_of "o1" (db w) = Some PAID.
Proof.
  intros w.
  assert (Hsent : In (SendPaymentConfirmationEmail "ana@example.com" "o1"
                        (toNumber 17990%Z)) (trace w))
    by (vm_compute; tauto).
  destruct (webhook_notifications (Sample.services "APPROVED" "PAID")
              Sample.store_with_tx1 "tx1"
              (Crypto.hmac_sha256_hex "whsec_test" Sample.body) Sample.body
              (Return (mkWebhookAck "Status do pedido atualizado com sucesso"))
              w)
    as (Hcount & Hconfirmed & _).
  - vm_compute. reflexivity.
  - split; [exact Hsent|]. split; [exact Hcount|].
    exact (proj2 (Hconfirmed _ _ _ Hsent)).
Defined.

(* ------------------------------------------------------------------ *)
(** ** Webhook: the rows of the store *)

Lemma same_order_refl (o : Order) : same_order_but_status o o.
Proof. destruct o; reflexivity. Qed.

Lemma same_transaction_refl (t : Transaction) :
  same_transaction_but_status t t.
Proof. destruct t; reflexivity. Qed.

Lemma Forall2_refl {A : Type} (R : A -> A -> Prop) (l : list A) :
  (forall x, R x x) -> Forall2 R l l.
Proof. intros H. induction l; constructor; auto. Qed.

Lemma Forall2_map_self {A : Type} (R : A -> A -> Prop) (f : A -> A)
  (l : list A) :
  (forall x, R x (f x)) -> Forall2 R l (map f l).
Proof. intros H. induction l; simpl; constructor; auto. Qed.

(** X15: for every run of the webhook handler, the final store has the same
    orders and the same transactions as the initial one, in the same order;
    an order may differ in its status only, a transaction in its status and
    update time only.  The handler neither adds nor removes a row. *)
Theorem webhook_keeps_rows (this : Services) (s : Store)
  (id signature rawBody : string) (r : Outcome WebhookAck) (w : World) :
  run (handlePagSeguroNotification this id signature rawBody) s = (r, w) ->
  Forall2 same_order_but_status (orders s) (orders (db w))
  /\ Forall2 same_transaction_but_status (transactions s)
                                         (transactions (db w)).
Proof.
  intros Hrun.
  destruct (handle_outcomes _ _ _ _ _ _ _ Hrun)
    as [[Hdb _]|(d & t & order & _ & _ & _ & Hw & _)].
  - rewrite Hdb. split; apply Forall2_refl;
      [apply same_order_refl|apply same_transaction_refl].
  - destruct (run_writes_status_update _ _ _ _ _ _ Hw) as (-> & _ & _).
    cbn [orders transactions]. split; apply Forall2_map_self.
    + intros o. destruct (order_id o =? order_id order);
        [destruct o; reflexivity|apply same_order_refl].
    + intros x. destruct (Nat.eqb (tx_id x) (tx_id t));
        [destruct x; reflexivity|apply same_transaction_refl].
Qed.

(** The notification that order [o1] is paid changes the store, and only
    statuses. *)
Lemma webhook_keeps_rows_witness :
  let w :=
    snd (run (handlePagSeguroNotification (Sample.services "APPROVED" "PAID")
                "tx1" (Crypto.hmac_sha256_hex "whsec_test" Sample.body)
                Sample.body) Sample.store_with_tx1) in
  db w <> Sample.store_with_tx1
  /\ Forall2 same_order_but_status (orders Sample.store_with_tx1)
             (orders (db w))
  /\ Forall2 same_transaction_but_status
             (transactions Sample.store_with_tx1) (transactions (db w)).
Proof.
  intros w. split; [vm_compute; discriminate|].
  apply (webhook_keeps_rows (Sample.services "APPROVED" "PAID")
           Sample.store_with_tx1 "tx1"
           (Crypto.hmac_sha256_hex "whsec_test" Sample.body) Sample.body
           (Return (mkWebhookAck "Status do pedido atualizado com sucesso"))
           w).
  vm_compute. reflexivity.
Defined.

Lemma pagSeguroTransactionStatus_default (d : CheckoutDetails) :
  JS.truthy (checkout_status d) = false ->
  JS.truthy (JS.opt_field (JS.first (checkout_charges d)) charge_status)
  = false ->
  pagSeguroTransactionStatus d = "PENDING".
Proof.
  intros H1 H2. unfold pagSeguroTransactionStatus, JS.or_else.
  rewrite H1. revert H2. unfold JS.or_default, JS.truthy.
  destruct (JS.opt_field _ _) as [x|]; [|reflexivity].
  destruct (x =? ""); [reflexivity|discriminate].
Qed.

Lemma find_some_by_key {A : Type} (p q : A -> bool) (l : list A) (x : A) :
  find p l = Some x -> q x = true -> exists y, find q l = Some y.
Proof.
  intros Hp Hq. apply find_some in Hp. destruct Hp as [Hin _].
  destruct (find q l) as [y|] eqn:Hf; [eauto|].
  rewrite (find_none _ _ Hf x Hin) in Hq. discriminate Hq.
Qed.

Lemma run_writes_two (p : PrismaService) (w1 w2 : DbWrite) (s : Store) :
  Prisma.run_writes p [w1; w2] s
  = match Prisma.run_write p w1 s with
    | Return s1 =>
        match Prisma.run_write p w2 s1 with
        | Return s2 => Return s2
        | Throw e => Throw e
        end
    | Throw e => Throw e
    end.
Proof. reflexivity. Qed.

(** The two writes of the webhook handler succeed on a database that
    refuses nothing. *)
Lemma run_writes_status_update_ok (p : PrismaService) (gid : string)
  (new : OrderStatus) (s : Store) (t : Transaction) (order : Order) :
  (forall write, db_fault p write = None) ->
  Prisma.find_transaction_by_gateway gid s = Some t ->
  JS.opt_field (tx_orderId t) (fun oid => Prisma.find_order oid s)
  = Some order ->
  exists s',
    Prisma.run_writes p
      [TransactionUpdateStatus (tx_id t) (OrderStatus_name new);
       OrderUpdateStatus (order_id order) new] s = Return s'.
Proof.
  intros Hdb Ht Ho.
  destruct (find_some_by_key _ (fun x => Nat.eqb (tx_id x) (tx_id t)) _ _ Ht
              (Nat.eqb_refl _)) as [t0 Ht0].
  destruct (tx_orderId t) as [oid|]; simpl in Ho; [|discriminate Ho].
  pose proof (find_order_id _ _ _ Ho) as Hoid.
  rewrite run_writes_two. unfold Prisma.run_write. rewrite !Hdb.
  unfold Prisma.apply_write at 1. unfold Prisma.find_transaction.
  rewrite Ht0.
  unfold Prisma.apply_write. unfold Prisma.find_order at 1.
  cbn [orders]. rewrite Hoid. fold (Prisma.find_order oid s). rewrite Ho.
  eauto.
Qed.

(** X16: the handler imposes the status it derives from the gateway whatever the
    order's current status.  In particular, a correctly signed notification
    whose gateway details carry no status (neither [status] nor
    [charges[0].status]) is read as PENDING: an order that was PAID,
    SHIPPED, ... and its Transaction are set back to PENDING, and no mail
    is sent.  The handler then answers "Status do pedido atualizado com
    sucesso", unless the order has a user and reloading it is rejected with
    [null] or [undefined]: the log line of the [catch] block then throws a
    TypeError, the statuses being already written. *)
Theorem webhook_status_regression (this : Services) (s : Store)
  (id rawBody secret : string) (d : CheckoutDetails)
  (t : Transaction) (order : Order) :
  ConfigService.pagSeguroWebhookSecret (nestConfigService this)
  = Return secret ->
  getCheckoutDetails (pagSeguroService this) id = Return d ->
  JS.truthy (checkout_status d) = false ->
  JS.truthy (JS.opt_field (JS.first (checkout_charges d)) charge_status)
  = false ->
  db_read_fault (prisma this) id = None ->
  (forall write, db_fault (prisma this) write = None) ->
  Prisma.find_transaction_by_gateway id s = Some t ->
  JS.opt_field (tx_orderId t) (fun oid => Prisma.find_order oid s)
  = Some order ->
  order_status order <> PENDING ->
  exists r w,
    run (handlePagSeguroNotification this id
           (Crypto.hmac_sha256_hex secret rawBody) rawBody) s
    = (r, w)
    /\ order_status_of (order_id order) (db w) = Some PENDING
    /\ transaction_status (tx_id t) (db w) = Some "PENDING"
    /\ count_events is_notification (trace w) = 0
    /\ r = match (if JS.truthy (order_userId order)
                  then orders_fault (ordersService this) (order_id order)
                  else None) with
           | Some (ThrownNullish v) => Throw (Raised (type_error v "message"))
           | _ => Return (mkWebhookAck
                            "Status do pedido atualizado com sucesso")
           end.
Proof.
  intros Hsecret Hd Hs1 Hs2 Hrf Hdb Ht Ho Hprev.
  pose proof (pagSeguroTransactionStatus_default d Hs1 Hs2) as Hstatus.
  assert (Hnew : mapPagSeguroStatusToOrderStatus
                   (pagSeguroTransactionStatus d) = PENDING)
    by (rewrite Hstatus; reflexivity).
  destruct (run_writes_status_update_ok (prisma this) id PENDING s t order
              Hdb Ht Ho) as [s' Hw].
  destruct (status_after_status_update _ _ _ _ _ _ Hw) as [H1 H2].
  enter_webhook Hsecret Hd Hrf. rewrite Ht, Ho, Hnew.
  assert (Hsame : (tx_status t =? OrderStatus_name PENDING)
                  && OrderStatus_eqb (order_status order) PENDING = false).
  { apply andb_false_iff. right.
    destruct (OrderStatus_eqb (order_status order) PENDING) eqn:E;
      [|reflexivity].
    apply OrderStatus_eqb_eq in E. contradiction. }
  rewrite Hsame.
  unfold bind at 1. unfold Prisma.transaction.
  unfold bind at 1. unfold read_db at 1.
  unfold bind at 1. unfold call at 1. cbn [db trace app]. rewrite Hw.
  unfold write_db at 1. unfold bind at 1. rewrite try_catch_log.
  cbn [OrderStatus_eqb].
  unfold bind at 1.
  destruct (JS.truthy (order_userId order)).
  - unfold bind at 1. unfold findOneById. unfold bind at 1.
    unfold read_db at 1. unfold call at 1. cbn [db trace app].
    destruct (orders_fault (ordersService this) (order_id order))
      as [[e|v|x]|];
      [| | |destruct (Prisma.find_order (order_id order) s') as [o'|]];
      cbv beta iota zeta; unfold ret, throw; cbv beta iota zeta;
      try match goal with
          | |- context [if JS.truthy ?a then _ else _] =>
              destruct (JS.truthy a)
          end;
      cbv beta iota zeta;
      eexists; eexists; (split; [reflexivity|]); cbn [db trace];
      repeat (split; [assumption || reflexivity|]); reflexivity.
  - unfold ret at 1.
    destruct (JS.truthy (order_guestEmail order));
      cbv beta iota zeta; unfold ret; cbv beta iota zeta;
      eexists; eexists; (split; [reflexivity|]); cbn [db trace];
      repeat (split; [assumption || reflexivity|]); reflexivity.
Qed.

(** The paid order [o1] is set back to PENDING by an empty gateway answer. *)
Lemma webhook_status_regression_witness :
  exists w,
    run (handlePagSeguroNotification
           (Scenario.with_gateway Scenario.gateway_terse) "tx1"
           (Crypto.hmac_sha256_hex "whsec_test" Sample.body) Sample.body)
        Scenario.store_paid
    = (Return (mkWebhookAck "Status do pedido atualizado com sucesso"), w)
    /\ order_status_of "o1" (db w) = Some PENDING
    /\ transaction_status 1 (db w) = Some "PENDING".
Proof.
  destruct (webhook_status_regression
              (Scenario.with_gateway Scenario.gateway_terse)
              Scenario.store_paid
              "tx1" Sample.body "whsec_test"
              (mkCheckoutDetails None None None None)
              (Prisma.set_transaction_status Sample.now "PAID"
                 Sample.tx_pix_tx1)
              (Prisma.set_order_status PAID Sample.order_o1))
    as (r & w & Hrun & Ho & Ht & _ & Hr).
  - reflexivity.
  - reflexivity.
  - reflexivity.
  - reflexivity.
  - reflexivity.
  - reflexivity.
  - reflexivity.
  - reflexivity.
  - simpl. discriminate.
  - exists w. rewrite Hrun, Hr. repeat split; assumption.
Defined.

(* ------------------------------------------------------------------ *)
(** ** Reconstruction from the stored row *)

(** X17: when the re-query of the gateway succeeds but brings nothing usable,
    the reconstruction helpers answer from the stored row: no QR code gives
    the stored PIX response, neither id nor PAY link gives the stored
    redirect response, and neither status nor charge gives the stored card
    status, here with the stored [transactionRef] as it is (possibly null,
    where the fallback after a failed re-query gives the empty string). *)
Theorem reconstruction_from_empty_answer (this : Services)
  (transaction : Transaction) (gid : string) (w : World) :
  tx_gatewayTransactionId transaction = Some gid ->
  gid <> "" ->
  (forall d,
      getOrderDetails (pagSeguroService this) gid = Return d ->
      JS.first (qr_codes d) = None ->
      buildPixResponseFromTransaction this transaction w
      = (Return (stored_pix_response gid transaction),
         mkWorld (db w) (trace w ++ [GetOrderDetails gid])))
  /\ (forall d,
         getCheckoutDetails (pagSeguroService this) gid = Return d ->
         checkout_id d = None ->
         find_link "PAY" (checkout_links d) = None ->
         buildExistingRedirectResponse this transaction w
         = (Return (stored_redirect_response gid transaction),
            mkWorld (db w) (trace w ++ [GetCheckoutDetails gid])))
  /\ (forall d,
         getCheckoutDetails (pagSeguroService this) gid = Return d ->
         checkout_status d = None ->
         JS.first (checkout_charges d) = None ->
         buildExistingDirectCardResponse this transaction w
         = (Return
              (CardExisting
                 (mkExistingCardResponse gid (tx_status transaction)
                    (tx_transactionRef transaction)
                    (toNumber (tx_amount transaction))
                    (JS.nullish_default (tx_description transaction) "")
                    (JS.nullish_default (tx_orderId transaction) ""))),
            mkWorld (db w) (trace w ++ [GetCheckoutDetails gid]))).
Proof.
  intros Hgid Hne. pose proof (truthy_Some_intro gid Hne) as Htr.
  split; [|split]; intros d Hd.
  - intros Hqr. unfold buildPixResponseFromTransaction.
    rewrite Hgid, Htr. cbn [negb JS.nullish_default].
    unfold try_catch, bind, call, ret. rewrite Hd, Hqr. cbn.
    unfold stored_pix_response. repeat f_equal.
    destruct (tx_transactionRef transaction) as [x|]; [|reflexivity].
    simpl. destruct (String.eqb_spec x ""); [now subst|reflexivity].
  - intros Hid Hpay. unfold buildExistingRedirectResponse.
    rewrite Hgid, Htr. cbn [negb JS.nullish_default].
    unfold try_catch, bind, call, ret. rewrite Hd, Hid, Hpay. reflexivity.
  - intros Hst Hch. unfold buildExistingDirectCardResponse.
    rewrite Hgid, Htr. cbn [negb JS.nullish_default].
    unfold try_catch, bind, call, ret. rewrite Hd, Hst, Hch. reflexivity.
Qed.

(** The gateway answers the re-query of [tx1] with no QR code. *)
Lemma reconstruction_from_empty_answer_witness :
  buildPixResponseFromTransaction
    (Scenario.with_gateway Scenario.gateway_terse) Sample.tx_pix_tx1
    (mkWorld Sample.store_with_tx1 [])
  = (Return (stored_pix_response "tx1" Sample.tx_pix_tx1),
     mkWorld Sample.store_with_tx1 [GetOrderDetails "tx1"]).
Proof.
  apply (proj1 (reconstruction_from_empty_answer
                  (Scenario.with_gateway Scenario.gateway_terse)
                  Sample.tx_pix_tx1 "tx1" (mkWorld Sample.store_with_tx1 [])
                  eq_refl
                  (fun H : "tx1" = "" =>
                     eq_ind "tx1"
                       (fun s => match s with
                                 | EmptyString => False
                                 | String _ _ => True
                                 end) I "" H))
           (mkOrderDetails None)).
  - reflexivity.
  - reflexivity.
Defined.

(** X18: [mapPixStatus] answers COMPLETED exactly for PAID, CONFIRMED and
    COMPLETED, CANCELED exactly for CANCELED, EXPIRED exactly for EXPIRED,
    FAILED exactly for FAILED, and PENDING for an absent status.  Composed
    with the status names the webhook handler stores in a Transaction
    (those of OrderStatus), only PAID is recognised: a Transaction stored
    as CANCELLED (two L) is reported as PENDING. *)
Theorem mapPixStatus_cases :
  (forall s : string,
      mapPixStatus (Some s) = PIX_COMPLETED
      <-> s = "PAID" \/ s = "CONFIRMED" \/ s = "COMPLETED")
  /\ (forall s : string, mapPixStatus (Some s) = PIX_CANCELED <-> s = "CANCELED")
  /\ (forall s : string, mapPixStatus (Some s) = PIX_EXPIRED <-> s = "EXPIRED")
  /\ (forall s : string, mapPixStatus (Some s) = PIX_FAILED <-> s = "FAILED")
  /\ mapPixStatus None = PIX_PENDING
  /\ (forall status : OrderStatus,
         mapPixStatus (Some (OrderStatus_name status))
         = match status with
           | PAID => PIX_COMPLETED
           | _ => PIX_PENDING
           end).
Proof.
  assert (Hcases : forall s,
             (s = "PAID" \/ s = "CONFIRMED" \/ s = "COMPLETED")
             /\ mapPixStatus (Some s) = PIX_COMPLETED
             \/ s = "CANCELED" /\ mapPixStatus (Some s) = PIX_CANCELED
             \/ s = "EXPIRED" /\ mapPixStatus (Some s) = PIX_EXPIRED
             \/ s = "FAILED" /\ mapPixStatus (Some s) = PIX_FAILED
             \/ (s <> "PAID" /\ s <> "CONFIRMED" /\ s <> "COMPLETED"
                 /\ s <> "CANCELED" /\ s <> "EXPIRED" /\ s <> "FAILED")
                /\ mapPixStatus (Some s) = PIX_PENDING).
  { intros s. unfold mapPixStatus.
    destruct (String.eqb_spec s "PAID") as [->|H1]; [left; auto|].
    destruct (String.eqb_spec s "CONFIRMED") as [->|H2]; [left; auto|].
    destruct (String.eqb_spec s "COMPLETED") as [->|H3]; [left; auto|].
    cbn [orb].
    destruct (String.eqb_spec s "CANCELED") as [->|H4]; [right; left; auto|].
    destruct (String.eqb_spec s "EXPIRED") as [->|H5];
      [right; right; left; auto|].
    destruct (String.eqb_spec s "FAILED") as [->|H6];
      [right; right; right; left; auto|].
    right. right. right. right. auto 10. }
  assert (Hiff : forall s,
             (mapPixStatus (Some s) = PIX_COMPLETED
              <-> s = "PAID" \/ s = "CONFIRMED" \/ s = "COMPLETED")
             /\ (mapPixStatus (Some s) = PIX_CANCELED <-> s = "CANCELED")
             /\ (mapPixStatus (Some s) = PIX_EXPIRED <-> s = "EXPIRED")
             /\ (mapPixStatus (Some s) = PIX_FAILED <-> s = "FAILED")).
  { intros s.
    destruct (Hcases s)
      as [[Hs Hm]|[[Hs Hm]|[[Hs Hm]|[[Hs Hm]|[Hs Hm]]]]]; rewrite Hm.
    - repeat split; intros H; try discriminate H; try exact Hs;
        destruct Hs as [-> | [-> | ->]]; discriminate H.
    - repeat split; intros H; try discriminate H; try exact Hs;
        subst; try discriminate; destruct H as [H|[H|H]]; discriminate H.
    - repeat split; intros H; try discriminate H; try exact Hs;
        subst; try discriminate; destruct H as [H|[H|H]]; discriminate H.
    - repeat split; intros H; try discriminate H; try exact Hs;
        subst; try discriminate; destruct H as [H|[H|H]]; discriminate H.
    - destruct Hs as (H1 & H2 & H3 & H4 & H5 & H6).
      repeat split; intros H; try discriminate H; try contradiction;
        destruct H as [H|[H|H]]; contradiction. }
  split; [intros s; apply Hiff|]. split; [intros s; apply Hiff|].
  split; [intros s; apply Hiff|]. split; [intros s; apply Hiff|].
  split; [reflexivity|]. intros status. destruct status; reflexivity.
Qed.

(** A cancelled transaction reads as pending. *)
Lemma mapPixStatus_cases_witness :
  mapPixStatus (Some (OrderStatus_name CANCELLED)) = PIX_PENDING.
Proof.
  exact (proj2 (proj2 (proj2 (proj2 (proj2 mapPixStatus_cases)))) CANCELLED).
Defined.

(* ------------------------------------------------------------------ *)
(** ** Initiation: effects on the store, for every outcome *)

Lemma quiet_reconstruction (this : Services) (transaction : Transaction) :
  quiet (buildPixResponseFromTransaction this transaction)
  /\ quiet (buildExistingDirectCardResponse this transaction)
  /\ quiet (buildExistingRedirectResponse this transaction).
Proof.
  unfold buildPixResponseFromTransaction, buildExistingDirectCardResponse,
    buildExistingRedirectResponse.
  repeat split; quiet_tac.
Qed.

Lemma reconstruction_creates_nothing (this : Services)
  (transaction : Transaction) :
  adds_only not_gateway_create
    (buildPixResponseFromTransaction this transaction)
  /\ adds_only not_gateway_create
       (buildExistingDirectCardResponse this transaction)
  /\ adds_only not_gateway_create
       (buildExistingRedirectResponse this transaction).
Proof.
  unfold buildPixResponseFromTransaction, buildExistingDirectCardResponse,
    buildExistingRedirectResponse.
  repeat split; adds_only_tac.
Qed.

Lemma count_events_lookup_only (t : list Event) (orderId : string) :
  incl t [OrdersFindOneById orderId] ->
  count_events is_gateway_create t = 0.
Proof.
  intros Hincl. apply count_events_none. apply forallb_forall.
  intros x Hin. apply Hincl in Hin. destruct Hin as [<-|[]]. reflexivity.
Qed.

Lemma count_events_not (t : list Event) :
  forallb not_gateway_create t = true ->
  count_events is_gateway_create t = 0.
Proof. apply count_events_none. Qed.

Ltac store_untouched Hleaf :=
  let H := fresh "H" in
  intros H; injection H as _ <-; apply Hleaf;
  [reflexivity|unfold count_events; cbn; lia].

Ltac fails_untouched Hleaf :=
  rewrite rethrow_or_generalize_run; store_untouched Hleaf.

(** X19: for every run of an initiation operation, whatever its outcome and
    whatever the collaborators do: the gateway-create operation is called
    at most once; the orders are the initial ones but for their status;
    and either the store is the initial one, or exactly one Transaction,
    for this order, was appended after exactly one gateway-create call, the
    orders being changed only by a card payment whose Transaction is
    PAID. *)
Theorem initiation_store_effects (this : Services) (op : Initiation)
  (orderId : string) (s : Store) (r : Outcome InitiationResponse)
  (w : World) :
  run (initiate this op orderId) s = (r, w) ->
  count_events is_gateway_create (trace w) <= 1
  /\ Forall2 same_order_but_status (orders s) (orders (db w))
  /\ (db w = s
      \/ exists t,
           transactions (db w) = (transactions s ++ [t])%list
           /\ tx_orderId t = Some orderId
           /\ count_events is_gateway_create (trace w) = 1
           /\ (orders (db w) = orders s
               \/ tx_status t = "PAID"
                  /\ exists u dto, op = CreditCardPayment u dto)).
Proof.
  assert (Hleaf : forall w1,
             db w1 = s ->
             count_events is_gateway_create (trace w1) <= 1 ->
             count_events is_gateway_create (trace w1) <= 1
             /\ Forall2 same_order_but_status (orders s) (orders (db w1))
             /\ (db w1 = s
                 \/ exists t,
                      transactions (db w1) = (transactions s ++ [t])%list
                      /\ tx_orderId t = Some orderId
                      /\ count_events is_gateway_create (trace w1) = 1
                      /\ (orders (db w1) = orders s
                          \/ tx_status t = "PAID"
                             /\ exists u dto, op = CreditCardPayment u dto))).
  { intros w1 Hdb Hc. split; [exact Hc|]. rewrite Hdb.
    split; [|left; reflexivity].
    apply Forall2_refl, same_order_refl. }
  assert (Hexisting : forall A (m : M A) (f : A -> InitiationResponse) w0,
             db w0 = s -> count_events is_gateway_create (trace w0) = 0 ->
             quiet m -> adds_only not_gateway_create m ->
             (let (o, w') := m w0 in
              match o with
              | Return a => (Return (f a), w')
              | Throw e => (Throw e, w')
              end) = (r, w) ->
             count_events is_gateway_create (trace w) <= 1
             /\ Forall2 same_order_but_status (orders s) (orders (db w))
             /\ (db w = s
                 \/ exists t,
                      transactions (db w) = (transactions s ++ [t])%list
                      /\ tx_orderId t = Some orderId
                      /\ count_events is_gateway_create (trace w) = 1
                      /\ (orders (db w) = orders s
                          \/ tx_status t = "PAID"
                             /\ exists u dto, op = CreditCardPayment u dto))).
  { intros A m f w0 Hdb Hcount Hq Ha.
    destruct (m w0) as [o w1] eqn:Hm.
    pose proof (Hq _ _ _ Hm) as Hdb1.
    destruct (Ha _ _ _ Hm) as [t [Ht Hall]].
    assert (Hc : count_events is_gateway_create (trace w1) = 0).
    { rewrite Ht, count_events_app, Hcount, (count_events_not _ Hall).
      reflexivity. }
    destruct o; intros H; injection H as _ <-; apply Hleaf;
      try congruence; lia. }
  intros Hrun.
  destruct (initiate_checks this op orderId s)
    as [[e [w' [H [Hdb Hincl]]]]|[order (Hcard & Hf & Ho & Hs & He)]].
  { rewrite H in Hrun. injection Hrun as _ <-.
    apply Hleaf; [exact Hdb|].
    rewrite (count_events_lookup_only _ _ Hincl). lia. }
  pose proof (find_order_id _ _ _ Ho) as Hoid.
  revert Hrun.
  enter_checks Hcard Hf Ho Hs He;
    (destruct (db_read_fault (prisma this) (order_id order));
     [store_untouched Hleaf|]);
    destruct (Prisma.find_transaction_by_order (order_id order) s)
      as [existing|] eqn:Hex;
    try (apply Hexisting; try reflexivity;
         [apply quiet_reconstruction|apply reconstruction_creates_nothing]);
    destruct (buildPagSeguroPayload order)
      as [[customer shippingAddress] items];
    unfold try_catch at 1; unfold_monad;
    (destruct (analyzeTransaction _ _) as [verdict|e];
     cbv beta iota; cbn [db trace app]; [|fails_untouched Hleaf]);
    (destruct (af_status verdict =? "DENIED"); [fails_untouched Hleaf|]);
    (destruct (ConfigService.backendUrl (nestConfigService this) =? "");
     [fails_untouched Hleaf|]).
  - destruct (createPagSeguroPixCharge _ _ _) as [resp|e];
      [|fails_untouched Hleaf].
    rewrite prisma_write_run. cbn [db trace].
    destruct (Prisma.run_write _ _ s) as [s'|e] eqn:Hw;
      [|fails_untouched Hleaf].
    rewrite (run_write_create_row _ _ _ _ _ Hw eq_refl Hex).
    intros H. injection H as _ <-. cbn [db trace orders transactions].
    split; [unfold count_events; cbn; lia|].
    split; [apply Forall2_refl, same_order_refl|].
    right. eexists. split; [reflexivity|]. rewrite <- Hoid.
    repeat split; auto.
  - destruct (processDirectCreditCardPayment _ _ _ _) as [resp|e];
      [|fails_untouched Hleaf].
    rewrite prisma_write_run. cbn [db trace].
    destruct (Prisma.run_write _ _ s) as [s'|e] eqn:Hw;
      [|fails_untouched Hleaf].
    rewrite (run_write_create_row _ _ _ _ _ Hw eq_refl Hex).
    destruct (String.eqb_spec (cc_status resp) (OrderStatus_name PAID))
      as [Hpaid|Hpaid].
    + rewrite prisma_write_run. cbn [db trace].
      destruct (Prisma.run_write _ (OrderUpdateStatus _ _) _)
        as [s''|e] eqn:Hw2.
      * rewrite (run_write_order_update_store _ _ _ _ _ Hw2).
        rewrite try_catch_log.
        destruct (JS.truthy (JS.nullish _ _));
          [try unfold call;
           destruct (sendPaymentConfirmationEmail _ _ _ _) as [[]|[e|v|x]]|];
          cbv beta iota zeta; cbn [db trace app];
          rewrite ?rethrow_or_generalize_run;
          intros H; injection H as _ <-;
          cbn [db trace orders transactions];
          (split; [unfold count_events; cbn; lia|]);
          (split;
           [apply Forall2_map_self; intros o;
            destruct (order_id o =? order_id order);
            [destruct o; reflexivity|apply same_order_refl]|]);
          right; eexists; (split; [reflexivity|]); rewrite <- Hoid;
          repeat split; eauto.
      * rewrite rethrow_or_generalize_run.
        intros H. injection H as _ <-. cbn [db trace orders transactions].
        split; [unfold count_events; cbn; lia|].
        split; [apply Forall2_refl, same_order_refl|].
        right. eexists. split; [reflexivity|]. rewrite <- Hoid.
        repeat split; auto.
    + intros H. injection H as _ <-. cbn [db trace orders transactions].
      split; [unfold count_events; cbn; lia|].
      split; [apply Forall2_refl, same_order_refl|].
      right. eexists. split; [reflexivity|]. rewrite <- Hoid.
      repeat split; auto.
  - destruct (createPagSeguroCheckoutRedirect _ _ _) as [resp|e];
      [|fails_untouched Hleaf].
    rewrite prisma_write_run. cbn [db trace].
    destruct (Prisma.run_write _ _ s) as [s'|e] eqn:Hw;
      [|fails_untouched Hleaf].
    rewrite (run_write_create_row _ _ _ _ _ Hw eq_refl Hex).
    intros H. injection H as _ <-. cbn [db trace orders transactions].
    split; [unfold count_events; cbn; lia|].
    split; [apply Forall2_refl, same_order_refl|].
    right. eexists. split; [reflexivity|]. rewrite <- Hoid.
    repeat split; auto.
Qed.

(** The card payment of order [o1], answered PAID. *)
Lemma initiation_store_effects_witness :
  let w :=
    snd (run (initiate (Sample.services "APPROVED" "PAID")
                (CreditCardPayment (Some "u1") Sample.complete_card) "o1")
             Sample.store0) in
  count_events is_gateway_create (trace w) <= 1
  /\ Forall2 same_order_but_status (orders Sample.store0) (orders (db w))
  /\ (db w = Sample.store0
      \/ exists t,
           transactions (db w) = [t]
           /\ tx_orderId t = Some "o1"
           /\ count_events is_gateway_create (trace w) = 1
           /\ (orders (db w) = orders Sample.store0
               \/ tx_status t = "PAID"
                  /\ exists u dto,
                       CreditCardPayment (Some "u1") Sample.complete_card
                       = CreditCardPayment u dto)).
Proof.
  intros w.
  apply (initiation_store_effects (Sample.services "APPROVED" "PAID")
           (CreditCardPayment (Some "u1") Sample.complete_card) "o1"
           Sample.store0
           (Return (CardPaymentResponse
                      (CardCharged
                         (mkCardChargeResult "ch1" "PAID" "ref-ch1"))))
           w).
  reflexivity.
Defined.

(* ------------------------------------------------------------------ *)
(** ** Initiation: the order of the calls *)

Lemma Number_eqb_refl (x : Number) : Number_eqb x x = true.
Proof.
  destruct x as [b|b| |b m e]; simpl;
    rewrite ?Bool.eqb_reflx, ?Pos.eqb_refl, ?Z.eqb_refl; reflexivity.
Qed.

Lemma in_order_queries (t : list Event) (previous : option Event) :
  forallb is_query t = true -> in_order previous t = true.
Proof.
  revert previous. induction t as [|e t IH]; intros previous; simpl;
    [reflexivity|].
  intros H. apply andb_true_iff in H. destruct H as [He Ht].
  rewrite (IH _ Ht). destruct e; try discriminate He; reflexivity.
Qed.

Lemma in_order_app_queries (t1 t2 : list Event) (previous : option Event) :
  in_order previous t1 = true -> forallb is_query t2 = true ->
  in_order previous (t1 ++ t2) = true.
Proof.
  revert previous. induction t1 as [|e t1 IH]; intros previous; simpl.
  - intros _. apply in_order_queries.
  - intros H Hq. apply andb_true_iff in H. destruct H as [He Ht].
    now rewrite He, IH.
Qed.

Lemma reconstruction_queries_only (this : Services)
  (transaction : Transaction) :
  adds_only is_query (buildPixResponseFromTransaction this transaction)
  /\ adds_only is_query (buildExistingDirectCardResponse this transaction)
  /\ adds_only is_query (buildExistingRedirectResponse this transaction).
Proof.
  unfold buildPixResponseFromTransaction, buildExistingDirectCardResponse,
    buildExistingRedirectResponse.
  repeat split; adds_only_tac.
Qed.

Lemma lookup_only_queries (t : list Event) (orderId : string) :
  incl t [OrdersFindOneById orderId] -> forallb is_query t = true.
Proof.
  intros Hincl. apply forallb_forall.
  intros x Hin. apply Hincl in Hin. destruct Hin as [<-|[]]. reflexivity.
Qed.

Ltac calls_in_order :=
  let H := fresh "H" in
  intros H; injection H as _ <-; cbn [trace in_order may_follow
    charge_request_of req_orderId req_amount af_orderId af_amount
    new_orderId new_amount new_status charge_request andb
    JS.option_string_eqb];
  rewrite ?String.eqb_refl, ?Z.eqb_refl, ?Number_eqb_refl; reflexivity.

Ltac fails_in_order :=
  rewrite rethrow_or_generalize_run; calls_in_order.

(** X20: for every run of an initiation operation, whatever its outcome, the
    calls on the collaborators follow the protocol [may_follow]: the
    gateway is asked to create a charge only right after the antifraud
    analysis of the same order and amount; a Transaction is created only
    right after the gateway-create call, for the order and amount charged;
    the order is updated only right after the creation of its Transaction,
    to the status stored there; the confirmation is mailed only right after
    the order was set to PAID. *)
Theorem initiation_call_order (this : Services) (op : Initiation)
  (orderId : string) (s : Store) (r : Outcome InitiationResponse)
  (w : World) :
  run (initiate this op orderId) s = (r, w) ->
  in_order None (trace w) = true.
Proof.
  assert (Hexisting : forall A (m : M A) (f : A -> InitiationResponse) w0,
             in_order None (trace w0) = true ->
             adds_only is_query m ->
             (let (o, w') := m w0 in
              match o with
              | Return a => (Return (f a), w')
              | Throw e => (Throw e, w')
              end) = (r, w) ->
             in_order None (trace w) = true).
  { intros A m f w0 H0 Ha.
    destruct (m w0) as [o w1] eqn:Hm.
    destruct (Ha _ _ _ Hm) as [t [Ht Hall]].
    destruct o; intros H; injection H as _ <-; rewrite Ht;
      now apply in_order_app_queries. }
  intros Hrun.
  destruct (initiate_checks this op orderId s)
    as [[e [w' [H [Hdb Hincl]]]]|[order (Hcard & Hf & Ho & Hs & He)]].
  { rewrite H in Hrun. injection Hrun as _ <-.
    apply in_order_queries. eapply lookup_only_queries; eauto. }
  revert Hrun.
  enter_checks Hcard Hf Ho Hs He;
    (destruct (db_read_fault (prisma this) (order_id order));
     [calls_in_order|]);
    destruct (Prisma.find_transaction_by_order (order_id order) s)
      as [existing|] eqn:Hex;
    try (apply Hexisting; [reflexivity|apply reconstruction_queries_only]);
    destruct (buildPagSeguroPayload order)
      as [[customer shippingAddress] items];
    unfold try_catch at 1; unfold_monad;
    (destruct (analyzeTransaction _ _) as [verdict|e];
     cbv beta iota; cbn [db trace app]; [|fails_in_order]);
    (destruct (af_status verdict =? "DENIED"); [fails_in_order|]);
    (destruct (ConfigService.backendUrl (nestConfigService this) =? "");
     [fails_in_order|]).
  - destruct (createPagSeguroPixCharge _ _ _) as [resp|e];
      [|fails_in_order].
    rewrite prisma_write_run. cbn [db trace app].
    destruct (Prisma.run_write _ _ s) as [s'|e] eqn:Hw;
      [|fails_in_order].
    calls_in_order.
  - destruct (processDirectCreditCardPayment _ _ _ _) as [resp|e];
      [|fails_in_order].
    rewrite prisma_write_run. cbn [db trace app].
    destruct (Prisma.run_write _ _ s) as [s'|e] eqn:Hw;
      [|fails_in_order].
    destruct (String.eqb_spec (cc_status resp) (OrderStatus_name PAID))
      as [Hpaid|Hpaid]; [|calls_in_order].
    rewrite prisma_write_run. cbn [db trace app].
    destruct (Prisma.run_write _ (OrderUpdateStatus _ _) _)
      as [s''|e] eqn:Hw2.
    + rewrite try_catch_log.
      destruct (JS.truthy (JS.nullish _ _));
        [try unfold call;
         destruct (sendPaymentConfirmationEmail _ _ _ _) as [[]|[e|v|x]]|];
        cbv beta iota zeta; cbn [db trace app];
        rewrite ?rethrow_or_generalize_run;
        rewrite ?Hpaid; calls_in_order.
    + rewrite Hpaid. fails_in_order.
  - destruct (createPagSeguroCheckoutRedirect _ _ _) as [resp|e];
      [|fails_in_order].
    rewrite prisma_write_run. cbn [db trace app].
    destruct (Prisma.run_write _ _ s) as [s'|e] eqn:Hw;
      [|fails_in_order].
    calls_in_order.
Qed.

(** The calls of the card payment of order [o1] are in order; an order
    update right after the lookup would not be. *)
Lemma initiation_call_order_witness :
  in_order None
    (trace (snd (run (initiate (Sample.services "APPROVED" "PAID")
                        (CreditCardPayment (Some "u1") Sample.complete_card)
                        "o1") Sample.store0)))
  = true
  /\ in_order None
       [OrdersFindOneById "o1";
        PrismaWrite (OrderUpdateStatus "o1" PAID)] = false.
Proof.
  split; [|reflexivity].
  apply (initiation_call_order (Sample.services "APPROVED" "PAID")
           (CreditCardPayment (Some "u1") Sample.complete_card) "o1"
           Sample.store0
           (Return (CardPaymentResponse
                      (CardCharged
                         (mkCardChargeResult "ch1" "PAID" "ref-ch1"))))).
  reflexivity.
Defined.
(* ------------------------------------------------------------------ *)
(** ** Webhook: the signature check on the bytes received *)

(** X21: the signature check comes first and compares the supplied
    signature with the digest of the body it is given.  With the secret
    configured, every signature other than the hex HMAC-SHA256 of the body
    under the secret, in particular the exact signature with any one bit
    inverted, makes the handler throw Unauthorized("Assinatura do webhook
    inválida.") before any call on a collaborator and with the store
    untouched, whatever the checkout id, the store and the collaborators;
    a run that ends otherwise was given the exact signature; and with the
    exact signature the check passes: the first call made is the gateway
    lookup of the checkout id. *)
Theorem webhook_signature_checked_first (this : Services) (secret : string)
  (s : Store) (id signature rawBody : string) :
  ConfigService.pagSeguroWebhookSecret (nestConfigService this)
  = Return secret ->
  (signature <> Crypto.hmac_sha256_hex secret rawBody ->
   run (handlePagSeguroNotification this id signature rawBody) s
   = (Throw invalid_signature, mkWorld s []))
  /\ (run (handlePagSeguroNotification this id signature rawBody) s
      <> (Throw invalid_signature, mkWorld s []) ->
      signature = Crypto.hmac_sha256_hex secret rawBody)
  /\ (forall i : nat,
         i < 8 * String.length (Crypto.hmac_sha256_hex secret rawBody) ->
         run (handlePagSeguroNotification this id
                (flip_bit i (Crypto.hmac_sha256_hex secret rawBody)) rawBody) s
         = (Throw invalid_signature, mkWorld s []))
  /\ (exists r w,
         run (handlePagSeguroNotification this id
                (Crypto.hmac_sha256_hex secret rawBody) rawBody) s = (r, w)
         /\ hd_error (trace w) = Some (GetCheckoutDetails id)).
Proof.
  intros Hsecret.
  assert (Hrej : forall sig,
             sig <> Crypto.hmac_sha256_hex secret rawBody ->
             run (handlePagSeguroNotification this id sig rawBody) s
             = (Throw invalid_signature, mkWorld s [])).
  { intros sig Hne.
    now apply handlePagSeguroNotification_rejects with (secret := secret). }
  split; [apply Hrej|]. split; [|split].
  - intros Hpast.
    destruct (string_dec signature (Crypto.hmac_sha256_hex secret rawBody))
      as [Heq|Hne]; [exact Heq|].
    exfalso. apply Hpast. now apply Hrej.
  - intros i Hi. apply Hrej. now apply flip_bit_neq.
  - now apply handlePagSeguroNotification_verified.
Qed.

(** The exact signature of [Sample.body] with its first bit inverted. *)
Lemma webhook_signature_checked_first_witness :
  run (handlePagSeguroNotification (Sample.services "APPROVED" "PAID") "tx1"
         (flip_bit 0 (Crypto.hmac_sha256_hex "whsec_test" Sample.body))
         Sample.body) Sample.store_with_tx1
  = (Throw invalid_signature, mkWorld Sample.store_with_tx1 []).
Proof.
  apply (proj1 (proj2 (proj2
           (webhook_signature_checked_first
              (Sample.services "APPROVED" "PAID") "whsec_test"
              Sample.store_with_tx1 "tx1" "" Sample.body eq_refl))) 0).
  vm_compute. lia.
Defined.

(* ------------------------------------------------------------------ *)
(** ** Initiation: a re-query rejected with [null] or [undefined] *)

(** X22: when the order already has a transaction with a gateway id and the
    re-query of the gateway is rejected with [null] or [undefined], the
    stored values are not used: the log line of the helper's [catch] block
    reads [error.message] and throws a TypeError, and the initiation fails
    with it, unchanged (the helpers are called outside the operation's
    [try] block), after the order lookup, the transaction lookup and the
    re-query, the store being untouched. *)
Theorem reconstruction_log_line_throws (this : Services) (op : Initiation)
  (orderId : string) (s : Store) (order : Order) (existing : Transaction)
  (gid : string) (v : Nullish) :
  passes_checks this op orderId s order ->
  Prisma.find_transaction_by_order (order_id order) s = Some existing ->
  tx_gatewayTransactionId existing = Some gid ->
  gid <> "" ->
  requery_failure this op gid = Some (ThrownNullish v) ->
  run (initiate this op orderId) s
  = (Throw (type_error v "message"),
     mkWorld s [OrdersFindOneById orderId;
                TransactionFindUnique (order_id order);
                requery op gid]).
Proof.
  intros Hchecks Hex Hgid Hne Hfail.
  destruct (short_circuit this op orderId s order existing gid
              Hchecks Hex Hgid Hne) as (o & Hrun & Ho).
  rewrite Hfail in Ho. now rewrite Hrun, Ho.
Qed.

(** The PIX charge of order [o1], already created, with a gateway whose
    promises reject with [null]. *)
Lemma reconstruction_log_line_throws_witness :
  run (initiate (Scenario.with_gateway Scenario.gateway_rejecting_null)
         (PixCharge "u1") "o1") Sample.store_with_tx1
  = (Throw (exn TypeError
              "Cannot read properties of null (reading 'message')"),
     mkWorld Sample.store_with_tx1
       [OrdersFindOneById "o1"; TransactionFindUnique "o1";
        GetOrderDetails "tx1"]).
Proof.
  assert (Hchecks : passes_checks
                      (Scenario.with_gateway Scenario.gateway_rejecting_null)
                      (PixCharge "u1") "o1" Sample.store_with_tx1
                      Sample.order_o1)
    by (repeat split).
  assert (Hne : "tx1" <> "") by discriminate.
  exact (reconstruction_log_line_throws
           (Scenario.with_gateway Scenario.gateway_rejecting_null)
           (PixCharge "u1") "o1" Sample.store_with_tx1 Sample.order_o1
           Sample.tx_pix_tx1 "tx1" JsNull Hchecks eq_refl eq_refl Hne
           eq_refl).
Defined.
